(** * StockMaster scanner backend

    A shallow embedding of the scanner backend of the StockMaster
    inventory system:

    - [database.py]: the SQLAlchemy models and [ScannerDatabaseOperations]
      (catalog lookup, [update_stock], the receipt and delivery scans,
      [log_scan], [get_scan_history]);
    - [api.py]: the HTTP handlers [scan_receipt], [scan_delivery],
      [lookup_barcode], [get_scan_history], [start_scanner] and
      [stop_scanner];
    - [scanner_engine.py]: [BarcodeScanner], with the merge of the two
      detection passes in [scan_frame];
    - [generate_qr.py]: the payloads and file names of the QR codes, the
      batch of products and the grid of the printable sheet.

    Modelling conventions.

    - A table is the list of its rows in insertion order; [session.add]
      followed by [session.commit] appends a row, and
      [query(...).filter(...).first()] is [find].
    - A [with db_manager.get_session() as session] block that is left by
      [raise] before [session.commit()] leaves the database as it was:
      the pending objects of the session are discarded when it closes.
    - Quantities are Python floats ([Float] columns): IEEE 754 binary64
      numbers.  They are the primitive floats of Rocq, which are binary64
      with a single NaN: [+], unary [-], [abs] and [<] are the operations
      of the hardware, with their rounding, signed zeros, infinities and
      NaN.  The integer 0 that the code gives a new balance and compares
      a balance with is the float 0.0, to which Python converts it
      before it adds or compares.  A [Float] column gives back the float
      that was stored in it.  The rationals [Q] only serve to say what
      the sum of floats is without rounding.
    - The values of [uuid.uuid4()] drawn by a call are inputs of the call.
    - Timestamp columns ([created_at], [last_updated], [scan_timestamp])
      and logging are not modelled. *)

From Stdlib Require Import List String Bool ZArith QArith Floats Lia.
From Stdlib Require Import Sorted Permutation DecimalString.
Import ListNotations.

Local Open Scope string_scope.
Local Open Scope float_scope.

(** ** Python values *)

(** A Python [float] is a [float] of [PrimFloat]; the literal [0] below
    is [0.0]. *)

(** [Optional[str]]. *)
Definition optional_str := option string.

(** ** Models ([database.py]) *)

Module Product.
Record t := {
  id : string;
  name : string;
  sku : string;
  category : optional_str;
  unit_of_measure : optional_str;
  reorder_threshold : Z;
  barcode : optional_str
}.
End Product.

Module Warehouse.
Record t := {
  id : string;
  name : string;
  code : string;
  location : optional_str;
  type : optional_str;
  barcode : optional_str
}.
End Warehouse.

Module StockLevel.
Record t := {
  id : string;
  product_id : string;
  warehouse_id : string;
  quantity : float
}.
End StockLevel.

Inductive MovementType :=
| RECEIPT
| DELIVERY
| TRANSFER
| ADJUSTMENT
| SCAN_RECEIPT
| SCAN_DELIVERY.

Module StockMovement.
Record t := {
  id : string;
  product_id : string;
  warehouse_id : optional_str;
  source_warehouse_id : optional_str;
  destination_warehouse_id : optional_str;
  movement_type : MovementType;
  quantity : float;
  quantity_change : float;
  reason : optional_str;
  scanned_by : optional_str;
  scanner_id : optional_str;
  created_by : optional_str
}.
End StockMovement.

Module ScanLog.
Record t := {
  id : string;
  barcode_data : string;
  barcode_type : string;
  scanner_id : optional_str;
  camera_id : Z;
  action_taken : string;
  product_id : optional_str;
  warehouse_id : optional_str;
  quantity : option float;
  success : Z;
  error_message : optional_str;
  metadata : optional_str
}.
End ScanLog.

(** The five tables. *)
Record Database := {
  products : list Product.t;
  warehouses : list Warehouse.t;
  stock_levels : list StockLevel.t;
  stock_movements : list StockMovement.t;
  scan_logs : list ScanLog.t
}.

Definition empty_database : Database :=
  {| products := []; warehouses := []; stock_levels := [];
     stock_movements := []; scan_logs := [] |}.

(** ** Exceptions *)

(** The texts of the [ValueError]s raised by the database operations:
    [f"Product not found: {product_barcode}"],
    [f"Warehouse not found: {warehouse_barcode}"] and
    [f"Insufficient stock. Available: {stock.quantity}"]. *)
Inductive message :=
| Product_not_found (product_barcode : string)
| Warehouse_not_found (warehouse_barcode : string)
| Insufficient_stock (available : float).

Inductive exn :=
| ValueError (msg : message).

(** [str(e)]. *)
Definition str (e : exn) : message :=
  match e with ValueError msg => msg end.

(** The result of a call that may raise. *)
Inductive outcome (A : Type) :=
| Return (a : A)
| Raise (e : exn).
Arguments Return {A} a.
Arguments Raise {A} e.

(** ** Queries *)

(** Equality of a nullable string column with a string: SQL [NULL = s]
    selects nothing. *)
Definition column_eqb (c : optional_str) (s : string) : bool :=
  match c with
  | Some v => String.eqb v s
  | None => false
  end.

(** [session.query(Product).filter(Product.barcode == barcode).first()] *)
Definition find_product_by_barcode (db : Database) (barcode : string)
  : option Product.t :=
  find (fun p => column_eqb (Product.barcode p) barcode) (products db).

(** [session.query(Warehouse).filter(Warehouse.barcode == barcode).first()] *)
Definition find_warehouse_by_barcode (db : Database) (barcode : string)
  : option Warehouse.t :=
  find (fun w => column_eqb (Warehouse.barcode w) barcode) (warehouses db).

(** The filter [StockLevel.product_id == product_id,
    StockLevel.warehouse_id == warehouse_id]. *)
Definition stock_filter (product_id warehouse_id : string)
  (s : StockLevel.t) : bool :=
  String.eqb (StockLevel.product_id s) product_id
  && String.eqb (StockLevel.warehouse_id s) warehouse_id.

Definition get_stock_level (db : Database) (product_id warehouse_id : string)
  : float :=
  match find (stock_filter product_id warehouse_id) (stock_levels db) with
  | Some stock => StockLevel.quantity stock
  | None => 0
  end.

(** ** The ledger: [update_stock] *)

(** The row selected by [first()] is the one the session writes back at
    commit: the first row that passes the filter is replaced. *)
Fixpoint update_first {A : Type} (p : A -> bool) (new : A) (rows : list A)
  : list A :=
  match rows with
  | [] => []
  | r :: rest => if p r then new :: rest else r :: update_first p new rest
  end.

Definition set_quantity (s : StockLevel.t) (q : float) : StockLevel.t :=
  {| StockLevel.id := StockLevel.id s;
     StockLevel.product_id := StockLevel.product_id s;
     StockLevel.warehouse_id := StockLevel.warehouse_id s;
     StockLevel.quantity := q |}.

(** The dictionary returned by [update_stock]. *)
Module UpdateResult.
Record t := {
  old_quantity : float;
  new_quantity : float;
  quantity_change : float;
  movement_id : string
}.
End UpdateResult.

(** [uuid_stock] is the [uuid4()] of the new [StockLevel] row (drawn only
    when the row is absent), [uuid_movement] that of the movement. *)
Definition update_stock (db : Database) (uuid_stock uuid_movement : string)
  (product_id warehouse_id : string) (quantity_change : float)
  (movement_type : MovementType)
  (reason scanned_by scanner_id : optional_str)
  : Database * outcome UpdateResult.t :=
  (* Get or create stock level *)
  let found := find (stock_filter product_id warehouse_id) (stock_levels db) in
  let stock :=
    match found with
    | None => {| StockLevel.id := uuid_stock;
                 StockLevel.product_id := product_id;
                 StockLevel.warehouse_id := warehouse_id;
                 StockLevel.quantity := 0 |}
    | Some row => row
    end in
  let old_qty :=
    match found with
    | None => 0
    | Some row => StockLevel.quantity row
    end in
  (* Update quantity *)
  let new_qty := StockLevel.quantity stock + quantity_change in
  (* Prevent negative stock *)
  if new_qty <? 0 then
    (db, Raise (ValueError (Insufficient_stock (StockLevel.quantity stock))))
  else
    let stock' := set_quantity stock new_qty in
    (* Create movement record *)
    let movement :=
      {| StockMovement.id := uuid_movement;
         StockMovement.product_id := product_id;
         StockMovement.warehouse_id := Some warehouse_id;
         StockMovement.source_warehouse_id := None;
         StockMovement.destination_warehouse_id := None;
         StockMovement.movement_type := movement_type;
         StockMovement.quantity := abs quantity_change;
         StockMovement.quantity_change := quantity_change;
         StockMovement.reason := reason;
         StockMovement.scanned_by := scanned_by;
         StockMovement.scanner_id := scanner_id;
         StockMovement.created_by := None |} in
    (* session.commit() *)
    ({| products := products db;
        warehouses := warehouses db;
        stock_levels :=
          match found with
          | None => stock_levels db ++ [stock']
          | Some _ =>
              update_first (stock_filter product_id warehouse_id) stock'
                (stock_levels db)
          end;
        stock_movements := stock_movements db ++ [movement];
        scan_logs := scan_logs db |},
     Return {| UpdateResult.old_quantity := old_qty;
               UpdateResult.new_quantity := new_qty;
               UpdateResult.quantity_change := quantity_change;
               UpdateResult.movement_id := uuid_movement |}).

(** ** The scan router: [process_receipt_scan], [process_delivery_scan] *)

(** The dictionary returned by the two scan operations: on success
    [{'success': True, 'action': ..., 'product': {...},
      'warehouse': {...}, **result}], after an exception
    [{'success': False, 'error': str(e)}]. *)
Module ScanOutcome.
Record product_ref := { product_id : string; product_name : string; sku : string }.
Record warehouse_ref := { warehouse_id : string; warehouse_name : string }.

Inductive t :=
| Succeeded (action : string) (product : product_ref)
    (warehouse : warehouse_ref) (result : UpdateResult.t)
| Failed (error : message).

(** [result['success']] *)
Definition success (r : t) : bool :=
  match r with
  | Succeeded _ _ _ _ => true
  | Failed _ => false
  end.

(** [result.get('product', {}).get('id')] *)
Definition get_product_id (r : t) : optional_str :=
  match r with
  | Succeeded _ p _ _ => Some (product_id p)
  | Failed _ => None
  end.

(** [result.get('warehouse', {}).get('id')] *)
Definition get_warehouse_id (r : t) : optional_str :=
  match r with
  | Succeeded _ _ w _ => Some (warehouse_id w)
  | Failed _ => None
  end.
End ScanOutcome.

Definition product_ref_of (p : Product.t) : ScanOutcome.product_ref :=
  {| ScanOutcome.product_id := Product.id p;
     ScanOutcome.product_name := Product.name p;
     ScanOutcome.sku := Product.sku p |}.

Definition warehouse_ref_of (w : Warehouse.t) : ScanOutcome.warehouse_ref :=
  {| ScanOutcome.warehouse_id := Warehouse.id w;
     ScanOutcome.warehouse_name := Warehouse.name w |}.

(** The [try: ... except Exception as e:] around the body of a scan
    operation. *)
Definition scan_body_result (action : string) (product : Product.t)
  (warehouse : Warehouse.t) (r : outcome UpdateResult.t) : ScanOutcome.t :=
  match r with
  | Return result =>
      ScanOutcome.Succeeded action (product_ref_of product)
        (warehouse_ref_of warehouse) result
  | Raise e => ScanOutcome.Failed (str e)
  end.

Definition process_receipt_scan (db : Database)
  (uuid_stock uuid_movement : string)
  (product_barcode warehouse_barcode : string) (quantity : float)
  (scanned_by scanner_id : optional_str)
  : Database * ScanOutcome.t :=
  (* Find product *)
  match find_product_by_barcode db product_barcode with
  | None =>
      (db, ScanOutcome.Failed
             (str (ValueError (Product_not_found product_barcode))))
  | Some product =>
      (* Find warehouse *)
      match find_warehouse_by_barcode db warehouse_barcode with
      | None =>
          (db, ScanOutcome.Failed
                 (str (ValueError (Warehouse_not_found warehouse_barcode))))
      | Some warehouse =>
          (* Update stock *)
          let (db', r) :=
            update_stock db uuid_stock uuid_movement
              (Product.id product) (Warehouse.id warehouse)
              quantity
              SCAN_RECEIPT
              (Some ("Scanned receipt: " ++ Product.name product)%string)
              scanned_by scanner_id in
          (db', scan_body_result "receipt" product warehouse r)
      end
  end.

Definition process_delivery_scan (db : Database)
  (uuid_stock uuid_movement : string)
  (product_barcode warehouse_barcode : string) (quantity : float)
  (scanned_by scanner_id : optional_str)
  : Database * ScanOutcome.t :=
  match find_product_by_barcode db product_barcode with
  | None =>
      (db, ScanOutcome.Failed
             (str (ValueError (Product_not_found product_barcode))))
  | Some product =>
      match find_warehouse_by_barcode db warehouse_barcode with
      | None =>
          (db, ScanOutcome.Failed
                 (str (ValueError (Warehouse_not_found warehouse_barcode))))
      | Some warehouse =>
          (* Update stock (negative quantity for delivery) *)
          let (db', r) :=
            update_stock db uuid_stock uuid_movement
              (Product.id product) (Warehouse.id warehouse)
              (- quantity)
              SCAN_DELIVERY
              (Some ("Scanned delivery: " ++ Product.name product)%string)
              scanned_by scanner_id in
          (db', scan_body_result "delivery" product warehouse r)
      end
  end.

(** ** The scan log: [log_scan] *)

Definition log_scan (db : Database) (uuid_log : string)
  (barcode_data barcode_type : string) (scanner_id : optional_str)
  (camera_id : Z) (action_taken : string)
  (product_id warehouse_id : optional_str) (quantity : option float)
  (success : bool) (error_message : optional_str)
  : Database * string :=
  let scan_log :=
    {| ScanLog.id := uuid_log;
       ScanLog.barcode_data := barcode_data;
       ScanLog.barcode_type := barcode_type;
       ScanLog.scanner_id := scanner_id;
       ScanLog.camera_id := camera_id;
       ScanLog.action_taken := action_taken;
       ScanLog.product_id := product_id;
       ScanLog.warehouse_id := warehouse_id;
       ScanLog.quantity := quantity;
       ScanLog.success := if success then 1%Z else 0%Z;
       ScanLog.error_message := error_message;
       ScanLog.metadata := None |} in
  ({| products := products db;
      warehouses := warehouses db;
      stock_levels := stock_levels db;
      stock_movements := stock_movements db;
      scan_logs := scan_logs db ++ [scan_log] |},
   ScanLog.id scan_log).

(** ** HTTP handlers ([api.py]) *)

(** [ReceiptRequest] and [DeliveryRequest] have the same fields. *)
Module ScanRequest.
Record t := {
  product_barcode : string;
  warehouse_barcode : string;
  quantity : float;
  scanned_by : optional_str;
  scanner_id : optional_str
}.
End ScanRequest.

(** What a handler gives back: its return value, or an [HTTPException]. *)
Inductive response (A : Type) :=
| Respond (body : A)
| HTTPException (status_code : Z) (detail : string).
Arguments Respond {A} body.
Arguments HTTPException {A} status_code detail.

(** The three [uuid4()] values a scan handler may draw. *)
Record Uuids := {
  uuid_stock : string;
  uuid_movement : string;
  uuid_log : string
}.

(** [POST /scan/receipt].  The broadcast to the WebSocket clients that
    follows the log does not touch the database and is left out.  No
    call of the body raises here ([process_receipt_scan] catches every
    exception itself), so the handler's own [except] branch, which turns
    an exception into [HTTPException(400)], is never taken. *)
Definition scan_receipt (db : Database) (u : Uuids) (request : ScanRequest.t)
  : Database * response ScanOutcome.t :=
  let (db1, result) :=
    process_receipt_scan db (uuid_stock u) (uuid_movement u)
      (ScanRequest.product_barcode request)
      (ScanRequest.warehouse_barcode request)
      (ScanRequest.quantity request)
      (ScanRequest.scanned_by request)
      (ScanRequest.scanner_id request) in
  (* Log the scan *)
  let (db2, _) :=
    log_scan db1 (uuid_log u)
      (ScanRequest.product_barcode request)
      "QR_CODE"
      (ScanRequest.scanner_id request)
      0%Z
      "receipt"
      (ScanOutcome.get_product_id result)
      (ScanOutcome.get_warehouse_id result)
      (Some (ScanRequest.quantity request))
      (ScanOutcome.success result)
      None in
  (db2, Respond result).

(** [POST /scan/delivery] *)
Definition scan_delivery (db : Database) (u : Uuids) (request : ScanRequest.t)
  : Database * response ScanOutcome.t :=
  let (db1, result) :=
    process_delivery_scan db (uuid_stock u) (uuid_movement u)
      (ScanRequest.product_barcode request)
      (ScanRequest.warehouse_barcode request)
      (ScanRequest.quantity request)
      (ScanRequest.scanned_by request)
      (ScanRequest.scanner_id request) in
  let (db2, _) :=
    log_scan db1 (uuid_log u)
      (ScanRequest.product_barcode request)
      "QR_CODE"
      (ScanRequest.scanner_id request)
      0%Z
      "delivery"
      (ScanOutcome.get_product_id result)
      (ScanOutcome.get_warehouse_id result)
      (Some (ScanRequest.quantity request))
      (ScanOutcome.success result)
      None in
  (db2, Respond result).

(** The body of a successful lookup: [{"type": "product", "data": {...}}]
    or [{"type": "warehouse", "data": {...}}]. *)
Module Lookup.
Record product_data := {
  product_id : string;
  product_name : string;
  sku : string;
  category : optional_str;
  unit_of_measure : optional_str;
  product_barcode : optional_str
}.
Record warehouse_data := {
  warehouse_id : string;
  warehouse_name : string;
  code : string;
  location : optional_str;
  warehouse_barcode : optional_str
}.
Inductive t :=
| product (data : product_data)
| warehouse (data : warehouse_data).
End Lookup.

(** [GET /scan/lookup/{barcode}] *)
Definition lookup_barcode (db : Database) (barcode : string)
  : Database * response Lookup.t :=
  (* Try to find product *)
  match find_product_by_barcode db barcode with
  | Some product =>
      (db, Respond (Lookup.product
             {| Lookup.product_id := Product.id product;
                Lookup.product_name := Product.name product;
                Lookup.sku := Product.sku product;
                Lookup.category := Product.category product;
                Lookup.unit_of_measure := Product.unit_of_measure product;
                Lookup.product_barcode := Product.barcode product |}))
  | None =>
      (* Try to find warehouse *)
      match find_warehouse_by_barcode db barcode with
      | Some warehouse =>
          (db, Respond (Lookup.warehouse
                 {| Lookup.warehouse_id := Warehouse.id warehouse;
                    Lookup.warehouse_name := Warehouse.name warehouse;
                    Lookup.code := Warehouse.code warehouse;
                    Lookup.location := Warehouse.location warehouse;
                    Lookup.warehouse_barcode := Warehouse.barcode warehouse |}))
      | None => (db, HTTPException 404 "Barcode not found")
      end
  end.

(** ** The detection merge ([scanner_engine.py]) *)

(** A Python [bytes] value; a [str] is represented by its UTF-8 bytes. *)
Definition bytes := string.

(** A detection returned by [pyzbar.decode]. *)
Module Decoded.
Record t := {
  data : bytes;
  type : string;
  rect : Z * Z * Z * Z
}.
End Decoded.

(** A Python [dict] with [bytes] keys: the items in insertion order.
    Assigning to a key that is present replaces its value and keeps its
    position; assigning to a new key appends an item. *)
Module PyDict.
Section Dict.
Context {V : Type}.

Definition t := list (bytes * V).

Fixpoint setitem (d : t) (k : bytes) (v : V) : t :=
  match d with
  | [] => [(k, v)]
  | (k', v') :: rest =>
      if String.eqb k' k then (k', v) :: rest
      else (k', v') :: setitem rest k v
  end.

Definition keys (d : t) : list bytes := map fst d.
Definition values (d : t) : list V := map snd d.
End Dict.
Arguments t : clear implicits.
End PyDict.

(** [{b.data: b for b in bs}] *)
Definition dict_by_data (bs : list Decoded.t) : PyDict.t Decoded.t :=
  fold_left (fun d b => PyDict.setitem d (Decoded.data b) b) bs [].

(** [all_barcodes = list({b.data: b
                          for b in (barcodes + barcodes_thresh)}.values())] *)
Definition all_barcodes (barcodes barcodes_thresh : list Decoded.t)
  : list Decoded.t :=
  PyDict.values (dict_by_data (barcodes ++ barcodes_thresh)).

Module ScanResult.
Record t := {
  data : string;
  type : string;
  bbox : Z * Z * Z * Z;
  confidence : float
}.
End ScanResult.

Section ScanFrame.
(** [bytes.decode('utf-8')]; [None] when it raises [UnicodeDecodeError]. *)
Variable decode_utf8 : bytes -> option string.

(** One turn of the loop [for barcode in all_barcodes]. *)
Definition scan_result (barcode : Decoded.t) : option ScanResult.t :=
  match decode_utf8 (Decoded.data barcode) with
  | Some data =>
      Some {| ScanResult.data := data;
              ScanResult.type := Decoded.type barcode;
              ScanResult.bbox := Decoded.rect barcode;
              ScanResult.confidence := 1 |}
  | None => None
  end.

Fixpoint scan_results (all : list Decoded.t) (results : list ScanResult.t)
  : option (list ScanResult.t) :=
  match all with
  | [] => Some results
  | barcode :: rest =>
      match scan_result barcode with
      | Some result => scan_results rest (results ++ [result])
      | None => None
      end
  end.

(** [scan_frame], from the two lists that [pyzbar.decode] gives for the
    frame and for its thresholded copy. *)
Definition scan_frame (barcodes barcodes_thresh : list Decoded.t)
  : option (list ScanResult.t) :=
  scan_results (all_barcodes barcodes barcodes_thresh) [].
End ScanFrame.

(** ** Sequences of ledger calls *)

(** The arguments of one [update_stock] call, with the identifiers it
    draws. *)
Module Adjust.
Record t := {
  uuid_stock : string;
  uuid_movement : string;
  product_id : string;
  warehouse_id : string;
  quantity_change : float;
  movement_type : MovementType;
  reason : optional_str;
  scanned_by : optional_str;
  scanner_id : optional_str
}.
End Adjust.

Definition adjust (db : Database) (c : Adjust.t)
  : Database * outcome UpdateResult.t :=
  update_stock db (Adjust.uuid_stock c) (Adjust.uuid_movement c)
    (Adjust.product_id c) (Adjust.warehouse_id c)
    (Adjust.quantity_change c) (Adjust.movement_type c)
    (Adjust.reason c) (Adjust.scanned_by c) (Adjust.scanner_id c).

(** The database after a sequence of calls, each one made on the state
    the previous one left. *)
Fixpoint adjust_all (db : Database) (calls : list Adjust.t) : Database :=
  match calls with
  | [] => db
  | c :: rest => adjust_all (fst (adjust db c)) rest
  end.

(** The movements recorded for a (product, warehouse) key and the sum of
    their [quantity_change]: the running sum in the order of the table,
    in float arithmetic, as Python's [sum] computes it. *)
Definition movement_filter (product_id warehouse_id : string)
  (m : StockMovement.t) : bool :=
  String.eqb (StockMovement.product_id m) product_id
  && column_eqb (StockMovement.warehouse_id m) warehouse_id.

Definition movements_of (db : Database) (product_id warehouse_id : string)
  : list StockMovement.t :=
  filter (movement_filter product_id warehouse_id) (stock_movements db).

Definition sum (qs : list float) : float :=
  fold_left (fun total q => total + q) qs 0.

Definition movement_sum (db : Database) (product_id warehouse_id : string)
  : float :=
  sum (map StockMovement.quantity_change
         (movements_of db product_id warehouse_id)).

(** ** Vocabulary of the statements *)



(** Every balance is the running sum of the movements recorded for its
    key. *)
Definition ledger_consistent (db : Database) : Prop :=
  forall product_id warehouse_id,
    get_stock_level db product_id warehouse_id
    = movement_sum db product_id warehouse_id.

(** The rational number that a float denotes; infinities and NaN denote
    none. *)
Definition real_value (x : float) : option Q :=
  match Prim2SF x with
  | S754_zero _ => Some 0%Q
  | S754_finite s m e =>
      Some ((if s then -1 else 1) * inject_Z (Z.pos m) * 2 ^ e)%Q
  | _ => None
  end.

(** The sum, without rounding, of the numbers that the floats of a list
    denote. *)
Fixpoint exact_sum (qs : list float) : option Q :=
  match qs with
  | [] => Some 0%Q
  | q :: rest =>
      match real_value q, exact_sum rest with
      | Some a, Some b => Some (a + b)%Q
      | _, _ => None
      end
  end.

(** The movement row that a committed [update_stock] call inserts. *)
Definition movement_row (uuid_movement product_id warehouse_id : string)
  (quantity_change : float) (movement_type : MovementType)
  (reason scanned_by scanner_id : optional_str) : StockMovement.t :=
  {| StockMovement.id := uuid_movement;
     StockMovement.product_id := product_id;
     StockMovement.warehouse_id := Some warehouse_id;
     StockMovement.source_warehouse_id := None;
     StockMovement.destination_warehouse_id := None;
     StockMovement.movement_type := movement_type;
     StockMovement.quantity := abs quantity_change;
     StockMovement.quantity_change := quantity_change;
     StockMovement.reason := reason;
     StockMovement.scanned_by := scanned_by;
     StockMovement.scanner_id := scanner_id;
     StockMovement.created_by := None |}.

Definition movement_of (c : Adjust.t) : StockMovement.t :=
  movement_row (Adjust.uuid_movement c) (Adjust.product_id c)
    (Adjust.warehouse_id c) (Adjust.quantity_change c)
    (Adjust.movement_type c) (Adjust.reason c) (Adjust.scanned_by c)
    (Adjust.scanner_id c).

(** The scan log row written by a scan handler. *)
Definition scan_log_row (action : string) (u : Uuids)
  (request : ScanRequest.t) (result : ScanOutcome.t) : ScanLog.t :=
  {| ScanLog.id := uuid_log u;
     ScanLog.barcode_data := ScanRequest.product_barcode request;
     ScanLog.barcode_type := "QR_CODE";
     ScanLog.scanner_id := ScanRequest.scanner_id request;
     ScanLog.camera_id := 0%Z;
     ScanLog.action_taken := action;
     ScanLog.product_id := ScanOutcome.get_product_id result;
     ScanLog.warehouse_id := ScanOutcome.get_warehouse_id result;
     ScanLog.quantity := Some (ScanRequest.quantity request);
     ScanLog.success := if ScanOutcome.success result then 1%Z else 0%Z;
     ScanLog.error_message := None;
     ScanLog.metadata := None |}.

(** The payloads of a list in the order of their first occurrence: the
    head, then the first occurrences of the rest without the head. *)
Fixpoint first_occurrences (payloads : list bytes) : list bytes :=
  match payloads with
  | [] => []
  | p :: rest =>
      p :: filter (fun q => negb (String.eqb q p)) (first_occurrences rest)
  end.

Definition has_data (payload : bytes) (b : Decoded.t) : bool :=
  String.eqb (Decoded.data b) payload.

(** The earliest and the latest detection of a list with a payload. *)
Definition first_with_data (payload : bytes) (bs : list Decoded.t)
  : option Decoded.t :=
  find (has_data payload) bs.

Definition last_with_data (payload : bytes) (bs : list Decoded.t)
  : option Decoded.t :=
  find (has_data payload) (rev bs).

(** ** Sample data *)

Definition steel_rod : Product.t :=
  {| Product.id := "prod-001";
     Product.name := "Steel Rods";
     Product.sku := "STEEL-ROD-50";
     Product.category := Some "Raw Materials";
     Product.unit_of_measure := Some "kg";
     Product.reorder_threshold := 10%Z;
     Product.barcode := Some "STEEL-ROD-50" |}.

Definition wh_main : Warehouse.t :=
  {| Warehouse.id := "wh-001";
     Warehouse.name := "Main Warehouse";
     Warehouse.code := "WH-MAIN";
     Warehouse.location := Some "Building A";
     Warehouse.type := Some "main";
     Warehouse.barcode := Some "WH-MAIN" |}.

(** A catalog with one product and one warehouse, and nothing else. *)
Definition catalog_db : Database :=
  {| products := [steel_rod];
     warehouses := [wh_main];
     stock_levels := [];
     stock_movements := [];
     scan_logs := [] |}.

Definition sample_adjust (n : string) (quantity_change : float)
  : Adjust.t :=
  {| Adjust.uuid_stock := ("stock-" ++ n)%string;
     Adjust.uuid_movement := ("movement-" ++ n)%string;
     Adjust.product_id := "prod-001";
     Adjust.warehouse_id := "wh-001";
     Adjust.quantity_change := quantity_change;
     Adjust.movement_type := ADJUSTMENT;
     Adjust.reason := None;
     Adjust.scanned_by := Some "scanner_user";
     Adjust.scanner_id := Some "web_scanner" |}.

Definition sample_uuids (n : string) : Uuids :=
  {| uuid_stock := ("stock-" ++ n)%string;
     uuid_movement := ("movement-" ++ n)%string;
     uuid_log := ("log-" ++ n)%string |}.

Definition sample_request (product_barcode warehouse_barcode : string)
  (quantity : float) : ScanRequest.t :=
  {| ScanRequest.product_barcode := product_barcode;
     ScanRequest.warehouse_barcode := warehouse_barcode;
     ScanRequest.quantity := quantity;
     ScanRequest.scanned_by := Some "scanner_user";
     ScanRequest.scanner_id := Some "web_scanner" |}.

Definition detection (data type : string) (left : Z) : Decoded.t :=
  {| Decoded.data := data;
     Decoded.type := type;
     Decoded.rect := (left, 0%Z, 40%Z, 40%Z) |}.

(** The [data] of a lookup response. *)
Definition product_data_of (p : Product.t) : Lookup.product_data :=
  {| Lookup.product_id := Product.id p;
     Lookup.product_name := Product.name p;
     Lookup.sku := Product.sku p;
     Lookup.category := Product.category p;
     Lookup.unit_of_measure := Product.unit_of_measure p;
     Lookup.product_barcode := Product.barcode p |}.

Definition warehouse_data_of (w : Warehouse.t) : Lookup.warehouse_data :=
  {| Lookup.warehouse_id := Warehouse.id w;
     Lookup.warehouse_name := Warehouse.name w;
     Lookup.code := Warehouse.code w;
     Lookup.location := Warehouse.location w;
     Lookup.warehouse_barcode := Warehouse.barcode w |}.

(** A warehouse whose barcode is the barcode of [steel_rod], and a
    catalog that holds both. *)
Definition wh_clash : Warehouse.t :=
  {| Warehouse.id := "wh-002";
     Warehouse.name := "Transit Warehouse";
     Warehouse.code := "WH-TRANSIT";
     Warehouse.location := None;
     Warehouse.type := Some "transit";
     Warehouse.barcode := Some "STEEL-ROD-50" |}.

Definition clash_db : Database :=
  {| products := [steel_rod];
     warehouses := [wh_main; wh_clash];
     stock_levels := [];
     stock_movements := [];
     scan_logs := [] |}.

(** The ledger of [catalog_db] after a receipt of 10 and after a receipt
    of 5. *)
Definition stocked_db : Database :=
  fst (adjust catalog_db (sample_adjust "0" 10)).

Definition five_db : Database :=
  fst (adjust catalog_db (sample_adjust "1" 5)).

(** The ledger of [catalog_db] after a receipt of [1e16], above which
    the floats are two apart. *)
Definition big_db : Database :=
  fst (adjust catalog_db (sample_adjust "0" 1e16)).

(** Membership of a payload in a list of payloads. *)
Definition mem (payload : bytes) (payloads : list bytes) : bool :=
  existsb (fun q => String.eqb q payload) payloads.

(** One code seen as a QR code by the raw pass and as CODE128, elsewhere
    in the image, by the thresholded pass. *)
Definition seen_raw : Decoded.t := detection "A" "QRCODE" 10.
Definition seen_thresh : Decoded.t := detection "A" "CODE128" 200.

(** ** Vocabulary for sequences of calls and of requests *)

(** Whether a call returned. *)
Definition returned {A : Type} (o : outcome A) : bool :=
  match o with
  | Return _ => true
  | Raise _ => false
  end.

(** The movements of the calls of a sequence that return, in the order of
    the calls, each call made on the state the previous one left. *)
Fixpoint committed_movements (db : Database) (calls : list Adjust.t)
  : list StockMovement.t :=
  match calls with
  | [] => []
  | c :: rest =>
      (if returned (snd (adjust db c)) then [movement_of c] else [])
      ++ committed_movements (fst (adjust db c)) rest
  end.

(** The key and the identity (id and key) of a stock level row. *)
Definition stock_key (s : StockLevel.t) : string * string :=
  (StockLevel.product_id s, StockLevel.warehouse_id s).

Definition stock_identity (s : StockLevel.t) : string * (string * string) :=
  (StockLevel.id s, stock_key s).

Definition adjust_key (c : Adjust.t) : string * string :=
  (Adjust.product_id c, Adjust.warehouse_id c).

(** A request to one of the two scan handlers, with the identifiers the
    handler draws. *)
Inductive scan_action :=
| Receipt
| Delivery.

Module Scan.
Record t := {
  action : scan_action;
  uuids : Uuids;
  request : ScanRequest.t
}.
End Scan.

Definition handle (db : Database) (s : Scan.t)
  : Database * response ScanOutcome.t :=
  match Scan.action s with
  | Receipt => scan_receipt db (Scan.uuids s) (Scan.request s)
  | Delivery => scan_delivery db (Scan.uuids s) (Scan.request s)
  end.

(** The database after a sequence of requests, each one handled on the
    state the previous one left. *)
Fixpoint handle_all (db : Database) (scans : list Scan.t) : Database :=
  match scans with
  | [] => db
  | s :: rest => handle_all (fst (handle db s)) rest
  end.

(** The rows of a scan log whose success column is 1. *)
Definition success_rows (logs : list ScanLog.t) : list ScanLog.t :=
  filter (fun log => Z.eqb (ScanLog.success log) 1) logs.

Definition sample_scan (action : scan_action) (n : string)
  (product_barcode warehouse_barcode : string) (quantity : float)
  : Scan.t :=
  {| Scan.action := action;
     Scan.uuids := sample_uuids n;
     Scan.request :=
       sample_request product_barcode warehouse_barcode quantity |}.

(** The [action_taken] that a scan handler writes to the log. *)
Definition action_name (a : scan_action) : string :=
  match a with
  | Receipt => "receipt"
  | Delivery => "delivery"
  end.

(** A decoder for the witnesses: on payloads of ASCII bytes UTF-8
    decoding is the identity; the byte 255 never occurs in UTF-8. *)
Fixpoint all_ascii (s : bytes) : bool :=
  match s with
  | EmptyString => true
  | String c rest => (Ascii.N_of_ascii c <? 128)%N && all_ascii rest
  end.

Definition decode_ascii (s : bytes) : option string :=
  if all_ascii s then Some s else None.

Definition bad_payload : bytes :=
  String (Ascii.ascii_of_N 255) EmptyString.

(** ** The scan history: [get_scan_history] *)

(** One dictionary of the list that [get_scan_history] returns.  The
    [timestamp] is the [scan_timestamp] of the row; its
    [isoformat()] rendering is not modelled. *)
Module HistoryEntry.
Record t := {
  id : string;
  barcode : string;
  type : string;
  action : string;
  timestamp : Z;
  success : bool;
  error : optional_str
}.
End HistoryEntry.

(** [if value: query = query.filter(column == value)]: the filter is
    applied when the value is neither [None] nor the empty string. *)
Definition filter_if_given (column : ScanLog.t -> optional_str)
  (value : optional_str) (rows : list ScanLog.t) : list ScanLog.t :=
  match value with
  | None => rows
  | Some EmptyString => rows
  | Some v => filter (fun log => column_eqb (column log) v) rows
  end.

Section ScanHistory.
(** The [scan_timestamp] column, which the rows of this development do
    not carry: the time at which each row was written. *)
Variable scan_timestamp : ScanLog.t -> Z.

(** [order_by(ScanLog.scan_timestamp.desc())].  SQL leaves the order of
    rows with equal timestamps open; here they keep their table order. *)
Fixpoint insert_desc (log : ScanLog.t) (sorted : list ScanLog.t)
  : list ScanLog.t :=
  match sorted with
  | [] => [log]
  | x :: rest =>
      if (scan_timestamp x <=? scan_timestamp log)%Z
      then log :: x :: rest
      else x :: insert_desc log rest
  end.

Definition order_by_timestamp_desc (rows : list ScanLog.t)
  : list ScanLog.t :=
  fold_right insert_desc [] rows.

Definition history_entry (log : ScanLog.t) : HistoryEntry.t :=
  {| HistoryEntry.id := ScanLog.id log;
     HistoryEntry.barcode := ScanLog.barcode_data log;
     HistoryEntry.type := ScanLog.barcode_type log;
     HistoryEntry.action := ScanLog.action_taken log;
     HistoryEntry.timestamp := scan_timestamp log;
     HistoryEntry.success := negb (Z.eqb (ScanLog.success log) 0);
     HistoryEntry.error := ScanLog.error_message log |}.

(** The rows that the query selects, before [limit]. *)
Definition history_rows (db : Database)
  (product_id warehouse_id : optional_str) : list ScanLog.t :=
  order_by_timestamp_desc
    (filter_if_given ScanLog.warehouse_id warehouse_id
       (filter_if_given ScanLog.product_id product_id (scan_logs db))).

(** [get_scan_history], for a limit that is not negative (a negative
    [LIMIT] is an error in PostgreSQL and no limit in SQLite). *)
Definition get_scan_history (db : Database) (limit : nat)
  (product_id warehouse_id : optional_str) : list HistoryEntry.t :=
  map history_entry
    (firstn limit (history_rows db product_id warehouse_id)).

(** [GET /scan/history]: [{"count": len(history), "history": history}]. *)
Definition scan_history_response (db : Database) (limit : nat)
  (product_id warehouse_id : optional_str)
  : nat * list HistoryEntry.t :=
  let history := get_scan_history db limit product_id warehouse_id in
  (List.length history, history).
End ScanHistory.

(** A clock for the witnesses: the time of a row is the number of
    characters of its id. *)
Definition sample_clock (log : ScanLog.t) : Z :=
  Z.of_nat (String.length (ScanLog.id log)).

(** ** Scanners and their registry ([scanner_engine.py], [api.py]) *)

(** [str(n)] for an [int]. *)
Definition str_int (n : Z) : string :=
  NilZero.string_of_int (Z.to_int n).

(** A [cv2.VideoCapture]: the device it was made for and whether it is
    open. *)
Module VideoCapture.
Record t := {
  device : Z;
  opened : bool
}.

Definition release (c : t) : t :=
  {| device := device c; opened := false |}.
End VideoCapture.

(** What a camera gives for a frame: the detections that [pyzbar.decode]
    finds in the frame and in its thresholded copy. *)
Definition Frame := (list Decoded.t * list Decoded.t)%type.

Module BarcodeScanner.
Record t := {
  camera_id : Z;
  resolution : Z * Z;
  cap : option VideoCapture.t;
  is_running : bool
}.

(** [BarcodeScanner(camera_id, resolution)] *)
Definition init (camera_id : Z) (resolution : Z * Z) : t :=
  {| camera_id := camera_id;
     resolution := resolution;
     cap := None;
     is_running := false |}.

(** [start_camera].  [camera_opens] tells whether the capture made for a
    device is open ([cap.isOpened()]); an exception of OpenCV, which the
    method answers with [False], is not modelled. *)
Definition start_camera (camera_opens : Z -> bool) (self : t) : t * bool :=
  let cap := {| VideoCapture.device := camera_id self;
                VideoCapture.opened := camera_opens (camera_id self) |} in
  if negb (VideoCapture.opened cap) then
    ({| camera_id := camera_id self;
        resolution := resolution self;
        cap := Some cap;
        is_running := is_running self |},
     false)
  else
    ({| camera_id := camera_id self;
        resolution := resolution self;
        cap := Some cap;
        is_running := true |},
     true).

(** [stop_camera]: a capture object, open or not, is truthy. *)
Definition stop_camera (self : t) : t :=
  match cap self with
  | Some c =>
      {| camera_id := camera_id self;
         resolution := resolution self;
         cap := Some (VideoCapture.release c);
         is_running := false |}
  | None => self
  end.
End BarcodeScanner.

Section CaptureAndScan.
Variable decode_utf8 : bytes -> option string.

(** [capture_and_scan].  [read] is what [self.cap.read()] would give:
    [None] when [ret] is false.  The result is [None] when [scan_frame]
    raises. *)
Definition capture_and_scan (self : BarcodeScanner.t) (read : option Frame)
  : option (option Frame * list ScanResult.t) :=
  if negb (BarcodeScanner.is_running self)
     || match BarcodeScanner.cap self with Some _ => false | None => true end
  then Some (None, [])
  else
    match read with
    | None => Some (None, [])
    | Some frame =>
        match scan_frame decode_utf8 (fst frame) (snd frame) with
        | Some results => Some (Some frame, results)
        | None => None
        end
    end.
End CaptureAndScan.

(** A Python [dict] with [int] keys, as [PyDict] is for [bytes] keys. *)
Module IntDict.
Section Dict.
Context {V : Type}.

Definition t := list (Z * V).

Fixpoint get (d : t) (k : Z) : option V :=
  match d with
  | [] => None
  | (k', v) :: rest => if Z.eqb k' k then Some v else get rest k
  end.

(** [k in d] *)
Definition contains (d : t) (k : Z) : bool :=
  match get d k with
  | Some _ => true
  | None => false
  end.

Fixpoint setitem (d : t) (k : Z) (v : V) : t :=
  match d with
  | [] => [(k, v)]
  | (k', v') :: rest =>
      if Z.eqb k' k then (k', v) :: rest
      else (k', v') :: setitem rest k v
  end.

(** [del d[k]], used on a key that is present only. *)
Fixpoint delitem (d : t) (k : Z) : t :=
  match d with
  | [] => []
  | (k', v) :: rest =>
      if Z.eqb k' k then rest else (k', v) :: delitem rest k
  end.

Definition keys (d : t) : list Z := map fst d.
End Dict.
Arguments t : clear implicits.
End IntDict.

(** [active_scanners: Dict[int, BarcodeScanner]] *)
Definition Registry := IntDict.t BarcodeScanner.t.

Module ScannerConfig.
Record t := {
  camera_id : Z;
  resolution_width : Z;
  resolution_height : Z
}.
End ScannerConfig.

(** The dictionary that [start_scanner] and [stop_scanner] return:
    [{"success": ..., "camera_id": ..., "message": ...}], the camera id
    being there after a successful start only. *)
Module ScannerStatus.
Record t := {
  success : bool;
  camera_id : option Z;
  message : string
}.
End ScannerStatus.

(** [POST /scanner/start] *)
Definition start_scanner (camera_opens : Z -> bool)
  (active_scanners : Registry) (config : ScannerConfig.t)
  : Registry * response ScannerStatus.t :=
  let camera_id := ScannerConfig.camera_id config in
  if IntDict.contains active_scanners camera_id then
    (active_scanners,
     Respond {| ScannerStatus.success := false;
                ScannerStatus.camera_id := None;
                ScannerStatus.message :=
                  ("Scanner " ++ str_int camera_id ++ " already running")%string |})
  else
    let scanner :=
      BarcodeScanner.init camera_id
        (ScannerConfig.resolution_width config,
         ScannerConfig.resolution_height config) in
    let (scanner, started) :=
      BarcodeScanner.start_camera camera_opens scanner in
    if started then
      (IntDict.setitem active_scanners camera_id scanner,
       Respond {| ScannerStatus.success := true;
                  ScannerStatus.camera_id := Some camera_id;
                  ScannerStatus.message :=
                    ("Scanner " ++ str_int camera_id
                     ++ " started successfully")%string |})
    else
      (active_scanners,
       Respond {| ScannerStatus.success := false;
                  ScannerStatus.camera_id := None;
                  ScannerStatus.message :=
                    ("Failed to start camera " ++ str_int camera_id)%string |}).

(** [POST /scanner/stop/{camera_id}].  The scanner that is stopped is
    dropped from the registry with its released capture. *)
Definition stop_scanner (active_scanners : Registry) (camera_id : Z)
  : Registry * response ScannerStatus.t :=
  if negb (IntDict.contains active_scanners camera_id) then
    (active_scanners,
     HTTPException 404
       ("Scanner " ++ str_int camera_id ++ " not found")%string)
  else
    (IntDict.delitem active_scanners camera_id,
     Respond {| ScannerStatus.success := true;
                ScannerStatus.camera_id := None;
                ScannerStatus.message :=
                  ("Scanner " ++ str_int camera_id ++ " stopped")%string |}).

(** A request to the registry: a start, with what the camera does, or a
    stop. *)
Inductive scanner_request :=
| Start (camera_opens : Z -> bool) (config : ScannerConfig.t)
| Stop (camera_id : Z).

Definition serve (active_scanners : Registry) (r : scanner_request)
  : Registry * response ScannerStatus.t :=
  match r with
  | Start camera_opens config => start_scanner camera_opens active_scanners config
  | Stop camera_id => stop_scanner active_scanners camera_id
  end.

Fixpoint serve_all (active_scanners : Registry)
  (requests : list scanner_request) : Registry :=
  match requests with
  | [] => active_scanners
  | r :: rest => serve_all (fst (serve active_scanners r)) rest
  end.

(** A registered scanner as [start_scanner] leaves it: made for its key,
    with an open capture on that device, and running. *)
Definition registered_running (entry : Z * BarcodeScanner.t) : Prop :=
  BarcodeScanner.camera_id (snd entry) = fst entry
  /\ BarcodeScanner.is_running (snd entry) = true
  /\ BarcodeScanner.cap (snd entry)
     = Some {| VideoCapture.device := fst entry;
               VideoCapture.opened := true |}.

Definition config_of (camera_id : Z) : ScannerConfig.t :=
  {| ScannerConfig.camera_id := camera_id;
     ScannerConfig.resolution_width := 1280;
     ScannerConfig.resolution_height := 720 |}.

(** ** QR payloads ([generate_qr.py]) *)

(** The Python values that go into a QR payload here: strings, integers
    and [None]. *)
Inductive pyvalue :=
| PyStr (s : string)
| PyInt (n : Z)
| PyNone.

(** [str(v)], as an f-string renders a value. *)
Definition py_str (v : pyvalue) : string :=
  match v with
  | PyStr s => s
  | PyInt n => str_int n
  | PyNone => "None"
  end.

(** [d.get(k)] and the update of a dictionary by the items of another,
    in their order: what [{..., **kwargs}] does with the items before
    and the items of [kwargs]. *)
Fixpoint dict_get {V : Type} (d : PyDict.t V) (k : string) : option V :=
  match d with
  | [] => None
  | (k', v) :: rest => if String.eqb k' k then Some v else dict_get rest k
  end.

Definition dict_update {V : Type} (d other : PyDict.t V) : PyDict.t V :=
  fold_left (fun acc item => PyDict.setitem acc (fst item) (snd item))
    other d.

(** A QR image: its file name in the output directory and the
    dictionary that its code carries.  The JSON text of the dictionary,
    the rendering of the code and the directory are not modelled. *)
Module QRFile.
Record t := {
  filename : string;
  qr_data : PyDict.t pyvalue
}.
End QRFile.

(** [generate_product_qr] and [generate_warehouse_qr] give the image
    that the method makes: its payload and its file name, which are
    computed whether or not the steps that follow raise.  Those steps,
    [qr.make(fit=True)] and [img.save(filepath)], are the environment's
    and are an input of [generate_batch_products] below. *)
Definition product_fields (product_id sku name : pyvalue)
  : PyDict.t pyvalue :=
  dict_update []
    [("type", PyStr "product"); ("id", product_id); ("sku", sku);
     ("name", name)]%string.

Definition generate_product_qr (product_id sku name : pyvalue)
  (kwargs : PyDict.t pyvalue) : QRFile.t :=
  let qr_data := dict_update (product_fields product_id sku name) kwargs in
  {| QRFile.filename := ("product_" ++ py_str sku ++ ".png")%string;
     QRFile.qr_data := qr_data |}.

Definition warehouse_fields (warehouse_id code name : pyvalue)
  : PyDict.t pyvalue :=
  dict_update []
    [("type", PyStr "warehouse"); ("id", warehouse_id); ("code", code);
     ("name", name)]%string.

Definition generate_warehouse_qr (warehouse_id code name : pyvalue)
  (kwargs : PyDict.t pyvalue) : QRFile.t :=
  let qr_data := dict_update (warehouse_fields warehouse_id code name) kwargs in
  {| QRFile.filename := ("warehouse_" ++ py_str code ++ ".png")%string;
     QRFile.qr_data := qr_data |}.

(** The call of a method with three named parameters and [**kwargs] on
    an unpacked dictionary [d]: the parameters take their items of [d],
    the other items are the [kwargs].  A missing parameter is a
    [TypeError] ([None]), and so is an item named [self], which the
    method already has. *)
Definition call_with_dict {A : Type}
  (f : pyvalue -> pyvalue -> pyvalue -> PyDict.t pyvalue -> A)
  (p1 p2 p3 : string) (d : PyDict.t pyvalue) : option A :=
  if mem "self" (PyDict.keys d) then None
  else
    match dict_get d p1, dict_get d p2, dict_get d p3 with
    | Some v1, Some v2, Some v3 =>
        Some (f v1 v2 v3
                (filter (fun item =>
                           negb (String.eqb (fst item) p1
                                 || String.eqb (fst item) p2
                                 || String.eqb (fst item) p3))
                   d))
    | _, _, _ => None
    end.

(** Whether the code of an image can be made and its file written:
    [qr.make(fit=True)] raises when the JSON text of the payload does
    not fit a QR code, and [img.save(filepath)] when the file cannot be
    written (a SKU with a [/] in it names a directory that does not
    exist). *)
Section Batch.
Variable can_save : QRFile.t -> bool.

(** The call of [generate_product_qr] on an unpacked product
    dictionary: the image that is saved, or [None] when the call
    raises. *)
Definition generate_product_qr_call (product : PyDict.t pyvalue)
  : option QRFile.t :=
  match call_with_dict generate_product_qr "product_id" "sku" "name"
          product with
  | Some file => if can_save file then Some file else None
  | None => None
  end.

(** [generate_batch_products]: the files that are saved, and the list of
    paths returned, or [None] when a call raises; the files saved before
    the call that raises stay. *)
Fixpoint generate_batch_products (products : list (PyDict.t pyvalue))
  : list QRFile.t * option (list string) :=
  match products with
  | [] => ([], Some [])
  | product :: rest =>
      match generate_product_qr_call product with
      | None => ([], None)
      | Some file =>
          let (saved, filepaths) := generate_batch_products rest in
          (file :: saved,
           match filepaths with
           | Some paths => Some (QRFile.filename file :: paths)
           | None => None
           end)
      end
  end.
End Batch.

(** The first demo warehouse of [generate_demo_set]. *)
Definition demo_warehouse_kwargs : PyDict.t pyvalue :=
  [("location", PyStr "Building A"); ("type", PyStr "main")]%string.

Definition demo_product : PyDict.t pyvalue :=
  [("product_id", PyStr "prod-001"); ("sku", PyStr "STEEL-ROD-50");
   ("name", PyStr "Steel Rods 50kg"); ("category", PyStr "Raw Materials");
   ("unit_of_measure", PyStr "kg")]%string.

(** A product whose SKU has a [/] in it, and a file system on which the
    file names without [/] can be written. *)
Definition slash_product : PyDict.t pyvalue :=
  [("product_id", PyStr "prod-009"); ("sku", PyStr "A/B");
   ("name", PyStr "Adapter")]%string.

Fixpoint has_slash (s : string) : bool :=
  match s with
  | EmptyString => false
  | String c rest => Ascii.eqb c (Ascii.ascii_of_nat 47) || has_slash rest
  end.

Definition flat_directory (file : QRFile.t) : bool :=
  negb (has_slash (QRFile.filename file)).

(** ** The printable sheet ([create_printable_sheet]) *)

(** Where one QR code is drawn: the page and the cell of the grid.  The
    coordinates on the page, which are computed from the cell, and the
    label are not modelled. *)
Module Placement.
Record t := {
  qr_path : string;
  page_num : Z;
  row : Z;
  col : Z
}.
End Placement.

Definition sheet_cols : Z := 3.
Definition sheet_rows : Z := 4.

(** The loop [for qr_path in qr_paths] of [create_printable_sheet], from
    a page number and an index on the page. *)
Fixpoint sheet_loop (qr_paths : list string) (page_num idx : Z)
  : list Placement.t :=
  match qr_paths with
  | [] => []
  | qr_path :: rest =>
      let turn := (idx >=? sheet_cols * sheet_rows)%Z in
      let idx := if turn then 0%Z else idx in
      let page_num := if turn then (page_num + 1)%Z else page_num in
      {| Placement.qr_path := qr_path;
         Placement.page_num := page_num;
         Placement.row := (idx / sheet_cols)%Z;
         Placement.col := (idx mod sheet_cols)%Z |}
      :: sheet_loop rest page_num (idx + 1)%Z
  end.

(** [create_printable_sheet], when [reportlab] is installed and every
    image of the list can be drawn: the cells in the order they are
    drawn. *)
Definition create_printable_sheet (qr_paths : list string)
  : list Placement.t :=
  sheet_loop qr_paths 1 0.

(** * Properties *)

Local Open Scope list_scope.

(** ** Lists and tables *)

Lemma find_snoc {A : Type} (p : A -> bool) (l : list A) (x : A) :
  find p (l ++ [x])
  = match find p l with
    | Some y => Some y
    | None => if p x then Some x else None
    end.
Proof.
  induction l as [|a l IH]; simpl.
  - reflexivity.
  - destruct (p a); [reflexivity | exact IH].
Qed.

Lemma find_update_first_same {A : Type} (p : A -> bool) (new : A)
  (l : list A) (r : A) :
  find p l = Some r -> p new = true ->
  find p (update_first p new l) = Some new.
Proof.
  intros Hfind Hnew. induction l as [|a l IH]; simpl in *.
  - discriminate.
  - destruct (p a) eqn:Ha; simpl.
    + now rewrite Hnew.
    + rewrite Ha. now apply IH.
Qed.

Lemma find_update_first_other {A : Type} (p q : A -> bool) (new : A)
  (l : list A) :
  (forall r, p r = true -> q r = false) -> q new = false ->
  find q (update_first p new l) = find q l.
Proof.
  intros Hpq Hnew. induction l as [|a l IH]; simpl.
  - reflexivity.
  - destruct (p a) eqn:Ha; simpl.
    + rewrite Hnew, (Hpq a Ha). reflexivity.
    + destruct (q a); [reflexivity | exact IH].
Qed.

Lemma stock_filter_true product_id warehouse_id s :
  stock_filter product_id warehouse_id s = true <->
  StockLevel.product_id s = product_id
  /\ StockLevel.warehouse_id s = warehouse_id.
Proof.
  unfold stock_filter.
  rewrite andb_true_iff, !String.eqb_eq. tauto.
Qed.

Lemma stock_filter_other p w p' w' s :
  (p', w') <> (p, w) ->
  stock_filter p w s = true -> stock_filter p' w' s = false.
Proof.
  intros Hneq Hs. apply stock_filter_true in Hs as [Hp Hw].
  destruct (stock_filter p' w' s) eqn:Hs'; [|reflexivity].
  apply stock_filter_true in Hs' as [Hp' Hw'].
  exfalso. apply Hneq. congruence.
Qed.

Lemma find_stock_filter p w rows s :
  find (stock_filter p w) rows = Some s ->
  StockLevel.product_id s = p /\ StockLevel.warehouse_id s = w.
Proof.
  intros H. apply find_some in H as [_ H]. now apply stock_filter_true.
Qed.

(** ** Floats *)

(** The facts about binary64 numbers that the ledger needs, from the
    specification of the primitive operations. *)

Lemma Prim2SF_zero : Prim2SF 0 = S754_zero false.
Proof. reflexivity. Qed.

Lemma SFcompare_refl x : x <> S754_nan -> SFcompare x x = Some Eq.
Proof.
  destruct x as [s|s| |s m e]; intros Hnan; try congruence.
  - reflexivity.
  - now destruct s.
  - simpl. rewrite Z.compare_refl, Pos.compare_cont_refl. now destruct s.
Qed.


(** Adding a zero, of either sign, to a float that is at least zero
    gives a float that is equal to it and is not below zero. *)
Lemma add_zero b c :
  (c =? 0) = true -> (0 <=? b) = true ->
  (b + c <? 0) = false /\ (b + c =? b) = true.
Proof.
  rewrite ltb_spec, leb_spec, !FloatAxioms.eqb_spec, add_spec, Prim2SF_zero.
  unfold SF64add.
  destruct (Prim2SF c) as [sc|sc| |sc mc ec]; try destruct sc;
    try (unfold SFeqb; cbn [SFcompare]; congruence); intros _;
    destruct (Prim2SF b) as [sb|sb| |sb mb eb]; try destruct sb;
    try (unfold SFleb; cbn [SFcompare]; congruence); intros _;
    cbn [SFadd]; unfold SFltb, SFeqb;
    (split; [cbn [SFcompare]; reflexivity|]);
    first [ reflexivity | rewrite SFcompare_refl; congruence ].
Qed.

(** ** [update_stock], one call *)

Section UpdateStock.
Variable db : Database.
Variables uuid_s uuid_m product_id warehouse_id : string.
Variable quantity_change : float.
Variable movement_type : MovementType.
Variables reason scanned_by scanner_id : optional_str.

Let balance := get_stock_level db product_id warehouse_id.
Let call :=
  update_stock db uuid_s uuid_m product_id warehouse_id quantity_change
    movement_type reason scanned_by scanner_id.

(** The raising path: the guard fires and nothing is committed. *)
Lemma update_stock_raises :
  (balance + quantity_change <? 0) = true ->
  call = (db, Raise (ValueError (Insufficient_stock balance))).
Proof.
  subst balance call. unfold update_stock, get_stock_level.
  destruct (find _ (stock_levels db)) as [row|]; simpl; intros ->;
    reflexivity.
Qed.

(** The committing path: what is returned. *)
Lemma update_stock_returns :
  (balance + quantity_change <? 0) = false ->
  snd call
  = Return {| UpdateResult.old_quantity := balance;
              UpdateResult.new_quantity := balance + quantity_change;
              UpdateResult.quantity_change := quantity_change;
              UpdateResult.movement_id := uuid_m |}.
Proof.
  subst balance call. unfold update_stock, get_stock_level.
  destruct (find _ (stock_levels db)) as [row|]; simpl; intros ->;
    reflexivity.
Qed.

(** The two paths are told apart by the guard [new_qty < 0]. *)
Lemma update_stock_outcome :
  ((balance + quantity_change <? 0) = true /\ exists e, snd call = Raise e)
  \/ ((balance + quantity_change <? 0) = false
      /\ exists r, snd call = Return r).
Proof.
  destruct (balance + quantity_change <? 0) eqn:Hguard.
  - left. split; [reflexivity|].
    rewrite (update_stock_raises Hguard). now eexists.
  - right. split; [reflexivity|].
    rewrite (update_stock_returns Hguard). now eexists.
Qed.

(** The committing path: the movement table gains one row. *)
Lemma update_stock_movements :
  (balance + quantity_change <? 0) = false ->
  stock_movements (fst call)
  = stock_movements db
    ++ [movement_row uuid_m product_id warehouse_id quantity_change
          movement_type reason scanned_by scanner_id].
Proof.
  subst balance call. unfold update_stock, get_stock_level.
  destruct (find _ (stock_levels db)) as [row|]; simpl; intros ->;
    reflexivity.
Qed.

(** The committing path: the balance of the key. *)
Lemma update_stock_balance :
  (balance + quantity_change <? 0) = false ->
  get_stock_level (fst call) product_id warehouse_id
  = balance + quantity_change.
Proof.
  subst balance call. unfold update_stock, get_stock_level.
  destruct (find _ (stock_levels db)) as [row|] eqn:Hfind; simpl;
    intros ->; simpl.
  - erewrite find_update_first_same; [reflexivity | exact Hfind |].
    apply find_stock_filter in Hfind. now apply stock_filter_true.
  - rewrite find_snoc, Hfind.
    replace (stock_filter _ _ _) with true; [reflexivity|].
    symmetry. now apply stock_filter_true.
Qed.

(** The committing path: a row that was absent is created. *)
Lemma update_stock_creates :
  (balance + quantity_change <? 0) = false ->
  find (stock_filter product_id warehouse_id) (stock_levels db) = None ->
  stock_levels (fst call)
  = stock_levels db
    ++ [{| StockLevel.id := uuid_s;
           StockLevel.product_id := product_id;
           StockLevel.warehouse_id := warehouse_id;
           StockLevel.quantity := balance + quantity_change |}].
Proof.
  subst balance call. unfold update_stock, get_stock_level.
  intros Hguard Hfind. rewrite Hfind in *. simpl in *.
  now rewrite Hguard.
Qed.

(** On either path the other keys keep their balance. *)
Lemma update_stock_other_key p w :
  (p, w) <> (product_id, warehouse_id) ->
  get_stock_level (fst call) p w = get_stock_level db p w.
Proof.
  intros Hneq. subst balance call. unfold update_stock, get_stock_level.
  destruct (find (stock_filter product_id _) _) as [row|] eqn:Hfind;
    simpl; (destruct (_ <? 0); [reflexivity|]); simpl.
  - rewrite find_update_first_other; [reflexivity | |].
    + intros r. now apply stock_filter_other.
    + apply stock_filter_other with (p := product_id) (w := warehouse_id);
        [exact Hneq|].
      apply find_stock_filter in Hfind. now apply stock_filter_true.
  - rewrite find_snoc.
    destruct (find (stock_filter p w) _); [reflexivity|].
    replace (stock_filter p w _) with false; [reflexivity|].
    symmetry.
    apply stock_filter_other with (p := product_id) (w := warehouse_id);
      [exact Hneq|].
    now apply stock_filter_true.
Qed.

(** On either path the catalog and the scan log are left alone. *)
Lemma update_stock_frame :
  products (fst call) = products db
  /\ warehouses (fst call) = warehouses db
  /\ scan_logs (fst call) = scan_logs db.
Proof.
  subst balance call. unfold update_stock. cbv zeta.
  destruct (_ <? 0); simpl; auto.
Qed.
End UpdateStock.

(** [adjust] is [update_stock] on the fields of the call; the lemmas above
    in terms of calls. *)
Section AdjustCall.
Variable db : Database.
Variable c : Adjust.t.

Let balance := get_stock_level db (Adjust.product_id c) (Adjust.warehouse_id c).

Lemma adjust_raises :
  (balance + Adjust.quantity_change c <? 0) = true ->
  adjust db c = (db, Raise (ValueError (Insufficient_stock balance))).
Proof. apply update_stock_raises. Qed.

Lemma adjust_returns :
  (balance + Adjust.quantity_change c <? 0) = false ->
  adjust db c
  = (fst (adjust db c),
     Return {| UpdateResult.old_quantity := balance;
               UpdateResult.new_quantity :=
                 balance + Adjust.quantity_change c;
               UpdateResult.quantity_change := Adjust.quantity_change c;
               UpdateResult.movement_id := Adjust.uuid_movement c |}).
Proof.
  intros Hguard. rewrite (surjective_pairing (adjust db c)) at 1.
  f_equal. now apply update_stock_returns.
Qed.

Lemma adjust_movements :
  (balance + Adjust.quantity_change c <? 0) = false ->
  stock_movements (fst (adjust db c))
  = stock_movements db ++ [movement_of c].
Proof. apply update_stock_movements. Qed.

Lemma adjust_balance :
  (balance + Adjust.quantity_change c <? 0) = false ->
  get_stock_level (fst (adjust db c))
    (Adjust.product_id c) (Adjust.warehouse_id c)
  = balance + Adjust.quantity_change c.
Proof. apply update_stock_balance. Qed.

Lemma adjust_other_key p w :
  (p, w) <> (Adjust.product_id c, Adjust.warehouse_id c) ->
  get_stock_level (fst (adjust db c)) p w = get_stock_level db p w.
Proof. apply update_stock_other_key. Qed.

(** A call that returns passed the guard. *)
Lemma adjust_return_inv db' r :
  adjust db c = (db', Return r) ->
  (balance + Adjust.quantity_change c <? 0) = false.
Proof.
  intros Hcall.
  destruct (balance + Adjust.quantity_change c <? 0) eqn:Hguard;
    [|reflexivity].
  rewrite (adjust_raises Hguard) in Hcall. discriminate.
Qed.

(** A call that raises left the database as it was. *)
Lemma adjust_raise_inv db' e :
  adjust db c = (db', Raise e) ->
  db' = db /\ (balance + Adjust.quantity_change c <? 0) = true.
Proof.
  intros Hcall.
  destruct (balance + Adjust.quantity_change c <? 0) eqn:Hguard.
  - rewrite (adjust_raises Hguard) in Hcall. split; congruence.
  - rewrite (adjust_returns Hguard) in Hcall. discriminate.
Qed.
End AdjustCall.

(** ** Sums of movements *)

Lemma sum_snoc (l : list float) (q : float) : sum (l ++ [q]) = sum l + q.
Proof. unfold sum. now rewrite fold_left_app. Qed.

Lemma movement_filter_row p w uuid_m p0 w0 qc mt r sb sid :
  movement_filter p w (movement_row uuid_m p0 w0 qc mt r sb sid)
  = stock_filter p w
      {| StockLevel.id := uuid_m; StockLevel.product_id := p0;
         StockLevel.warehouse_id := w0; StockLevel.quantity := qc |}.
Proof. reflexivity. Qed.

Lemma movement_sum_snoc db db' p w (m : StockMovement.t) :
  stock_movements db' = stock_movements db ++ [m] ->
  movement_sum db' p w
  = if movement_filter p w m
    then movement_sum db p w + StockMovement.quantity_change m
    else movement_sum db p w.
Proof.
  intros Hm. unfold movement_sum, movements_of. rewrite Hm, filter_app.
  cbn [filter]. destruct (movement_filter p w m).
  - rewrite map_app. cbn [map]. now rewrite sum_snoc.
  - now rewrite app_nil_r.
Qed.

Lemma adjust_movement_sum db c p w :
  (get_stock_level db (Adjust.product_id c) (Adjust.warehouse_id c)
   + Adjust.quantity_change c <? 0) = false ->
  movement_sum (fst (adjust db c)) p w
  = if movement_filter p w (movement_of c)
    then movement_sum db p w + Adjust.quantity_change c
    else movement_sum db p w.
Proof.
  intros Hguard.
  now rewrite (movement_sum_snoc db _ p w _ (adjust_movements db c Hguard)).
Qed.

Lemma movement_filter_key p w c :
  movement_filter p w (movement_of c) = true <->
  (p, w) = (Adjust.product_id c, Adjust.warehouse_id c).
Proof.
  unfold movement_of. rewrite movement_filter_row, stock_filter_true. simpl.
  split; [intros [-> ->]; reflexivity | intros [= -> ->]; auto].
Qed.

(** ** One call and the two invariants *)


Lemma adjust_consistent db c :
  ledger_consistent db -> ledger_consistent (fst (adjust db c)).
Proof.
  intros Hdb p w.
  destruct (get_stock_level db (Adjust.product_id c) (Adjust.warehouse_id c)
            + Adjust.quantity_change c <? 0) eqn:Hguard.
  - rewrite (adjust_raises db c Hguard). apply Hdb.
  - rewrite (adjust_movement_sum db c p w Hguard).
    destruct (movement_filter p w (movement_of c)) eqn:Hkey.
    + apply movement_filter_key in Hkey. injection Hkey as -> ->.
      rewrite (adjust_balance db c Hguard). now rewrite Hdb.
    + rewrite adjust_other_key; [apply Hdb|].
      intros Heq. apply movement_filter_key in Heq. congruence.
Qed.


Lemma adjust_all_consistent calls :
  forall db, ledger_consistent db -> ledger_consistent (adjust_all db calls).
Proof.
  induction calls as [|c calls IH]; simpl; intros db Hdb.
  - exact Hdb.
  - apply IH. now apply adjust_consistent.
Qed.


Lemma empty_consistent : ledger_consistent empty_database.
Proof. intros p w. reflexivity. Qed.

(** ** The ledger claims *)




(** C2, as stated, fails.  On the empty ledger the calls [+1e16], [+1]
    and [-1e16] all return.  The second leaves the balance at [1e16]: it
    is not moved by the quantity change of the call, which the rounding
    of the sum absorbs.  After the third the balance is 0, while the
    [quantity_change] of the three movements of the key add up to 1. *)
Lemma ledger_sum_counterexample :
  let calls :=
    [sample_adjust "1" 1e16; sample_adjust "2" 1;
     sample_adjust "3" (-1e16)] in
  let db1 := adjust_all empty_database [sample_adjust "1" 1e16] in
  let db2 := fst (adjust db1 (sample_adjust "2" 1)) in
  let db3 := adjust_all empty_database calls in
  committed_movements empty_database calls = map movement_of calls
  /\ get_stock_level db1 "prod-001" "wh-001" = 1e16
  /\ get_stock_level db2 "prod-001" "wh-001" = 1e16
  /\ get_stock_level db3 "prod-001" "wh-001" = 0
  /\ map StockMovement.quantity_change (movements_of db3 "prod-001" "wh-001")
     = [1e16; 1; -1e16]
  /\ real_value (get_stock_level db3 "prod-001" "wh-001") = Some 0%Q
  /\ (exists total,
         exact_sum
           (map StockMovement.quantity_change
              (movements_of db3 "prod-001" "wh-001"))
         = Some total
         /\ (total == 1)%Q).
Proof.
  cbv zeta.
  split; [vm_compute; reflexivity|].
  split; [vm_compute; reflexivity|].
  split; [vm_compute; reflexivity|].
  split; [vm_compute; reflexivity|].
  split; [vm_compute; reflexivity|].
  split; [vm_compute; reflexivity|].
  eexists. split; [vm_compute; reflexivity|].
  vm_compute. reflexivity.
Qed.

(** C2, amended.  Every balance equals the running sum, in the order of
    the movement table and in float arithmetic, of the [quantity_change]
    of the movements of its key: this is kept by every sequence of calls
    and holds after every sequence of calls on the empty ledger.  A call
    that returns has inserted exactly one movement, with the quantity
    change of the call, and has set the balance of the key to the float
    sum of the balance and that change; a call that raises has changed
    nothing. *)
Theorem ledger_consistency :
  (forall db calls,
      ledger_consistent db -> ledger_consistent (adjust_all db calls))
  /\ (forall calls product_id warehouse_id,
         get_stock_level (adjust_all empty_database calls)
           product_id warehouse_id
         = movement_sum (adjust_all empty_database calls)
             product_id warehouse_id)
  /\ (forall db c db' r,
         adjust db c = (db', Return r) ->
         stock_movements db' = stock_movements db ++ [movement_of c]
         /\ StockMovement.quantity_change (movement_of c)
            = Adjust.quantity_change c
         /\ get_stock_level db' (Adjust.product_id c) (Adjust.warehouse_id c)
            = get_stock_level db (Adjust.product_id c) (Adjust.warehouse_id c)
              + Adjust.quantity_change c)
  /\ (forall db c db' e, adjust db c = (db', Raise e) -> db' = db).
Proof.
  split; [|split; [|split]].
  - intros db calls. apply adjust_all_consistent.
  - intros calls. apply adjust_all_consistent, empty_consistent.
  - intros db c db' r Hcall.
    pose proof (adjust_return_inv db c _ _ Hcall) as Hguard.
    assert (db' = fst (adjust db c)) as -> by now rewrite Hcall.
    split; [now apply adjust_movements|].
    split; [reflexivity | now apply adjust_balance].
  - intros db c db' e Hcall. now apply (adjust_raise_inv db c _ _ Hcall).
Qed.

Lemma ledger_consistency_witness :
  ledger_consistent
    (adjust_all empty_database
       [sample_adjust "1" 10; sample_adjust "2" (-30); sample_adjust "3" (-4)])
  /\ fst (adjust empty_database (sample_adjust "2" (-30))) = empty_database.
Proof.
  split.
  - apply (proj1 ledger_consistency empty_database).
    intros p w. reflexivity.
  - apply (proj2 (proj2 (proj2 ledger_consistency))
             empty_database (sample_adjust "2" (-30)) _
             (ValueError (Insufficient_stock 0))).
    vm_compute. reflexivity.
Defined.

(** C7.  A call that returns gives back, as old quantity, the balance read
    before the call (0 when the key had no row, and then the row is
    created with the new quantity); as new quantity, old quantity plus
    quantity change, which is the balance after the call; and as movement
    id the id of the one movement row the call has inserted, the only row
    with that id when the id is fresh.  A zero quantity change on a
    balance that is at least zero returns, leaves the quantity as it was
    and records a movement of zero. *)
Theorem update_stock_result :
  (forall db c db' r,
      adjust db c = (db', Return r) ->
      UpdateResult.old_quantity r
      = get_stock_level db (Adjust.product_id c) (Adjust.warehouse_id c)
      /\ UpdateResult.new_quantity r
         = UpdateResult.old_quantity r + Adjust.quantity_change c
      /\ get_stock_level db' (Adjust.product_id c) (Adjust.warehouse_id c)
         = UpdateResult.new_quantity r
      /\ UpdateResult.movement_id r = Adjust.uuid_movement c
      /\ (exists m,
             stock_movements db' = stock_movements db ++ [m]
             /\ StockMovement.id m = UpdateResult.movement_id r
             /\ StockMovement.quantity_change m = Adjust.quantity_change c
             /\ ((forall m0, In m0 (stock_movements db) ->
                             StockMovement.id m0 <> UpdateResult.movement_id r) ->
                 forall m', In m' (stock_movements db') ->
                            StockMovement.id m' = UpdateResult.movement_id r ->
                            m' = m))
      /\ (find (stock_filter (Adjust.product_id c) (Adjust.warehouse_id c))
            (stock_levels db) = None ->
          UpdateResult.old_quantity r = 0
          /\ stock_levels db'
             = stock_levels db
               ++ [{| StockLevel.id := Adjust.uuid_stock c;
                      StockLevel.product_id := Adjust.product_id c;
                      StockLevel.warehouse_id := Adjust.warehouse_id c;
                      StockLevel.quantity := UpdateResult.new_quantity r |}]))
  /\ (forall db c,
         (Adjust.quantity_change c =? 0) = true ->
         (0 <=? get_stock_level db (Adjust.product_id c)
                  (Adjust.warehouse_id c)) = true ->
         exists db' r,
           adjust db c = (db', Return r)
           /\ (UpdateResult.new_quantity r =? UpdateResult.old_quantity r)
              = true
           /\ stock_movements db' = stock_movements db ++ [movement_of c]
           /\ (StockMovement.quantity_change (movement_of c) =? 0) = true).
Proof.
  split.
  - intros db c db' r Hcall.
    pose proof (adjust_return_inv db c _ _ Hcall) as Hguard.
    pose proof (adjust_returns db c Hguard) as Hret.
    assert (db' = fst (adjust db c)) as Hdb by now rewrite Hcall.
    rewrite Hcall in Hret. injection Hret as Hr.
    rewrite Hr, Hdb. simpl.
    split; [reflexivity|]. split; [reflexivity|].
    split; [now apply adjust_balance|]. split; [reflexivity|].
    split.
    + exists (movement_of c).
      split; [now apply adjust_movements|].
      split; [reflexivity|]. split; [reflexivity|].
      intros Hfresh m' Hin Hid.
      rewrite (adjust_movements db c Hguard) in Hin.
      apply in_app_or in Hin. destruct Hin as [Hold|Hnew].
      * exfalso. exact (Hfresh m' Hold Hid).
      * simpl in Hnew. destruct Hnew as [Hnew|Hnew]; [now symmetry | easy].
    + intros Hnone. split.
      * unfold get_stock_level. now rewrite Hnone.
      * unfold adjust. now rewrite update_stock_creates.
  - intros db c Hzero Hbal.
    destruct (add_zero _ _ Hzero Hbal) as [Hguard Hsame].
    eexists _, _. split; [exact (adjust_returns db c Hguard)|].
    cbn [UpdateResult.new_quantity UpdateResult.old_quantity].
    split; [exact Hsame|].
    split; [now apply adjust_movements | exact Hzero].
Qed.

Lemma update_stock_result_witness :
  (exists db' r,
      adjust catalog_db (sample_adjust "1" 0) = (db', Return r)
      /\ (UpdateResult.new_quantity r =? UpdateResult.old_quantity r) = true
      /\ stock_movements db'
         = stock_movements catalog_db ++ [movement_of (sample_adjust "1" 0)]
      /\ (StockMovement.quantity_change (movement_of (sample_adjust "1" 0))
          =? 0) = true)
  /\ (let db' := fst (adjust catalog_db (sample_adjust "1" 100)) in
      let r := {| UpdateResult.old_quantity := 0;
                  UpdateResult.new_quantity := 0 + 100;
                  UpdateResult.quantity_change := 100;
                  UpdateResult.movement_id := "movement-1" |} in
      UpdateResult.old_quantity r
      = get_stock_level catalog_db "prod-001" "wh-001"
      /\ UpdateResult.new_quantity r = UpdateResult.old_quantity r + 100
      /\ get_stock_level db' "prod-001" "wh-001" = UpdateResult.new_quantity r
      /\ UpdateResult.movement_id r = "movement-1").
Proof.
  split.
  - apply (proj2 update_stock_result catalog_db (sample_adjust "1" 0));
      reflexivity.
  - intros db' r.
    assert (adjust catalog_db (sample_adjust "1" 100) = (db', Return r))
      as Hcall by (vm_compute; reflexivity).
    destruct (proj1 update_stock_result catalog_db (sample_adjust "1" 100)
                db' r Hcall) as (Hold & Hnew & Hbal & Hid & _).
    repeat split; assumption.
Defined.

(** C8, as stated, fails: on a balance of 5 a change of +3 gives the
    balance 8, and the movement that is inserted has [quantity] 3, the
    magnitude of the change, not 8. *)
Lemma movement_quantity_counterexample :
  snd (adjust five_db (sample_adjust "2" 3))
  = Return {| UpdateResult.old_quantity := 5;
              UpdateResult.new_quantity := 8;
              UpdateResult.quantity_change := 3;
              UpdateResult.movement_id := "movement-2" |}
  /\ get_stock_level (fst (adjust five_db (sample_adjust "2" 3)))
       "prod-001" "wh-001" = 8
  /\ (exists m,
         stock_movements (fst (adjust five_db (sample_adjust "2" 3)))
         = stock_movements five_db ++ [m]
         /\ StockMovement.quantity_change m = 3
         /\ StockMovement.quantity m = 3
         /\ (StockMovement.quantity m =? abs 8) = false).
Proof.
  split; [vm_compute; reflexivity|].
  split; [vm_compute; reflexivity|].
  eexists. split; [vm_compute; reflexivity|].
  split; [reflexivity|]. split; [reflexivity|].
  reflexivity.
Qed.

(** C8, amended.  The movement inserted by a call that returns carries
    the signed quantity change of the call and, as [quantity], the
    absolute value of that change, with the key, the movement type, the
    reason, the actor ([scanned_by]) and the scanner id of the call. *)
Theorem movement_record :
  forall db c db' r,
    adjust db c = (db', Return r) ->
    exists m,
      stock_movements db' = stock_movements db ++ [m]
      /\ StockMovement.quantity_change m = Adjust.quantity_change c
      /\ StockMovement.quantity m = abs (Adjust.quantity_change c)
      /\ StockMovement.product_id m = Adjust.product_id c
      /\ StockMovement.warehouse_id m = Some (Adjust.warehouse_id c)
      /\ StockMovement.movement_type m = Adjust.movement_type c
      /\ StockMovement.reason m = Adjust.reason c
      /\ StockMovement.scanned_by m = Adjust.scanned_by c
      /\ StockMovement.scanner_id m = Adjust.scanner_id c.
Proof.
  intros db c db' r Hcall.
  pose proof (adjust_return_inv db c _ _ Hcall) as Hguard.
  assert (db' = fst (adjust db c)) as -> by now rewrite Hcall.
  exists (movement_of c).
  split; [now apply adjust_movements|].
  repeat split.
Qed.

Lemma movement_record_witness :
  exists m,
    stock_movements (fst (adjust five_db (sample_adjust "2" (-3))))
    = stock_movements five_db ++ [m]
    /\ StockMovement.quantity_change m = -3
    /\ StockMovement.quantity m = abs (-3)
    /\ StockMovement.product_id m = "prod-001"
    /\ StockMovement.warehouse_id m = Some "wh-001"
    /\ StockMovement.movement_type m = ADJUSTMENT
    /\ StockMovement.reason m = None
    /\ StockMovement.scanned_by m = Some "scanner_user"
    /\ StockMovement.scanner_id m = Some "web_scanner".
Proof.
  apply (movement_record five_db (sample_adjust "2" (-3)) _
           {| UpdateResult.old_quantity := 5;
              UpdateResult.new_quantity := 2;
              UpdateResult.quantity_change := -3;
              UpdateResult.movement_id := "movement-2" |}).
  vm_compute. reflexivity.
Defined.

(** ** The scan router *)

Section Router.
Variable db : Database.
Variables uuid_s uuid_m product_barcode warehouse_barcode : string.
Variable quantity : float.
Variables scanned_by scanner_id : optional_str.

Let receipt :=
  process_receipt_scan db uuid_s uuid_m product_barcode warehouse_barcode
    quantity scanned_by scanner_id.
Let delivery :=
  process_delivery_scan db uuid_s uuid_m product_barcode warehouse_barcode
    quantity scanned_by scanner_id.

Lemma scan_product_not_found :
  find_product_by_barcode db product_barcode = None ->
  receipt = (db, ScanOutcome.Failed (Product_not_found product_barcode))
  /\ delivery = (db, ScanOutcome.Failed (Product_not_found product_barcode)).
Proof.
  subst receipt delivery. unfold process_receipt_scan, process_delivery_scan.
  intros ->. split; reflexivity.
Qed.

Lemma scan_warehouse_not_found product :
  find_product_by_barcode db product_barcode = Some product ->
  find_warehouse_by_barcode db warehouse_barcode = None ->
  receipt = (db, ScanOutcome.Failed (Warehouse_not_found warehouse_barcode))
  /\ delivery
     = (db, ScanOutcome.Failed (Warehouse_not_found warehouse_barcode)).
Proof.
  subst receipt delivery. unfold process_receipt_scan, process_delivery_scan.
  intros -> ->. split; reflexivity.
Qed.

(** With both barcodes resolved, the scan is the [update_stock] call on
    the two ids, with [quantity] for a receipt and [- quantity] for a
    delivery, inside the [try]. *)
Lemma scan_resolved product warehouse :
  find_product_by_barcode db product_barcode = Some product ->
  find_warehouse_by_barcode db warehouse_barcode = Some warehouse ->
  receipt
  = (let call :=
       update_stock db uuid_s uuid_m
         (Product.id product) (Warehouse.id warehouse) quantity
         SCAN_RECEIPT
         (Some ("Scanned receipt: " ++ Product.name product)%string)
         scanned_by scanner_id in
     (fst call, scan_body_result "receipt" product warehouse (snd call)))
  /\ delivery
     = (let call :=
          update_stock db uuid_s uuid_m
            (Product.id product) (Warehouse.id warehouse) (- quantity)
            SCAN_DELIVERY
            (Some ("Scanned delivery: " ++ Product.name product)%string)
            scanned_by scanner_id in
        (fst call, scan_body_result "delivery" product warehouse (snd call))).
Proof.
  subst receipt delivery. unfold process_receipt_scan, process_delivery_scan.
  intros -> ->. split.
  - now destruct (update_stock _ _ _ _ _ quantity _ _ _ _).
  - now destruct (update_stock _ _ _ _ _ (- quantity) _ _ _ _).
Qed.

(** The scan operations write no scan log and leave the catalog alone. *)
Lemma scan_frame_tables :
  (products (fst receipt) = products db
   /\ warehouses (fst receipt) = warehouses db
   /\ scan_logs (fst receipt) = scan_logs db)
  /\ (products (fst delivery) = products db
      /\ warehouses (fst delivery) = warehouses db
      /\ scan_logs (fst delivery) = scan_logs db).
Proof.
  destruct (find_product_by_barcode db product_barcode) as [product|]
    eqn:Hp.
  - destruct (find_warehouse_by_barcode db warehouse_barcode)
      as [warehouse|] eqn:Hw.
    + destruct (scan_resolved _ _ Hp Hw) as [Hr Hd]. rewrite Hr, Hd.
      cbv zeta. cbn [fst snd].
      split; apply update_stock_frame.
    + destruct (scan_warehouse_not_found _ Hp Hw) as [Hr Hd].
      rewrite Hr, Hd. simpl. auto.
  - destruct (scan_product_not_found Hp) as [Hr Hd].
    rewrite Hr, Hd. simpl. auto.
Qed.

(** A scan that failed wrote nothing at all. *)
Lemma scan_failed_unchanged :
  (ScanOutcome.success (snd receipt) = false -> fst receipt = db)
  /\ (ScanOutcome.success (snd delivery) = false -> fst delivery = db).
Proof.
  destruct (find_product_by_barcode db product_barcode) as [product|]
    eqn:Hp.
  - destruct (find_warehouse_by_barcode db warehouse_barcode)
      as [warehouse|] eqn:Hw.
    + destruct (scan_resolved _ _ Hp Hw) as [Hr Hd]. rewrite Hr, Hd.
      cbv zeta. cbn [fst snd].
      split.
      * destruct (update_stock_outcome db uuid_s uuid_m
                    (Product.id product) (Warehouse.id warehouse) quantity
                    SCAN_RECEIPT
                    (Some ("Scanned receipt: " ++ Product.name product)%string)
                    scanned_by scanner_id) as [[Hneg _]|[_ [r ->]]].
        -- now rewrite (update_stock_raises _ _ _ _ _ _ _ _ _ _ Hneg).
        -- discriminate.
      * destruct (update_stock_outcome db uuid_s uuid_m
                    (Product.id product) (Warehouse.id warehouse)
                    (- quantity) SCAN_DELIVERY
                    (Some ("Scanned delivery: " ++ Product.name product)%string)
                    scanned_by scanner_id) as [[Hneg _]|[_ [r ->]]].
        -- now rewrite (update_stock_raises _ _ _ _ _ _ _ _ _ _ Hneg).
        -- discriminate.
    + destruct (scan_warehouse_not_found _ Hp Hw) as [Hr Hd].
      rewrite Hr, Hd. simpl. auto.
  - destruct (scan_product_not_found Hp) as [Hr Hd].
    rewrite Hr, Hd. simpl. auto.
Qed.
End Router.

(** C10, as stated, fails.  On a balance of [1e16] a receipt of -1 is
    applied and succeeds, and so does a delivery of -1, but the balance
    stays [1e16]: the rounding of the sum absorbs the quantity, so the
    receipt does not lower the balance and the delivery does not raise
    it.  And the check on the resulting balance is [new_qty < 0] only: a
    receipt of NaN succeeds, with a resulting balance that is not at
    least zero. *)
Lemma scan_absorbed_counterexample :
  let receipt :=
    process_receipt_scan big_db "stock-1" "movement-1"
      "STEEL-ROD-50" "WH-MAIN" (-1) None None in
  let delivery :=
    process_delivery_scan big_db "stock-1" "movement-1"
      "STEEL-ROD-50" "WH-MAIN" (-1) None None in
  let receipt_nan :=
    process_receipt_scan stocked_db "stock-1" "movement-1"
      "STEEL-ROD-50" "WH-MAIN" nan None None in
  get_stock_level big_db "prod-001" "wh-001" = 1e16
  /\ ScanOutcome.success (snd receipt) = true
  /\ get_stock_level (fst receipt) "prod-001" "wh-001" = 1e16
  /\ (get_stock_level (fst receipt) "prod-001" "wh-001"
      <? get_stock_level big_db "prod-001" "wh-001") = false
  /\ ScanOutcome.success (snd delivery) = true
  /\ get_stock_level (fst delivery) "prod-001" "wh-001" = 1e16
  /\ (get_stock_level big_db "prod-001" "wh-001"
      <? get_stock_level (fst delivery) "prod-001" "wh-001") = false
  /\ ScanOutcome.success (snd receipt_nan) = true
  /\ (0 <=? get_stock_level (fst receipt_nan) "prod-001" "wh-001") = false.
Proof.
  cbv zeta. repeat split; vm_compute; reflexivity.
Qed.

(** C10, amended.  With both barcodes resolved, a receipt scan is the
    [update_stock] call with the quantity of the caller as quantity change
    and a delivery scan the call with its negation: the quantity is not
    checked for its sign.  The scan succeeds exactly when the resulting
    balance, the float sum of the balance and the quantity change, is not
    below zero, and that sum is then the balance: a receipt adds a
    negative quantity as it is, a delivery adds its opposite. *)
Theorem scan_quantity_unchecked :
  forall db uuid_s uuid_m product_barcode warehouse_barcode quantity
         scanned_by scanner_id product warehouse,
    find_product_by_barcode db product_barcode = Some product ->
    find_warehouse_by_barcode db warehouse_barcode = Some warehouse ->
    let balance :=
      get_stock_level db (Product.id product) (Warehouse.id warehouse) in
    let receipt :=
      process_receipt_scan db uuid_s uuid_m product_barcode
        warehouse_barcode quantity scanned_by scanner_id in
    let delivery :=
      process_delivery_scan db uuid_s uuid_m product_barcode
        warehouse_barcode quantity scanned_by scanner_id in
    let receipt_call :=
      update_stock db uuid_s uuid_m
        (Product.id product) (Warehouse.id warehouse) quantity
        SCAN_RECEIPT
        (Some ("Scanned receipt: " ++ Product.name product)%string)
        scanned_by scanner_id in
    let delivery_call :=
      update_stock db uuid_s uuid_m
        (Product.id product) (Warehouse.id warehouse) (- quantity)
        SCAN_DELIVERY
        (Some ("Scanned delivery: " ++ Product.name product)%string)
        scanned_by scanner_id in
    receipt
    = (fst receipt_call,
       scan_body_result "receipt" product warehouse (snd receipt_call))
    /\ delivery
       = (fst delivery_call,
          scan_body_result "delivery" product warehouse (snd delivery_call))
    /\ (ScanOutcome.success (snd receipt) = true
        <-> (balance + quantity <? 0) = false)
    /\ (ScanOutcome.success (snd delivery) = true
        <-> (balance + - quantity <? 0) = false)
    /\ ((balance + quantity <? 0) = false ->
        get_stock_level (fst receipt)
          (Product.id product) (Warehouse.id warehouse)
        = balance + quantity)
    /\ ((balance + - quantity <? 0) = false ->
        get_stock_level (fst delivery)
          (Product.id product) (Warehouse.id warehouse)
        = balance + - quantity).
Proof.
  intros db uuid_s uuid_m product_barcode warehouse_barcode quantity
    scanned_by scanner_id product warehouse Hp Hw
    balance receipt delivery receipt_call delivery_call.
  destruct (scan_resolved db uuid_s uuid_m product_barcode warehouse_barcode
              quantity scanned_by scanner_id _ _ Hp Hw) as [Hr Hd].
  cbv zeta in Hr, Hd. fold receipt_call in Hr. fold delivery_call in Hd.
  fold receipt in Hr. fold delivery in Hd.
  assert (Hrs : ScanOutcome.success (snd receipt) = true
                <-> (balance + quantity <? 0) = false).
  { rewrite Hr. cbn [fst snd].
    destruct (update_stock_outcome db uuid_s uuid_m
                (Product.id product) (Warehouse.id warehouse) quantity
                SCAN_RECEIPT
                (Some ("Scanned receipt: " ++ Product.name product)%string)
                scanned_by scanner_id) as [[Hguard [e He]]|[Hguard [r He]]];
      fold receipt_call in He; fold balance in Hguard;
      rewrite He, Hguard; cbn [scan_body_result ScanOutcome.success].
    - split; discriminate.
    - split; reflexivity. }
  assert (Hds : ScanOutcome.success (snd delivery) = true
                <-> (balance + - quantity <? 0) = false).
  { rewrite Hd. cbn [fst snd].
    destruct (update_stock_outcome db uuid_s uuid_m
                (Product.id product) (Warehouse.id warehouse) (- quantity)
                SCAN_DELIVERY
                (Some ("Scanned delivery: " ++ Product.name product)%string)
                scanned_by scanner_id) as [[Hguard [e He]]|[Hguard [r He]]];
      fold delivery_call in He; fold balance in Hguard;
      rewrite He, Hguard; cbn [scan_body_result ScanOutcome.success].
    - split; discriminate.
    - split; reflexivity. }
  split; [exact Hr|]. split; [exact Hd|].
  split; [exact Hrs|]. split; [exact Hds|]. split.
  - intros Hguard. rewrite Hr. cbn [fst]. now apply update_stock_balance.
  - intros Hguard. rewrite Hd. cbn [fst]. now apply update_stock_balance.
Qed.

Lemma scan_quantity_unchecked_witness :
  get_stock_level stocked_db "prod-001" "wh-001" = 10
  /\ get_stock_level
       (fst (process_receipt_scan stocked_db "stock-1" "movement-1"
               "STEEL-ROD-50" "WH-MAIN" (-3) None None))
       "prod-001" "wh-001"
     = get_stock_level stocked_db "prod-001" "wh-001" + -3
  /\ get_stock_level
       (fst (process_delivery_scan stocked_db "stock-1" "movement-1"
               "STEEL-ROD-50" "WH-MAIN" (-3) None None))
       "prod-001" "wh-001"
     = get_stock_level stocked_db "prod-001" "wh-001" + - -3.
Proof.
  split; [vm_compute; reflexivity|].
  pose proof (scan_quantity_unchecked stocked_db "stock-1" "movement-1"
                "STEEL-ROD-50" "WH-MAIN" (-3) None None steel_rod wh_main
                eq_refl eq_refl) as H.
  cbv zeta in H.
  destruct H as (_ & _ & _ & _ & Hreceipt & Hdelivery).
  split.
  - apply Hreceipt. vm_compute. reflexivity.
  - apply Hdelivery. vm_compute. reflexivity.
Defined.

(** ** The handlers *)

Lemma scan_receipt_eq db u request :
  scan_receipt db u request
  = (let scan :=
       process_receipt_scan db (uuid_stock u) (uuid_movement u)
         (ScanRequest.product_barcode request)
         (ScanRequest.warehouse_barcode request)
         (ScanRequest.quantity request)
         (ScanRequest.scanned_by request)
         (ScanRequest.scanner_id request) in
     ({| products := products (fst scan);
         warehouses := warehouses (fst scan);
         stock_levels := stock_levels (fst scan);
         stock_movements := stock_movements (fst scan);
         scan_logs :=
           scan_logs (fst scan)
           ++ [scan_log_row "receipt" u request (snd scan)] |},
      Respond (snd scan))).
Proof.
  unfold scan_receipt. now destruct (process_receipt_scan _ _ _ _ _ _ _ _).
Qed.

Lemma scan_delivery_eq db u request :
  scan_delivery db u request
  = (let scan :=
       process_delivery_scan db (uuid_stock u) (uuid_movement u)
         (ScanRequest.product_barcode request)
         (ScanRequest.warehouse_barcode request)
         (ScanRequest.quantity request)
         (ScanRequest.scanned_by request)
         (ScanRequest.scanner_id request) in
     ({| products := products (fst scan);
         warehouses := warehouses (fst scan);
         stock_levels := stock_levels (fst scan);
         stock_movements := stock_movements (fst scan);
         scan_logs :=
           scan_logs (fst scan)
           ++ [scan_log_row "delivery" u request (snd scan)] |},
      Respond (snd scan))).
Proof.
  unfold scan_delivery. now destruct (process_delivery_scan _ _ _ _ _ _ _ _).
Qed.

(** C5.  Every receipt and every delivery handled appends exactly one row
    to the scan log, whatever the outcome, and answers with the outcome.
    The success column of the row is 1 for a success and 0 for a failure;
    a failure (an unresolved product, an unresolved warehouse or
    insufficient stock) leaves the product and warehouse ids of the row
    null. *)
Theorem scan_log_appended :
  forall db u request,
    let receipt :=
      snd (process_receipt_scan db (uuid_stock u) (uuid_movement u)
             (ScanRequest.product_barcode request)
             (ScanRequest.warehouse_barcode request)
             (ScanRequest.quantity request)
             (ScanRequest.scanned_by request)
             (ScanRequest.scanner_id request)) in
    let delivery :=
      snd (process_delivery_scan db (uuid_stock u) (uuid_movement u)
             (ScanRequest.product_barcode request)
             (ScanRequest.warehouse_barcode request)
             (ScanRequest.quantity request)
             (ScanRequest.scanned_by request)
             (ScanRequest.scanner_id request)) in
    (snd (scan_receipt db u request) = Respond receipt
     /\ scan_logs (fst (scan_receipt db u request))
        = scan_logs db ++ [scan_log_row "receipt" u request receipt])
    /\ (snd (scan_delivery db u request) = Respond delivery
        /\ scan_logs (fst (scan_delivery db u request))
           = scan_logs db ++ [scan_log_row "delivery" u request delivery])
    /\ (forall action result,
           let row := scan_log_row action u request result in
           ScanLog.action_taken row = action
           /\ ScanLog.barcode_data row = ScanRequest.product_barcode request
           /\ ScanLog.quantity row = Some (ScanRequest.quantity request)
           /\ ScanLog.success row
              = (if ScanOutcome.success result then 1%Z else 0%Z)
           /\ (ScanOutcome.success result = false ->
               ScanLog.product_id row = None
               /\ ScanLog.warehouse_id row = None))
    /\ (find_product_by_barcode db (ScanRequest.product_barcode request) = None
        \/ find_warehouse_by_barcode db (ScanRequest.warehouse_barcode request)
           = None ->
        ScanOutcome.success receipt = false
        /\ ScanOutcome.success delivery = false).
Proof.
  intros db u request receipt delivery.
  split; [|split; [|split]].
  - rewrite scan_receipt_eq. cbv zeta. cbn [fst snd scan_logs].
    split; [reflexivity|]. f_equal.
    apply (scan_frame_tables db (uuid_stock u) (uuid_movement u)).
  - rewrite scan_delivery_eq. cbv zeta. cbn [fst snd scan_logs].
    split; [reflexivity|]. f_equal.
    apply (scan_frame_tables db (uuid_stock u) (uuid_movement u)).
  - intros action result row. subst row.
    repeat split; destruct result; simpl in *; congruence.
  - subst receipt delivery.
    destruct (find_product_by_barcode db _) as [product|] eqn:Hp.
    + intros [Hnone|Hw]; [discriminate|].
      destruct (scan_warehouse_not_found db (uuid_stock u) (uuid_movement u)
                  _ _ (ScanRequest.quantity request)
                  (ScanRequest.scanned_by request)
                  (ScanRequest.scanner_id request) _ Hp Hw) as [-> ->].
      split; reflexivity.
    + intros _.
      destruct (scan_product_not_found db (uuid_stock u) (uuid_movement u)
                  _ (ScanRequest.warehouse_barcode request)
                  (ScanRequest.quantity request)
                  (ScanRequest.scanned_by request)
                  (ScanRequest.scanner_id request) Hp) as [-> ->].
      split; reflexivity.
Qed.

Lemma scan_log_appended_witness :
  map ScanLog.success
    (scan_logs
       (fst (scan_delivery
               (fst (scan_receipt catalog_db (sample_uuids "1")
                       (sample_request "UNKNOWN" "WH-MAIN" 1)))
               (sample_uuids "2")
               (sample_request "STEEL-ROD-50" "WH-MAIN" 30))))
  = [0%Z; 0%Z]
  /\ ScanOutcome.success
       (snd (process_receipt_scan catalog_db "stock-1" "movement-1"
               "UNKNOWN" "WH-MAIN" 1 (Some "scanner_user")
               (Some "web_scanner")))
     = false.
Proof.
  split; [vm_compute; reflexivity|].
  apply (scan_log_appended catalog_db (sample_uuids "1")
           (sample_request "UNKNOWN" "WH-MAIN" 1)).
  left. vm_compute. reflexivity.
Defined.

(** C6.  A scan whose product barcode or warehouse barcode does not
    resolve returns the database it was given, with the failure outcome
    that carries the not-found reason; a delivery that would bring the
    balance below zero returns the database it was given, with the
    insufficient-stock reason, and one that does not succeeds and sets
    the balance to the float sum of the balance and the negated
    quantity, which is not clamped.  The handlers answer with that
    outcome, never with an HTTP error, and after a failure the stock
    levels and the movements are those of before. *)
Theorem scan_failure_is_reported :
  forall db u request,
    let product_barcode := ScanRequest.product_barcode request in
    let warehouse_barcode := ScanRequest.warehouse_barcode request in
    let quantity := ScanRequest.quantity request in
    let receipt :=
      process_receipt_scan db (uuid_stock u) (uuid_movement u)
        product_barcode warehouse_barcode quantity
        (ScanRequest.scanned_by request) (ScanRequest.scanner_id request) in
    let delivery :=
      process_delivery_scan db (uuid_stock u) (uuid_movement u)
        product_barcode warehouse_barcode quantity
        (ScanRequest.scanned_by request) (ScanRequest.scanner_id request) in
    (find_product_by_barcode db product_barcode = None ->
     receipt = (db, ScanOutcome.Failed (Product_not_found product_barcode))
     /\ delivery
        = (db, ScanOutcome.Failed (Product_not_found product_barcode)))
    /\ (forall product,
           find_product_by_barcode db product_barcode = Some product ->
           find_warehouse_by_barcode db warehouse_barcode = None ->
           receipt
           = (db, ScanOutcome.Failed (Warehouse_not_found warehouse_barcode))
           /\ delivery
              = (db, ScanOutcome.Failed
                       (Warehouse_not_found warehouse_barcode)))
    /\ (forall product warehouse,
           find_product_by_barcode db product_barcode = Some product ->
           find_warehouse_by_barcode db warehouse_barcode = Some warehouse ->
           let balance :=
             get_stock_level db (Product.id product) (Warehouse.id warehouse)
           in
           ((balance + - quantity <? 0) = true ->
            delivery = (db, ScanOutcome.Failed (Insufficient_stock balance)))
           /\ ((balance + - quantity <? 0) = false ->
               ScanOutcome.success (snd delivery) = true
               /\ get_stock_level (fst delivery)
                    (Product.id product) (Warehouse.id warehouse)
                  = balance + - quantity))
    /\ (snd (scan_receipt db u request) = Respond (snd receipt)
        /\ snd (scan_delivery db u request) = Respond (snd delivery))
    /\ (ScanOutcome.success (snd receipt) = false ->
        stock_levels (fst (scan_receipt db u request)) = stock_levels db
        /\ stock_movements (fst (scan_receipt db u request))
           = stock_movements db)
    /\ (ScanOutcome.success (snd delivery) = false ->
        stock_levels (fst (scan_delivery db u request)) = stock_levels db
        /\ stock_movements (fst (scan_delivery db u request))
           = stock_movements db).
Proof.
  intros db u request product_barcode warehouse_barcode quantity
    receipt delivery.
  split; [|split; [|split; [|split; [|split]]]].
  - apply scan_product_not_found.
  - intros product. apply scan_warehouse_not_found.
  - intros product warehouse Hp Hw balance.
    destruct (scan_resolved db (uuid_stock u) (uuid_movement u)
                product_barcode warehouse_barcode quantity
                (ScanRequest.scanned_by request)
                (ScanRequest.scanner_id request) _ _ Hp Hw) as [_ Hd].
    fold delivery in Hd. cbv zeta in Hd. rewrite Hd. cbn [fst snd].
    split.
    + intros Hneg.
      now rewrite (update_stock_raises _ _ _ _ _ _ _ _ _ _ Hneg).
    + intros Hge.
      rewrite (update_stock_returns _ _ _ _ _ _ _ _ _ _ Hge).
      split; [reflexivity | now apply update_stock_balance].
  - rewrite scan_receipt_eq, scan_delivery_eq. split; reflexivity.
  - intros Hfail. rewrite scan_receipt_eq. cbv zeta.
    cbn [fst stock_levels stock_movements].
    unfold receipt, product_barcode, warehouse_barcode, quantity in Hfail.
    now rewrite (proj1 (scan_failed_unchanged _ _ _ _ _ _ _ _) Hfail).
  - intros Hfail. rewrite scan_delivery_eq. cbv zeta.
    cbn [fst stock_levels stock_movements].
    unfold delivery, product_barcode, warehouse_barcode, quantity in Hfail.
    now rewrite (proj2 (scan_failed_unchanged _ _ _ _ _ _ _ _) Hfail).
Qed.

Lemma scan_failure_is_reported_witness :
  process_delivery_scan stocked_db "stock-1" "movement-1"
    "STEEL-ROD-50" "WH-MAIN" 30 (Some "scanner_user") (Some "web_scanner")
  = (stocked_db, ScanOutcome.Failed (Insufficient_stock 10))
  /\ process_receipt_scan stocked_db "stock-1" "movement-1"
       "STEEL-ROD-50" "WH-NONE" 30 (Some "scanner_user") (Some "web_scanner")
     = (stocked_db, ScanOutcome.Failed (Warehouse_not_found "WH-NONE")).
Proof.
  split.
  - pose proof (scan_failure_is_reported stocked_db (sample_uuids "1")
                  (sample_request "STEEL-ROD-50" "WH-MAIN" 30)) as H.
    cbv zeta in H. destruct H as (_ & _ & H & _).
    apply (H steel_rod wh_main eq_refl eq_refl).
    vm_compute. reflexivity.
  - pose proof (scan_failure_is_reported stocked_db (sample_uuids "1")
                  (sample_request "STEEL-ROD-50" "WH-NONE" 30)) as H.
    cbv zeta in H. destruct H as (_ & H & _).
    apply (H steel_rod eq_refl eq_refl).
Defined.

(** C9.  A lookup answers with the product when the product catalog has
    the barcode, whatever the warehouse catalog holds; with the warehouse
    when only the warehouse catalog has it; and with the 404 error
    [Barcode not found] when neither has it.  It returns the database it
    was given: no stock level, no movement and no scan log row is
    written. *)
Theorem lookup_product_first :
  forall db barcode,
    fst (lookup_barcode db barcode) = db
    /\ (forall product,
           find_product_by_barcode db barcode = Some product ->
           snd (lookup_barcode db barcode)
           = Respond (Lookup.product (product_data_of product)))
    /\ (forall warehouse,
           find_product_by_barcode db barcode = None ->
           find_warehouse_by_barcode db barcode = Some warehouse ->
           snd (lookup_barcode db barcode)
           = Respond (Lookup.warehouse (warehouse_data_of warehouse)))
    /\ (find_product_by_barcode db barcode = None ->
        find_warehouse_by_barcode db barcode = None ->
        snd (lookup_barcode db barcode)
        = HTTPException 404 "Barcode not found").
Proof.
  intros db barcode. unfold lookup_barcode.
  destruct (find_product_by_barcode db barcode) as [product|];
    [|destruct (find_warehouse_by_barcode db barcode) as [warehouse|]];
    cbn [fst snd]; repeat split; intros;
    try discriminate; try reflexivity;
    match goal with
    | H : Some _ = Some _ |- _ => injection H as <-; reflexivity
    end.
Qed.

Lemma lookup_product_first_witness :
  find_warehouse_by_barcode clash_db "STEEL-ROD-50" = Some wh_clash
  /\ snd (lookup_barcode clash_db "STEEL-ROD-50")
     = Respond (Lookup.product (product_data_of steel_rod))
  /\ snd (lookup_barcode clash_db "WH-MAIN")
     = Respond (Lookup.warehouse (warehouse_data_of wh_main))
  /\ snd (lookup_barcode clash_db "UNKNOWN")
     = HTTPException 404 "Barcode not found".
Proof.
  split; [reflexivity|].
  split; [|split].
  - now apply (lookup_product_first clash_db "STEEL-ROD-50").
  - now apply (lookup_product_first clash_db "WH-MAIN").
  - now apply (lookup_product_first clash_db "UNKNOWN").
Defined.

(** ** The detection merge *)

Lemma mem_In payload payloads : mem payload payloads = true <-> In payload payloads.
Proof.
  unfold mem. rewrite existsb_exists. split.
  - intros [q [Hin Heq]]. apply String.eqb_eq in Heq. now subst.
  - intros Hin. exists payload. split; [exact Hin | apply String.eqb_refl].
Qed.

Lemma mem_filter_other p q payloads :
  mem p (filter (fun r => negb (String.eqb r q)) payloads)
  = negb (String.eqb p q) && mem p payloads.
Proof.
  unfold mem. induction payloads as [|r payloads IH]; simpl.
  - now rewrite andb_false_r.
  - destruct (String.eqb r q) eqn:Hrq; simpl; rewrite IH.
    + destruct (String.eqb r p) eqn:Hrp; simpl; [|reflexivity].
      apply String.eqb_eq in Hrq, Hrp. subst.
      now rewrite String.eqb_refl.
    + destruct (String.eqb r p) eqn:Hrp; simpl; [|reflexivity].
      apply String.eqb_eq in Hrp. subst. rewrite Hrq. reflexivity.
Qed.

Lemma mem_first_occurrences p payloads :
  mem p (first_occurrences payloads) = mem p payloads.
Proof.
  induction payloads as [|q payloads IH].
  - reflexivity.
  - change (first_occurrences (q :: payloads))
      with (q :: filter (fun r => negb (String.eqb r q))
                   (first_occurrences payloads)).
    change (mem p (q :: ?l)) with (String.eqb q p || mem p l).
    unfold mem at 2. simpl. fold (mem p payloads).
    fold (mem p (filter (fun r => negb (String.eqb r q))
                   (first_occurrences payloads))).
    rewrite mem_filter_other, IH.
    rewrite (String.eqb_sym q p). now destruct (String.eqb p q).
Qed.

Lemma first_occurrences_In p payloads :
  In p (first_occurrences payloads) <-> In p payloads.
Proof. now rewrite <- !mem_In, mem_first_occurrences. Qed.

Lemma first_occurrences_NoDup payloads : NoDup (first_occurrences payloads).
Proof.
  induction payloads as [|q payloads IH]; simpl; constructor.
  - rewrite filter_In, String.eqb_refl. intros [_ H]. discriminate.
  - now apply NoDup_filter.
Qed.

Lemma first_occurrences_snoc payloads p :
  first_occurrences (payloads ++ [p])
  = if mem p payloads then first_occurrences payloads
    else first_occurrences payloads ++ [p].
Proof.
  induction payloads as [|q payloads IH]; [reflexivity|].
  simpl app. simpl first_occurrences. rewrite IH.
  change (mem p (q :: payloads)) with (String.eqb q p || mem p payloads).
  destruct (String.eqb q p) eqn:Hqp; simpl orb.
  - apply String.eqb_eq in Hqp. subst q.
    destruct (mem p payloads); [reflexivity|].
    rewrite filter_app. simpl. rewrite String.eqb_refl. simpl.
    now rewrite app_nil_r.
  - destruct (mem p payloads); [reflexivity|].
    rewrite filter_app. simpl. rewrite String.eqb_sym, Hqp. reflexivity.
Qed.

Section DictLemmas.
Context {V : Type}.
Implicit Types (d : PyDict.t V) (k : bytes) (v : V).

Lemma keys_setitem d k v :
  PyDict.keys (PyDict.setitem d k v)
  = if mem k (PyDict.keys d) then PyDict.keys d else PyDict.keys d ++ [k].
Proof.
  unfold mem. induction d as [|[k' v'] d IH]; simpl; [reflexivity|].
  destruct (String.eqb k' k); simpl; [reflexivity|].
  rewrite IH.
  now destruct (existsb (fun q => String.eqb q k) (PyDict.keys d)).
Qed.

(** The values after an assignment, read through the keys: the assigned
    key now has the assigned value, the other keys the value they had. *)
Lemma values_setitem d k v (f : bytes -> option V) :
  NoDup (PyDict.keys d) ->
  map Some (PyDict.values d) = map f (PyDict.keys d) ->
  map Some (PyDict.values (PyDict.setitem d k v))
  = map (fun k' => if String.eqb k k' then Some v else f k')
      (PyDict.keys (PyDict.setitem d k v)).
Proof.
  induction d as [|[k' v'] d IH]; simpl; intros Hnodup Hvalues.
  - now rewrite String.eqb_refl.
  - inversion Hnodup as [|? ? Hnotin Hnodup']; subst.
    injection Hvalues as Hv' Hrest.
    destruct (String.eqb k' k) eqn:Hk; simpl.
    + apply String.eqb_eq in Hk. subst k'. rewrite String.eqb_refl.
      f_equal. rewrite Hrest. apply map_ext_in. intros k0 Hin.
      destruct (String.eqb k k0) eqn:Hk0; [|reflexivity].
      apply String.eqb_eq in Hk0. subst k0. contradiction.
    + rewrite String.eqb_sym, Hk. f_equal; [exact Hv'|].
      now apply IH.
Qed.
End DictLemmas.

Lemma map_Some_inv {K V : Type} (f : K -> option V) (g : V -> K)
  (vs : list V) :
  forall ks,
    map Some vs = map f ks ->
    (forall k v, f k = Some v -> g v = k) ->
    map g vs = ks.
Proof.
  induction vs as [|v vs IH]; intros [|k ks] Heq Hfg; simpl in *;
    try discriminate; [reflexivity|].
  injection Heq as Hv Hvs. f_equal.
  - now apply Hfg.
  - now apply IH.
Qed.

Lemma dict_by_data_snoc bs b :
  dict_by_data (bs ++ [b])
  = PyDict.setitem (dict_by_data bs) (Decoded.data b) b.
Proof. unfold dict_by_data. now rewrite fold_left_app. Qed.

Lemma last_with_data_snoc payload bs b :
  last_with_data payload (bs ++ [b])
  = if String.eqb (Decoded.data b) payload then Some b
    else last_with_data payload bs.
Proof. unfold last_with_data. now rewrite rev_app_distr. Qed.

Lemma last_with_data_some payload bs b :
  last_with_data payload bs = Some b -> Decoded.data b = payload.
Proof.
  unfold last_with_data. intros H. apply find_some in H as [_ H].
  now apply String.eqb_eq.
Qed.

(** The keys of the dictionary are the payloads, each at the place of its
    first occurrence. *)
Lemma keys_dict_by_data bs :
  PyDict.keys (dict_by_data bs) = first_occurrences (map Decoded.data bs).
Proof.
  induction bs as [|b bs IH] using rev_ind; [reflexivity|].
  rewrite dict_by_data_snoc, keys_setitem, map_app. simpl map.
  rewrite first_occurrences_snoc, IH, mem_first_occurrences. reflexivity.
Qed.

(** The value of a key is the latest detection with that payload. *)
Lemma values_dict_by_data bs :
  map Some (PyDict.values (dict_by_data bs))
  = map (fun payload => last_with_data payload bs)
      (PyDict.keys (dict_by_data bs)).
Proof.
  induction bs as [|b bs IH] using rev_ind; [reflexivity|].
  rewrite dict_by_data_snoc.
  rewrite (values_setitem _ _ _ (fun payload => last_with_data payload bs)).
  - apply map_ext. intros payload. now rewrite last_with_data_snoc.
  - rewrite keys_dict_by_data. apply first_occurrences_NoDup.
  - exact IH.
Qed.

Lemma data_values_dict_by_data bs :
  map Decoded.data (PyDict.values (dict_by_data bs))
  = PyDict.keys (dict_by_data bs).
Proof.
  apply (map_Some_inv (fun payload => last_with_data payload bs)).
  - apply values_dict_by_data.
  - intros k v. apply last_with_data_some.
Qed.

Lemma scan_results_fields decode_utf8 all :
  forall acc results,
    scan_results decode_utf8 all acc = Some results ->
    exists fresh,
      results = acc ++ fresh
      /\ map Some (map ScanResult.data fresh)
         = map decode_utf8 (map Decoded.data all)
      /\ map ScanResult.type fresh = map Decoded.type all
      /\ map ScanResult.bbox fresh = map Decoded.rect all.
Proof.
  induction all as [|barcode all IH]; simpl; intros acc results Hscan.
  - injection Hscan as <-. exists []. now rewrite app_nil_r.
  - unfold scan_result in Hscan.
    destruct (decode_utf8 (Decoded.data barcode)) as [data|] eqn:Hdata;
      [|discriminate].
    destruct (IH _ _ Hscan) as (fresh & -> & Hd & Ht & Hb).
    eexists (_ :: fresh). rewrite <- app_assoc. split; [reflexivity|].
    simpl. now rewrite Hd, Ht, Hb.
Qed.

(** C3.  The payloads of the merged detections are the payloads of the
    two passes, raw pass first, each exactly once and in the order of
    their first occurrence; the payload alone decides what is merged.
    When the payloads decode, the results of [scan_frame] carry the
    decoded payloads in that order. *)
Theorem merge_first_occurrences :
  forall barcodes barcodes_thresh,
    let payloads := map Decoded.data (barcodes ++ barcodes_thresh) in
    let merged := map Decoded.data (all_barcodes barcodes barcodes_thresh) in
    merged = first_occurrences payloads
    /\ NoDup merged
    /\ (forall payload, In payload merged <-> In payload payloads)
    /\ (forall payload,
           In payload payloads ->
           count_occ string_dec merged payload = 1%nat)
    /\ (forall decode_utf8 results,
           scan_frame decode_utf8 barcodes barcodes_thresh = Some results ->
           map Some (map ScanResult.data results)
           = map decode_utf8 (first_occurrences payloads)).
Proof.
  intros barcodes barcodes_thresh payloads merged.
  assert (Hmerged : merged = first_occurrences payloads).
  { subst merged payloads. unfold all_barcodes.
    now rewrite data_values_dict_by_data, keys_dict_by_data. }
  assert (Hnodup : NoDup merged)
    by (rewrite Hmerged; apply first_occurrences_NoDup).
  assert (Hin : forall payload, In payload merged <-> In payload payloads)
    by (intros payload; rewrite Hmerged; apply first_occurrences_In).
  repeat split; try assumption; try apply Hin.
  - intros payload Hpayload. apply Hin in Hpayload.
    pose proof (proj1 (NoDup_count_occ string_dec merged) Hnodup payload).
    pose proof (proj1 (count_occ_In string_dec merged payload) Hpayload).
    lia.
  - intros decode_utf8 results Hscan. unfold scan_frame in Hscan.
    destruct (scan_results_fields _ _ _ _ Hscan) as (fresh & -> & Hd & _).
    simpl. fold merged in Hd. now rewrite Hd, Hmerged.
Qed.

Lemma merge_first_occurrences_witness :
  map Decoded.data
    (all_barcodes
       [detection "A" "QRCODE" 10; detection "B" "QRCODE" 60]
       [detection "B" "QRCODE" 61; detection "C" "EAN13" 120])
  = ["A"; "B"; "C"]%string
  /\ count_occ string_dec
       (map Decoded.data
          (all_barcodes
             [detection "A" "QRCODE" 10; detection "B" "QRCODE" 60]
             [detection "B" "QRCODE" 61; detection "C" "EAN13" 120]))
       "B"
     = 1%nat.
Proof.
  pose proof (merge_first_occurrences
                [detection "A" "QRCODE" 10; detection "B" "QRCODE" 60]
                [detection "B" "QRCODE" 61; detection "C" "EAN13" 120])
    as H.
  cbv zeta in H. destruct H as (Hmerged & _ & _ & Hcount & _).
  split.
  - rewrite Hmerged. reflexivity.
  - apply Hcount. simpl. auto.
Defined.

(** C4, as stated, fails: of two detections with the payload [A], a QR
    code from the raw pass and a CODE128 from the thresholded pass, the
    merge keeps the second one, the later of the two. *)
Lemma merge_first_seen_counterexample :
  first_with_data "A" ([seen_raw] ++ [seen_thresh]) = Some seen_raw
  /\ all_barcodes [seen_raw] [seen_thresh] = [seen_thresh]
  /\ Decoded.type seen_thresh <> Decoded.type seen_raw
  /\ Decoded.rect seen_thresh <> Decoded.rect seen_raw.
Proof.
  split; [reflexivity|]. split; [reflexivity|].
  split; vm_compute; discriminate.
Qed.

(** C4, amended.  The merged list has, for each payload in the order of
    first occurrence, the latest detection with that payload in the
    concatenation of the two passes: where detections with one payload
    differ in symbology or region, the one seen last is kept, at the
    place of the one seen first. *)
Theorem merge_last_seen :
  forall barcodes barcodes_thresh,
    map Some (all_barcodes barcodes barcodes_thresh)
    = map (fun payload =>
             last_with_data payload (barcodes ++ barcodes_thresh))
        (first_occurrences (map Decoded.data (barcodes ++ barcodes_thresh))).
Proof.
  intros barcodes barcodes_thresh. unfold all_barcodes.
  now rewrite values_dict_by_data, keys_dict_by_data.
Qed.


(** * Further properties of the ledger *)

Lemma adjust_frame db c :
  products (fst (adjust db c)) = products db
  /\ warehouses (fst (adjust db c)) = warehouses db
  /\ scan_logs (fst (adjust db c)) = scan_logs db.
Proof. apply update_stock_frame. Qed.

Lemma adjust_movements_either db c :
  stock_movements (fst (adjust db c))
  = stock_movements db
    ++ (if returned (snd (adjust db c)) then [movement_of c] else []).
Proof.
  destruct (get_stock_level db (Adjust.product_id c) (Adjust.warehouse_id c)
            + Adjust.quantity_change c <? 0) eqn:Hge.
  - rewrite (adjust_raises db c Hge). simpl. now rewrite app_nil_r.
  - rewrite (adjust_movements db c Hge), (adjust_returns db c Hge).
    reflexivity.
Qed.

(** A balance is moved only by the calls on its own key: a sequence of
    calls none of which is on a key leaves the balance of that key as it
    was, whichever of the calls return. *)
Theorem balance_moved_by_own_key_only :
  forall calls db product_id warehouse_id,
    Forall (fun c => adjust_key c <> (product_id, warehouse_id)) calls ->
    get_stock_level (adjust_all db calls) product_id warehouse_id
    = get_stock_level db product_id warehouse_id.
Proof.
  induction calls as [|c calls IH]; simpl; intros db p w Hcalls.
  - reflexivity.
  - inversion Hcalls as [|? ? Hc Hrest]; subst.
    rewrite (IH _ _ _ Hrest). apply adjust_other_key.
    intros Heq. apply Hc. now symmetry.
Qed.

Lemma balance_moved_by_own_key_only_witness :
  get_stock_level
    (adjust_all stocked_db
       [ {| Adjust.uuid_stock := "stock-7";
            Adjust.uuid_movement := "movement-7";
            Adjust.product_id := "prod-002";
            Adjust.warehouse_id := "wh-001";
            Adjust.quantity_change := 4;
            Adjust.movement_type := RECEIPT;
            Adjust.reason := None;
            Adjust.scanned_by := None;
            Adjust.scanner_id := None |};
         {| Adjust.uuid_stock := "stock-8";
            Adjust.uuid_movement := "movement-8";
            Adjust.product_id := "prod-001";
            Adjust.warehouse_id := "wh-002";
            Adjust.quantity_change := -1;
            Adjust.movement_type := DELIVERY;
            Adjust.reason := None;
            Adjust.scanned_by := None;
            Adjust.scanner_id := None |} ])
    "prod-001" "wh-001"
  = get_stock_level stocked_db "prod-001" "wh-001".
Proof.
  apply balance_moved_by_own_key_only.
  repeat constructor; vm_compute; discriminate.
Defined.

(** The movement table is append-only and holds the history of the
    calls that returned: after a sequence of calls it is the table of
    before followed by one movement per returning call, in the order of
    the calls, and raising calls leave no trace.  The catalog and the
    scan log are not touched. *)
Theorem movements_are_the_committed_calls :
  forall calls db,
    stock_movements (adjust_all db calls)
    = stock_movements db ++ committed_movements db calls
    /\ products (adjust_all db calls) = products db
    /\ warehouses (adjust_all db calls) = warehouses db
    /\ scan_logs (adjust_all db calls) = scan_logs db.
Proof.
  induction calls as [|c calls IH]; simpl; intros db.
  - now rewrite app_nil_r.
  - destruct (IH (fst (adjust db c))) as (Hm & Hp & Hw & Hl).
    destruct (adjust_frame db c) as (Hp' & Hw' & Hl').
    rewrite Hm, Hp, Hw, Hl, Hp', Hw', Hl'.
    rewrite adjust_movements_either, <- app_assoc. auto.
Qed.

(** ** One stock level row per key *)

Lemma map_update_first {A B : Type} (p : A -> bool) (g : A -> B)
  (new : A) (l : list A) (r : A) :
  find p l = Some r -> g new = g r ->
  map g (update_first p new l) = map g l.
Proof.
  intros Hfind Hg. induction l as [|a l IH]; simpl in *.
  - reflexivity.
  - destruct (p a); simpl.
    + injection Hfind as ->. now rewrite Hg.
    + now rewrite IH.
Qed.

Lemma stock_filter_key p w s :
  stock_filter p w s = true <-> stock_key s = (p, w).
Proof.
  rewrite stock_filter_true. unfold stock_key.
  split; [intros [-> ->]; reflexivity | intros [= -> ->]; auto].
Qed.

Lemma find_stock_filter_none p w rows :
  find (stock_filter p w) rows = None -> ~ In (p, w) (map stock_key rows).
Proof.
  intros Hnone Hin. apply in_map_iff in Hin as [s [Hkey Hin]].
  apply (find_none _ _ Hnone) in Hin.
  apply stock_filter_key in Hkey. congruence.
Qed.

Lemma find_the_row rows s :
  NoDup (map stock_key rows) -> In s rows ->
  find (stock_filter (StockLevel.product_id s) (StockLevel.warehouse_id s))
    rows
  = Some s.
Proof.
  induction rows as [|a rows IH]; simpl; intros Hnodup Hin; [easy|].
  inversion Hnodup as [|? ? Hnotin Hnodup']; subst.
  destruct Hin as [->|Hin].
  - replace (stock_filter _ _ s) with true; [reflexivity|].
    symmetry. now apply stock_filter_key.
  - destruct (stock_filter _ _ a) eqn:Ha; [|now apply IH].
    apply stock_filter_key in Ha. exfalso. apply Hnotin.
    change (StockLevel.product_id s, StockLevel.warehouse_id s)
      with (stock_key s) in Ha.
    rewrite Ha. now apply in_map.
Qed.

(** The identities of the rows after one call: those of before, and that
    of the row the call has created, if it has. *)
Lemma adjust_stock_identities db c :
  exists created,
    map stock_identity (stock_levels (fst (adjust db c)))
    = map stock_identity (stock_levels db) ++ created
    /\ (created = []
        \/ (created = [(Adjust.uuid_stock c, adjust_key c)]
            /\ ~ In (adjust_key c) (map stock_key (stock_levels db)))).
Proof.
  unfold adjust, update_stock, adjust_key.
  destruct (find _ (stock_levels db)) as [row|] eqn:Hfind; simpl;
    destruct (_ <? 0); simpl;
    try (exists []; rewrite app_nil_r; split; [reflexivity | now left]).
  - exists []. rewrite app_nil_r. split; [|now left].
    apply (map_update_first _ _ _ _ _ Hfind). reflexivity.
  - eexists. rewrite map_app. split; [reflexivity|]. right.
    split; [reflexivity | now apply find_stock_filter_none].
Qed.

Lemma stock_keys_of_identities rows :
  map stock_key rows = map snd (map stock_identity rows).
Proof. now rewrite map_map. Qed.

Lemma adjust_keeps_one_row_per_key db c :
  NoDup (map stock_key (stock_levels db)) ->
  NoDup (map stock_key (stock_levels (fst (adjust db c)))).
Proof.
  intros Hnodup.
  destruct (adjust_stock_identities db c) as (created & Hids & Hcreated).
  rewrite stock_keys_of_identities, Hids, map_app,
    <- stock_keys_of_identities.
  destruct Hcreated as [->|[-> Hfresh]]; simpl.
  - now rewrite app_nil_r.
  - apply NoDup_app; [exact Hnodup | repeat constructor; easy |].
    intros k Hin [<-|[]]. contradiction.
Qed.

(** The ledger keeps one stock level row per key.  When no two rows of a
    database have the same key, no two have after any sequence of calls;
    the rows of before are still there, in place, each with its id and
    its key; and the balance read for the key of a row is the quantity
    of that row.  The empty ledger is such a database. *)
Theorem one_stock_level_per_key :
  forall calls db,
    NoDup (map stock_key (stock_levels db)) ->
    NoDup (map stock_key (stock_levels (adjust_all db calls)))
    /\ (exists created,
           map stock_identity (stock_levels (adjust_all db calls))
           = map stock_identity (stock_levels db) ++ created)
    /\ (forall row,
           In row (stock_levels (adjust_all db calls)) ->
           get_stock_level (adjust_all db calls)
             (StockLevel.product_id row) (StockLevel.warehouse_id row)
           = StockLevel.quantity row).
Proof.
  assert (Hkeep : forall calls db,
             NoDup (map stock_key (stock_levels db)) ->
             NoDup (map stock_key (stock_levels (adjust_all db calls)))
             /\ exists created,
                 map stock_identity (stock_levels (adjust_all db calls))
                 = map stock_identity (stock_levels db) ++ created).
  { induction calls as [|c calls IH]; simpl; intros db Hnodup.
    - split; [exact Hnodup|]. exists []. now rewrite app_nil_r.
    - destruct (IH _ (adjust_keeps_one_row_per_key db c Hnodup))
        as [Hnodup' [created' Hids']].
      split; [exact Hnodup'|].
      destruct (adjust_stock_identities db c) as (created & Hids & _).
      exists (created ++ created').
      now rewrite Hids', Hids, app_assoc. }
  intros calls db Hnodup.
  destruct (Hkeep calls db Hnodup) as [Hnodup' Hids].
  split; [exact Hnodup'|]. split; [exact Hids|].
  intros row Hin. unfold get_stock_level.
  now rewrite (find_the_row _ _ Hnodup' Hin).
Qed.

Lemma one_stock_level_per_key_witness :
  NoDup
    (map stock_key
       (stock_levels
          (adjust_all empty_database
             [sample_adjust "1" 10; sample_adjust "2" (-30);
              sample_adjust "3" (-4)])))
  /\ map stock_identity
       (stock_levels
          (adjust_all empty_database
             [sample_adjust "1" 10; sample_adjust "2" (-30);
              sample_adjust "3" (-4)]))
     = [("stock-1", ("prod-001", "wh-001"))]%string.
Proof.
  split; [|vm_compute; reflexivity].
  apply (one_stock_level_per_key
           [sample_adjust "1" 10; sample_adjust "2" (-30);
            sample_adjust "3" (-4)] empty_database).
  constructor.
Defined.

(** * Further properties of the scan router and of the handlers *)

Section RouterMovements.
Variable db : Database.
Variables uuid_s uuid_m product_barcode warehouse_barcode : string.
Variable quantity : float.
Variables scanned_by scanner_id : optional_str.

(** A scan that succeeds has inserted one movement, a scan that fails
    none. *)
Lemma scan_movements_length :
  (List.length (stock_movements
             (fst (process_receipt_scan db uuid_s uuid_m product_barcode
                     warehouse_barcode quantity scanned_by scanner_id)))
   = List.length (stock_movements db)
     + (if ScanOutcome.success
             (snd (process_receipt_scan db uuid_s uuid_m product_barcode
                     warehouse_barcode quantity scanned_by scanner_id))
        then 1 else 0))%nat
  /\ (List.length (stock_movements
                (fst (process_delivery_scan db uuid_s uuid_m product_barcode
                        warehouse_barcode quantity scanned_by scanner_id)))
      = List.length (stock_movements db)
        + (if ScanOutcome.success
                (snd (process_delivery_scan db uuid_s uuid_m product_barcode
                        warehouse_barcode quantity scanned_by scanner_id))
           then 1 else 0))%nat.
Proof.
  destruct (find_product_by_barcode db product_barcode) as [product|] eqn:Hp.
  - destruct (find_warehouse_by_barcode db warehouse_barcode)
      as [warehouse|] eqn:Hw.
    + destruct (scan_resolved db uuid_s uuid_m product_barcode
                  warehouse_barcode quantity scanned_by scanner_id
                  _ _ Hp Hw) as [Hr Hd].
      rewrite Hr, Hd. cbv zeta. cbn [fst snd]. split.
      * destruct (update_stock_outcome db uuid_s uuid_m
                    (Product.id product) (Warehouse.id warehouse) quantity
                    SCAN_RECEIPT
                    (Some ("Scanned receipt: " ++ Product.name product)%string)
                    scanned_by scanner_id) as [[Hneg _]|[Hge _]].
        -- rewrite (update_stock_raises _ _ _ _ _ _ _ _ _ _ Hneg).
           cbn [fst snd scan_body_result ScanOutcome.success]. lia.
        -- rewrite (update_stock_movements _ _ _ _ _ _ _ _ _ _ Hge),
             (update_stock_returns _ _ _ _ _ _ _ _ _ _ Hge).
           cbn [scan_body_result ScanOutcome.success].
           now rewrite length_app.
      * destruct (update_stock_outcome db uuid_s uuid_m
                    (Product.id product) (Warehouse.id warehouse)
                    (- quantity) SCAN_DELIVERY
                    (Some ("Scanned delivery: " ++ Product.name product)%string)
                    scanned_by scanner_id) as [[Hneg _]|[Hge _]].
        -- rewrite (update_stock_raises _ _ _ _ _ _ _ _ _ _ Hneg).
           cbn [fst snd scan_body_result ScanOutcome.success]. lia.
        -- rewrite (update_stock_movements _ _ _ _ _ _ _ _ _ _ Hge),
             (update_stock_returns _ _ _ _ _ _ _ _ _ _ Hge).
           cbn [scan_body_result ScanOutcome.success].
           now rewrite length_app.
    + destruct (scan_warehouse_not_found db uuid_s uuid_m product_barcode
                  warehouse_barcode quantity scanned_by scanner_id
                  _ Hp Hw) as [Hr Hd].
      rewrite Hr, Hd. simpl. lia.
  - destruct (scan_product_not_found db uuid_s uuid_m product_barcode
                warehouse_barcode quantity scanned_by scanner_id Hp)
      as [Hr Hd].
    rewrite Hr, Hd. simpl. lia.
Qed.
End RouterMovements.

(** One request: the tables after it. *)
Lemma handle_tables db s :
  products (fst (handle db s)) = products db
  /\ warehouses (fst (handle db s)) = warehouses db
  /\ (exists result,
         snd (handle db s) = Respond result
         /\ scan_logs (fst (handle db s))
            = scan_logs db
              ++ [scan_log_row (action_name (Scan.action s)) (Scan.uuids s)
                    (Scan.request s) result]
         /\ List.length (stock_movements (fst (handle db s)))
            = (List.length (stock_movements db)
               + (if ScanOutcome.success result then 1 else 0))%nat).
Proof.
  unfold handle. destruct (Scan.action s); simpl action_name.
  - rewrite scan_receipt_eq. cbv zeta.
    cbn [fst snd products warehouses scan_logs stock_movements].
    destruct (scan_frame_tables db (uuid_stock (Scan.uuids s))
                (uuid_movement (Scan.uuids s))
                (ScanRequest.product_barcode (Scan.request s))
                (ScanRequest.warehouse_barcode (Scan.request s))
                (ScanRequest.quantity (Scan.request s))
                (ScanRequest.scanned_by (Scan.request s))
                (ScanRequest.scanner_id (Scan.request s)))
      as [(Hp & Hw & Hl) _].
    split; [exact Hp|]. split; [exact Hw|].
    eexists. split; [reflexivity|]. split; [now rewrite Hl|].
    apply scan_movements_length.
  - rewrite scan_delivery_eq. cbv zeta.
    cbn [fst snd products warehouses scan_logs stock_movements].
    destruct (scan_frame_tables db (uuid_stock (Scan.uuids s))
                (uuid_movement (Scan.uuids s))
                (ScanRequest.product_barcode (Scan.request s))
                (ScanRequest.warehouse_barcode (Scan.request s))
                (ScanRequest.quantity (Scan.request s))
                (ScanRequest.scanned_by (Scan.request s))
                (ScanRequest.scanner_id (Scan.request s)))
      as [_ (Hp & Hw & Hl)].
    split; [exact Hp|]. split; [exact Hw|].
    eexists. split; [reflexivity|]. split; [now rewrite Hl|].
    apply scan_movements_length.
Qed.

(** The handlers read the catalog and never write it: after any sequence
    of receipt and delivery requests the products and the warehouses are
    those of before, every barcode resolves as before and a lookup gives
    the answer it gave before. *)
Theorem scans_keep_the_catalog :
  forall scans db,
    products (handle_all db scans) = products db
    /\ warehouses (handle_all db scans) = warehouses db
    /\ (forall barcode,
           find_product_by_barcode (handle_all db scans) barcode
           = find_product_by_barcode db barcode
           /\ find_warehouse_by_barcode (handle_all db scans) barcode
              = find_warehouse_by_barcode db barcode
           /\ snd (lookup_barcode (handle_all db scans) barcode)
              = snd (lookup_barcode db barcode)).
Proof.
  assert (Hcat : forall scans db,
             products (handle_all db scans) = products db
             /\ warehouses (handle_all db scans) = warehouses db).
  { induction scans as [|s scans IH]; simpl; intros db; [auto|].
    destruct (IH (fst (handle db s))) as [Hp Hw].
    destruct (handle_tables db s) as (Hp' & Hw' & _).
    now rewrite Hp, Hw, Hp', Hw'. }
  intros scans db. destruct (Hcat scans db) as [Hp Hw].
  split; [exact Hp|]. split; [exact Hw|].
  intros barcode.
  assert (Hfp : find_product_by_barcode (handle_all db scans) barcode
                = find_product_by_barcode db barcode)
    by (unfold find_product_by_barcode; now rewrite Hp).
  assert (Hfw : find_warehouse_by_barcode (handle_all db scans) barcode
                = find_warehouse_by_barcode db barcode)
    by (unfold find_warehouse_by_barcode; now rewrite Hw).
  split; [exact Hfp|]. split; [exact Hfw|].
  unfold lookup_barcode. rewrite Hfp, Hfw.
  destruct (find_product_by_barcode db barcode);
    [|destruct (find_warehouse_by_barcode db barcode)]; reflexivity.
Qed.

(** The scan log is the record of the requests: after a sequence of
    requests it is the log of before followed by one row per request, in
    the order of the requests, each with the product barcode, the action
    and the quantity of its request.  No row written by a handler has an
    error message, whether the scan failed or not: the reason of a
    failure is in the answer only. *)
Theorem scan_log_is_the_request_history :
  forall scans db,
    exists rows,
      scan_logs (handle_all db scans) = scan_logs db ++ rows
      /\ map ScanLog.barcode_data rows
         = map (fun s => ScanRequest.product_barcode (Scan.request s)) scans
      /\ map ScanLog.action_taken rows
         = map (fun s => action_name (Scan.action s)) scans
      /\ map ScanLog.quantity rows
         = map (fun s => Some (ScanRequest.quantity (Scan.request s))) scans
      /\ map ScanLog.id rows = map (fun s => uuid_log (Scan.uuids s)) scans
      /\ Forall (fun row => ScanLog.error_message row = None) rows.
Proof.
  induction scans as [|s scans IH]; simpl; intros db.
  - exists []. rewrite app_nil_r. repeat split; constructor.
  - destruct (IH (fst (handle db s)))
      as (rows & Hlogs & Hdata & Haction & Hquantity & Hid & Herror).
    destruct (handle_tables db s) as (_ & _ & result & _ & Hrow & _).
    eexists (_ :: rows). rewrite Hlogs, Hrow, <- app_assoc.
    split; [reflexivity|]. simpl.
    rewrite Hdata, Haction, Hquantity, Hid.
    repeat split. now constructor.
Qed.

(** The audit log and the ledger agree on what succeeded: over any
    sequence of requests, the number of movements inserted is the number
    of rows added to the scan log with success 1. *)
Theorem successful_scans_are_the_movements :
  forall scans db,
    (List.length (stock_movements (handle_all db scans))
     + List.length (success_rows (scan_logs db)))%nat
    = (List.length (stock_movements db)
       + List.length (success_rows (scan_logs (handle_all db scans))))%nat.
Proof.
  induction scans as [|s scans IH]; simpl; intros db; [reflexivity|].
  rewrite <- Nat.add_cancel_r
    with (p := List.length (success_rows (scan_logs (fst (handle db s))))).
  rewrite <- Nat.add_assoc,
    (Nat.add_comm (List.length (success_rows (scan_logs db)))),
    Nat.add_assoc, IH.
  destruct (handle_tables db s) as (_ & _ & result & _ & Hrow & Hlen).
  rewrite Hlen, Hrow. unfold success_rows. rewrite filter_app, length_app.
  simpl. destruct (ScanOutcome.success result); simpl; lia.
Qed.

(** The scans and the lookup resolve a product barcode alike.  When the
    lookup of a barcode does not answer with a product (it answers with
    a warehouse, or with 404), a receipt or a delivery with that barcode
    as product barcode fails with the product-not-found reason and
    leaves the database as it was; when it answers with a product, the
    scan does not fail for that reason. *)
Theorem lookup_and_scans_agree :
  forall db u m product_barcode warehouse_barcode quantity scanned_by
         scanner_id,
    let receipt :=
      process_receipt_scan db u m product_barcode warehouse_barcode
        quantity scanned_by scanner_id in
    let delivery :=
      process_delivery_scan db u m product_barcode warehouse_barcode
        quantity scanned_by scanner_id in
    ((forall data,
         snd (lookup_barcode db product_barcode)
         <> Respond (Lookup.product data)) ->
     receipt = (db, ScanOutcome.Failed (Product_not_found product_barcode))
     /\ delivery
        = (db, ScanOutcome.Failed (Product_not_found product_barcode)))
    /\ (forall data,
           snd (lookup_barcode db product_barcode)
           = Respond (Lookup.product data) ->
           snd receipt
           <> ScanOutcome.Failed (Product_not_found product_barcode)
           /\ snd delivery
              <> ScanOutcome.Failed (Product_not_found product_barcode)).
Proof.
  intros db u m product_barcode warehouse_barcode quantity scanned_by
    scanner_id receipt delivery.
  unfold lookup_barcode.
  destruct (find_product_by_barcode db product_barcode) as [product|] eqn:Hp.
  - split.
    + intros Hno. exfalso. now apply (Hno (product_data_of product)).
    + intros _ _.
      destruct (find_warehouse_by_barcode db warehouse_barcode)
        as [warehouse|] eqn:Hw.
      * destruct (scan_resolved db u m product_barcode warehouse_barcode
                    quantity scanned_by scanner_id _ _ Hp Hw) as [Hr Hd].
        fold receipt in Hr. fold delivery in Hd. rewrite Hr, Hd.
        cbv zeta. cbn [snd]. split.
        -- destruct (update_stock_outcome db u m (Product.id product)
                       (Warehouse.id warehouse) quantity SCAN_RECEIPT
                       (Some ("Scanned receipt: "
                              ++ Product.name product)%string)
                       scanned_by scanner_id) as [[Hneg _]|[Hge _]].
           ++ rewrite (update_stock_raises _ _ _ _ _ _ _ _ _ _ Hneg).
              cbn [snd scan_body_result str]. discriminate.
           ++ rewrite (update_stock_returns _ _ _ _ _ _ _ _ _ _ Hge).
              cbn [scan_body_result]. discriminate.
        -- destruct (update_stock_outcome db u m (Product.id product)
                       (Warehouse.id warehouse) (- quantity) SCAN_DELIVERY
                       (Some ("Scanned delivery: "
                              ++ Product.name product)%string)
                       scanned_by scanner_id) as [[Hneg _]|[Hge _]].
           ++ rewrite (update_stock_raises _ _ _ _ _ _ _ _ _ _ Hneg).
              cbn [snd scan_body_result str]. discriminate.
           ++ rewrite (update_stock_returns _ _ _ _ _ _ _ _ _ _ Hge).
              cbn [scan_body_result]. discriminate.
      * destruct (scan_warehouse_not_found db u m product_barcode
                    warehouse_barcode quantity scanned_by scanner_id
                    _ Hp Hw) as [Hr Hd].
        fold receipt in Hr. fold delivery in Hd. rewrite Hr, Hd.
        split; discriminate.
  - split.
    + intros _. now apply scan_product_not_found.
    + destruct (find_warehouse_by_barcode db product_barcode);
        cbn [snd]; intros data Hdata; discriminate.
Qed.

Lemma lookup_and_scans_agree_witness :
  snd (lookup_barcode catalog_db "WH-MAIN")
  = Respond (Lookup.warehouse (warehouse_data_of wh_main))
  /\ process_receipt_scan catalog_db "stock-1" "movement-1"
       "WH-MAIN" "WH-MAIN" 1 None None
     = (catalog_db, ScanOutcome.Failed (Product_not_found "WH-MAIN")).
Proof.
  split; [reflexivity|].
  pose proof (lookup_and_scans_agree catalog_db "stock-1" "movement-1"
                "WH-MAIN" "WH-MAIN" 1 None None) as H.
  cbv zeta in H. destruct H as [H _].
  apply H. intros data. vm_compute. discriminate.
Defined.

(** * Further properties of the detection merge and of [scan_frame] *)

Lemma find_app {A : Type} (p : A -> bool) (l l' : list A) :
  find p (l ++ l')
  = match find p l with
    | Some x => Some x
    | None => find p l'
    end.
Proof.
  induction l as [|a l IH]; simpl; [reflexivity|].
  destruct (p a); [reflexivity | exact IH].
Qed.

Lemma mem_app p l l' : mem p (l ++ l') = mem p l || mem p l'.
Proof. unfold mem. apply existsb_app. Qed.

Lemma first_occurrences_app l l' :
  first_occurrences (l ++ l')
  = first_occurrences l
    ++ filter (fun q => negb (mem q l)) (first_occurrences l').
Proof.
  induction l' as [|x l' IH] using rev_ind.
  - simpl. now rewrite !app_nil_r.
  - rewrite app_assoc, !first_occurrences_snoc, mem_app, IH.
    destruct (mem x l) eqn:Hl; simpl orb.
    + destruct (mem x l'); [reflexivity|].
      rewrite filter_app. simpl. rewrite Hl. simpl.
      now rewrite app_nil_r.
    + destruct (mem x l'); [reflexivity|].
      rewrite filter_app. simpl. rewrite Hl. simpl.
      now rewrite app_assoc.
Qed.

Lemma last_with_data_app payload bs bs' :
  last_with_data payload (bs ++ bs')
  = match last_with_data payload bs' with
    | Some b => Some b
    | None => last_with_data payload bs
    end.
Proof. unfold last_with_data. now rewrite rev_app_distr, find_app. Qed.

Lemma last_with_data_mem payload bs :
  mem payload (map Decoded.data bs) = false ->
  last_with_data payload bs = None.
Proof.
  intros Hmem. unfold last_with_data.
  destruct (find (has_data payload) (rev bs)) as [b|] eqn:Hfind;
    [|reflexivity].
  apply find_some in Hfind as [Hin Hdata].
  apply in_rev in Hin. apply String.eqb_eq in Hdata.
  assert (mem payload (map Decoded.data bs) = true) as Habs.
  { apply mem_In. rewrite <- Hdata. now apply in_map. }
  congruence.
Qed.

Lemma map_Some_In {K V : Type} (f : K -> option V) (vs : list V) :
  forall ks v,
    map Some vs = map f ks -> In v vs -> exists k, In k ks /\ f k = Some v.
Proof.
  induction vs as [|v0 vs IH]; intros [|k ks] v Heq Hin; simpl in *;
    try discriminate; [easy|].
  injection Heq as Hv Hvs. destruct Hin as [->|Hin].
  - exists k. auto.
  - destruct (IH _ _ Hvs Hin) as [k' [Hk' Hf]]. exists k'. auto.
Qed.

(** A merged detection is the latest detection with its payload. *)
Lemma all_barcodes_last barcodes barcodes_thresh b :
  In b (all_barcodes barcodes barcodes_thresh) ->
  last_with_data (Decoded.data b) (barcodes ++ barcodes_thresh) = Some b.
Proof.
  intros Hin. unfold all_barcodes in Hin.
  destruct (map_Some_In _ _ _ _ (values_dict_by_data _) Hin)
    as [k [_ Hk]].
  now rewrite (last_with_data_some _ _ _ Hk).
Qed.

(** The raw pass comes first and the thresholded pass wins.  The
    payloads of the merge are those of the raw pass, in the order the raw
    pass first has them, followed by the payloads that only the
    thresholded pass has; and the detection kept for a payload is the
    thresholded one whenever the thresholded pass has the payload, a raw
    one only when it has not. *)
Theorem thresholded_pass_wins :
  forall barcodes barcodes_thresh,
    map Decoded.data (all_barcodes barcodes barcodes_thresh)
    = first_occurrences (map Decoded.data barcodes)
      ++ filter (fun q => negb (mem q (map Decoded.data barcodes)))
           (first_occurrences (map Decoded.data barcodes_thresh))
    /\ (forall b,
           In b (all_barcodes barcodes barcodes_thresh) ->
           if mem (Decoded.data b) (map Decoded.data barcodes_thresh)
           then last_with_data (Decoded.data b) barcodes_thresh = Some b
           else last_with_data (Decoded.data b) barcodes = Some b).
Proof.
  intros barcodes barcodes_thresh. split.
  - unfold all_barcodes.
    now rewrite data_values_dict_by_data, keys_dict_by_data, map_app,
      first_occurrences_app.
  - intros b Hin. apply all_barcodes_last in Hin.
    rewrite last_with_data_app in Hin.
    destruct (mem (Decoded.data b) (map Decoded.data barcodes_thresh))
      eqn:Hmem.
    + destruct (last_with_data (Decoded.data b) barcodes_thresh) as [b'|]
        eqn:Hlast; [exact Hin|].
      apply mem_In, in_map_iff in Hmem as [b' [Hdata Hb']].
      unfold last_with_data in Hlast.
      apply in_rev in Hb'. apply (find_none _ _ Hlast) in Hb'.
      unfold has_data in Hb'. rewrite Hdata, String.eqb_refl in Hb'.
      discriminate.
    + now rewrite (last_with_data_mem _ _ Hmem) in Hin.
Qed.

Lemma setitem_fresh {V : Type} (d : PyDict.t V) k v :
  mem k (PyDict.keys d) = false -> PyDict.setitem d k v = d ++ [(k, v)].
Proof.
  unfold mem. induction d as [|[k' v'] d IH]; simpl; [reflexivity|].
  destruct (String.eqb k' k); simpl; [discriminate|].
  intros Hmem. now rewrite IH.
Qed.

Lemma values_distinct_payloads bs :
  NoDup (map Decoded.data bs) -> PyDict.values (dict_by_data bs) = bs.
Proof.
  induction bs as [|b bs IH] using rev_ind; [reflexivity|].
  rewrite map_app. simpl. intros Hnodup.
  apply NoDup_remove in Hnodup as [Hnodup Hnotin]. rewrite app_nil_r in *.
  rewrite dict_by_data_snoc, setitem_fresh.
  - unfold PyDict.values in *. rewrite map_app, IH by exact Hnodup.
    reflexivity.
  - rewrite keys_dict_by_data, mem_first_occurrences.
    destruct (mem (Decoded.data b) (map Decoded.data bs)) eqn:Hmem;
      [|reflexivity].
    apply mem_In in Hmem. contradiction.
Qed.

(** Merging is idempotent and never invents detections.  A pass whose
    payloads are all different is returned as it is; merging the result
    of a merge again, with nothing, changes nothing; every merged
    detection is one of the detections given; and the merge of nothing
    is empty. *)
Theorem merge_is_idempotent :
  forall barcodes barcodes_thresh,
    (NoDup (map Decoded.data barcodes) ->
     all_barcodes barcodes [] = barcodes)
    /\ all_barcodes (all_barcodes barcodes barcodes_thresh) []
       = all_barcodes barcodes barcodes_thresh
    /\ (forall b,
           In b (all_barcodes barcodes barcodes_thresh) ->
           In b (barcodes ++ barcodes_thresh))
    /\ (List.length (all_barcodes barcodes barcodes_thresh)
        <= List.length barcodes + List.length barcodes_thresh)%nat
    /\ all_barcodes [] [] = [].
Proof.
  intros barcodes barcodes_thresh.
  assert (Hdistinct : forall bs, NoDup (map Decoded.data bs) ->
                                 all_barcodes bs [] = bs).
  { intros bs Hnodup. unfold all_barcodes. rewrite app_nil_r.
    now apply values_distinct_payloads. }
  split; [apply Hdistinct|]. split; [|split; [|split]].
  - apply Hdistinct. unfold all_barcodes.
    rewrite data_values_dict_by_data, keys_dict_by_data.
    apply first_occurrences_NoDup.
  - intros b Hin. apply all_barcodes_last in Hin.
    unfold last_with_data in Hin. apply find_some in Hin as [Hin _].
    now apply in_rev in Hin.
  - rewrite <- length_app.
    rewrite <- (length_map Decoded.data (all_barcodes _ _)),
      <- (length_map Decoded.data (barcodes ++ barcodes_thresh)).
    unfold all_barcodes.
    rewrite data_values_dict_by_data, keys_dict_by_data.
    apply NoDup_incl_length; [apply first_occurrences_NoDup|].
    intros p. apply first_occurrences_In.
  - reflexivity.
Qed.

Lemma merge_is_idempotent_witness :
  all_barcodes [detection "A" "QRCODE" 10; detection "B" "EAN13" 60] []
  = [detection "A" "QRCODE" 10; detection "B" "EAN13" 60].
Proof.
  apply (proj1 (merge_is_idempotent
                  [detection "A" "QRCODE" 10; detection "B" "EAN13" 60] [])).
  repeat constructor; simpl; intuition discriminate.
Defined.

Lemma scan_results_none decode_utf8 all :
  forall acc,
    scan_results decode_utf8 all acc = None <->
    exists b, In b all /\ decode_utf8 (Decoded.data b) = None.
Proof.
  induction all as [|barcode all IH]; simpl; intros acc.
  - split; [discriminate | intros [b [[] _]]].
  - unfold scan_result.
    destruct (decode_utf8 (Decoded.data barcode)) as [data|] eqn:Hdata.
    + rewrite IH. split.
      * intros [b [Hin Hb]]. exists b. auto.
      * intros [b [[<-|Hin] Hb]]; [congruence|]. exists b. auto.
    + split; [|reflexivity]. intros _. exists barcode. auto.
Qed.

Lemma scan_results_built decode_utf8 all :
  forall acc results,
    scan_results decode_utf8 all acc = Some results ->
    exists fresh,
      results = acc ++ fresh
      /\ map (fun r => (ScanResult.type r, ScanResult.bbox r)) fresh
         = map (fun b => (Decoded.type b, Decoded.rect b)) all
      /\ Forall (fun r => ScanResult.confidence r = 1) fresh.
Proof.
  induction all as [|barcode all IH]; simpl; intros acc results Hscan.
  - injection Hscan as <-. exists []. rewrite app_nil_r. auto.
  - unfold scan_result in Hscan.
    destruct (decode_utf8 (Decoded.data barcode)) as [data|];
      [|discriminate].
    destruct (IH _ _ Hscan) as (fresh & -> & Hfields & Hconfidence).
    eexists (_ :: fresh). rewrite <- app_assoc. split; [reflexivity|].
    simpl. rewrite Hfields. split; [reflexivity|]. now constructor.
Qed.

Lemma scan_frame_none decode_utf8 barcodes barcodes_thresh :
  scan_frame decode_utf8 barcodes barcodes_thresh = None <->
  exists b,
    In b (barcodes ++ barcodes_thresh)
    /\ decode_utf8 (Decoded.data b) = None.
Proof.
  unfold scan_frame. rewrite scan_results_none. split.
  - intros [b [Hin Hb]]. exists b. split; [|exact Hb].
    apply all_barcodes_last in Hin. unfold last_with_data in Hin.
    apply find_some in Hin as [Hin _]. now apply in_rev in Hin.
  - intros [b [Hin Hb]].
    assert (In (Decoded.data b)
              (map Decoded.data (all_barcodes barcodes barcodes_thresh)))
      as Hpayload.
    { unfold all_barcodes.
      rewrite data_values_dict_by_data, keys_dict_by_data.
      apply first_occurrences_In. now apply in_map. }
    apply in_map_iff in Hpayload as [b' [Hdata Hb']].
    exists b'. split; [exact Hb' | now rewrite Hdata].
Qed.

(** One payload that does not decode loses the frame: [scan_frame]
    raises exactly when some detection of either pass has a payload that
    is not valid UTF-8, even when the other payloads are. *)
Theorem scan_frame_raises_on_bad_payload :
  forall decode_utf8 barcodes barcodes_thresh,
    scan_frame decode_utf8 barcodes barcodes_thresh = None <->
    exists b,
      In b (barcodes ++ barcodes_thresh)
      /\ decode_utf8 (Decoded.data b) = None.
Proof. intros. apply scan_frame_none. Qed.

(** When every payload decodes, [scan_frame] returns one result per
    different payload, in the order of the merge; each result has the
    decoded payload, the symbology and the bounding box of the merged
    detection it comes from, and confidence 1.  An empty frame gives the
    empty list. *)
Theorem scan_frame_results :
  forall decode_utf8 barcodes barcodes_thresh,
    (forall b, In b (barcodes ++ barcodes_thresh) ->
               decode_utf8 (Decoded.data b) <> None) ->
    exists results,
      scan_frame decode_utf8 barcodes barcodes_thresh = Some results
      /\ List.length results
         = List.length
             (first_occurrences
                (map Decoded.data (barcodes ++ barcodes_thresh)))
      /\ map (fun r => (Some (ScanResult.data r),
                        ScanResult.type r, ScanResult.bbox r)) results
         = map (fun b => (decode_utf8 (Decoded.data b),
                          Decoded.type b, Decoded.rect b))
             (all_barcodes barcodes barcodes_thresh)
      /\ Forall (fun r => ScanResult.confidence r = 1) results.
Proof.
  intros decode_utf8 barcodes barcodes_thresh Hdecode.
  destruct (scan_frame decode_utf8 barcodes barcodes_thresh)
    as [results|] eqn:Hscan.
  - exists results. split; [reflexivity|].
    unfold scan_frame in Hscan.
    destruct (scan_results_fields _ _ _ _ Hscan)
      as (fresh & Hfresh & Hdata & Htype & Hbbox).
    destruct (scan_results_built _ _ _ _ Hscan)
      as (fresh' & Hfresh' & _ & Hconfidence).
    simpl in Hfresh, Hfresh'. subst fresh fresh'.
    split; [|split; [|exact Hconfidence]].
    + rewrite <- (length_map ScanResult.type), Htype, length_map.
      rewrite <- (length_map Decoded.data). unfold all_barcodes.
      now rewrite data_values_dict_by_data, keys_dict_by_data.
    + clear Hscan Hconfidence. revert Hdata Htype Hbbox.
      generalize (all_barcodes barcodes barcodes_thresh) as all.
      induction results as [|r results IH]; intros [|b all];
        simpl; try discriminate; [reflexivity|].
      intros [= Hd Hds] [= Ht Hts] [= Hb Hbs].
      now rewrite Hd, Ht, Hb, (IH all).
  - apply scan_frame_none in Hscan as [b [Hin Hb]].
    exfalso. exact (Hdecode b Hin Hb).
Qed.

Lemma scan_frame_raises_on_bad_payload_witness :
  scan_frame decode_ascii
    [detection "A" "QRCODE" 10]
    [detection bad_payload "CODE128" 200]
  = None.
Proof.
  apply scan_frame_raises_on_bad_payload.
  exists (detection bad_payload "CODE128" 200).
  split; [simpl; auto | reflexivity].
Defined.

Lemma scan_frame_results_witness :
  exists results,
    scan_frame decode_ascii
      [detection "A" "QRCODE" 10; detection "B" "QRCODE" 60]
      [detection "B" "CODE128" 61]
    = Some results
    /\ List.length results = 2%nat
    /\ map (fun r => (Some (ScanResult.data r),
                      ScanResult.type r, ScanResult.bbox r)) results
       = [(Some "A", "QRCODE", (10, 0, 40, 40)%Z);
          (Some "B", "CODE128", (61, 0, 40, 40)%Z)]%string
    /\ Forall (fun r => ScanResult.confidence r = 1) results.
Proof.
  apply (scan_frame_results decode_ascii
           [detection "A" "QRCODE" 10; detection "B" "QRCODE" 60]
           [detection "B" "CODE128" 61]).
  intros b [<-|[<-|[<-|[]]]]; discriminate.
Defined.

(** * Properties of the scan history *)

Section ScanHistoryLemmas.
Variable scan_timestamp : ScanLog.t -> Z.

Let newer_first (a b : ScanLog.t) : Prop :=
  (scan_timestamp b <= scan_timestamp a)%Z.

Lemma insert_desc_perm log sorted :
  Permutation (insert_desc scan_timestamp log sorted) (log :: sorted).
Proof.
  induction sorted as [|x sorted IH]; simpl; [reflexivity|].
  destruct (scan_timestamp x <=? scan_timestamp log)%Z; [reflexivity|].
  rewrite IH. apply perm_swap.
Qed.

Lemma order_by_perm rows :
  Permutation (order_by_timestamp_desc scan_timestamp rows) rows.
Proof.
  induction rows as [|log rows IH]; simpl; [reflexivity|].
  rewrite insert_desc_perm. now constructor.
Qed.

Lemma insert_desc_sorted log sorted :
  StronglySorted newer_first sorted ->
  StronglySorted newer_first (insert_desc scan_timestamp log sorted).
Proof.
  induction sorted as [|x sorted IH]; simpl; intros Hsorted.
  - repeat constructor.
  - inversion Hsorted as [|? ? Hrest Hall]; subst.
    destruct (scan_timestamp x <=? scan_timestamp log)%Z eqn:Hcmp.
    + apply Z.leb_le in Hcmp. constructor; [exact Hsorted|].
      constructor; [exact Hcmp|].
      apply (Forall_impl _ (P := newer_first x)); [|exact Hall].
      unfold newer_first. intros b Hb. lia.
    + apply Z.leb_gt in Hcmp. constructor; [now apply IH|].
      apply (Permutation_Forall (x := log :: sorted)).
      * symmetry. apply insert_desc_perm.
      * constructor; [unfold newer_first; lia | exact Hall].
Qed.

Lemma order_by_sorted rows :
  StronglySorted newer_first (order_by_timestamp_desc scan_timestamp rows).
Proof.
  induction rows as [|log rows IH]; simpl.
  - constructor.
  - now apply insert_desc_sorted.
Qed.

Lemma In_firstn {A : Type} (x : A) n :
  forall l, In x (firstn n l) -> In x l.
Proof.
  induction n as [|n IH]; intros [|a l]; simpl; try easy.
  intros [->|Hin]; [now left | right; now apply IH].
Qed.

Lemma firstn_sorted {A : Type} (R : A -> A -> Prop) n :
  forall l, StronglySorted R l -> StronglySorted R (firstn n l).
Proof.
  induction n as [|n IH]; intros [|a l] Hsorted; simpl;
    try constructor.
  - apply IH. now inversion Hsorted.
  - inversion Hsorted as [|? ? _ Hall]; subst.
    rewrite Forall_forall in *. intros b Hb. apply Hall.
    now apply (In_firstn b n l).
Qed.

Lemma map_sorted {A B : Type} (R : B -> B -> Prop) (f : A -> B) l :
  StronglySorted (fun a b => R (f a) (f b)) l ->
  StronglySorted R (map f l).
Proof.
  induction 1 as [|a l _ IH Hall]; simpl; constructor; [exact IH|].
  rewrite Forall_forall in *. intros b Hb.
  apply in_map_iff in Hb as [a' [<- Ha']]. now apply Hall.
Qed.

Lemma history_sorted db limit product_id warehouse_id :
  StronglySorted
    (fun a b => (HistoryEntry.timestamp b <= HistoryEntry.timestamp a)%Z)
    (get_scan_history scan_timestamp db limit product_id warehouse_id).
Proof.
  unfold get_scan_history. apply map_sorted. simpl.
  apply firstn_sorted. apply order_by_sorted.
Qed.

Lemma filter_if_given_incl column value rows log :
  In log (filter_if_given column value rows) ->
  In log rows
  /\ (forall c v, value = Some (String c v) ->
                  column log = Some (String c v)).
Proof.
  unfold filter_if_given. destruct value as [[|c v]|].
  - intros Hin. split; [exact Hin | discriminate].
  - rewrite filter_In. intros [Hin Heq]. split; [exact Hin|].
    intros c' v' [= <- <-]. unfold column_eqb in Heq.
    destruct (column log) as [x|]; [|discriminate].
    apply String.eqb_eq in Heq. now subst.
  - intros Hin. split; [exact Hin | discriminate].
Qed.

Lemma filter_if_given_length column value rows :
  (List.length (filter_if_given column value rows) <= List.length rows)%nat.
Proof.
  unfold filter_if_given.
  destruct value as [[|c v]|]; auto using filter_length_le.
Qed.

Lemma history_rows_perm db product_id warehouse_id :
  Permutation
    (history_rows scan_timestamp db product_id warehouse_id)
    (filter_if_given ScanLog.warehouse_id warehouse_id
       (filter_if_given ScanLog.product_id product_id (scan_logs db))).
Proof. apply order_by_perm. Qed.
End ScanHistoryLemmas.

(** The history is newest first: in the list that [get_scan_history]
    returns no entry is older than an entry that comes after it. *)
Theorem scan_history_newest_first :
  forall scan_timestamp db limit product_id warehouse_id,
    StronglySorted
      (fun a b => (HistoryEntry.timestamp b <= HistoryEntry.timestamp a)%Z)
      (get_scan_history scan_timestamp db limit product_id warehouse_id).
Proof. intros. apply history_sorted. Qed.

(** What the history selects.  It never has more entries than the
    limit, nor than the rows that pass the filters, and has exactly the
    smaller of the two; every entry is the entry of a row of the scan
    log, and that row has the product id and the warehouse id asked
    for.  A filter value that is the empty string is no filter, like
    [None]. *)
Theorem scan_history_selection :
  forall scan_timestamp db limit product_id warehouse_id,
    let history :=
      get_scan_history scan_timestamp db limit product_id warehouse_id in
    List.length history
    = Nat.min limit
        (List.length
           (filter_if_given ScanLog.warehouse_id warehouse_id
              (filter_if_given ScanLog.product_id product_id
                 (scan_logs db))))
    /\ (List.length history <= List.length (scan_logs db))%nat
    /\ (forall entry,
           In entry history ->
           exists log,
             In log (scan_logs db)
             /\ entry = history_entry scan_timestamp log
             /\ (forall c v, product_id = Some (String c v) ->
                             ScanLog.product_id log = Some (String c v))
             /\ (forall c v, warehouse_id = Some (String c v) ->
                             ScanLog.warehouse_id log = Some (String c v)))
    /\ get_scan_history scan_timestamp db limit (Some ""%string) warehouse_id
       = get_scan_history scan_timestamp db limit None warehouse_id
    /\ get_scan_history scan_timestamp db limit product_id (Some ""%string)
       = get_scan_history scan_timestamp db limit product_id None.
Proof.
  intros scan_timestamp db limit product_id warehouse_id history.
  assert (Hlen : List.length history
                 = Nat.min limit
                     (List.length
                        (filter_if_given ScanLog.warehouse_id warehouse_id
                           (filter_if_given ScanLog.product_id product_id
                              (scan_logs db))))).
  { subst history. unfold get_scan_history.
    rewrite length_map, length_firstn.
    now rewrite (Permutation_length (history_rows_perm _ _ _ _)). }
  split; [exact Hlen|]. split; [|split; [|split; reflexivity]].
  - rewrite Hlen.
    pose proof (filter_if_given_length ScanLog.warehouse_id warehouse_id
                  (filter_if_given ScanLog.product_id product_id
                     (scan_logs db))).
    pose proof (filter_if_given_length ScanLog.product_id product_id
                  (scan_logs db)).
    lia.
  - intros entry Hin. subst history. unfold get_scan_history in Hin.
    apply in_map_iff in Hin as [log [<- Hin]].
    apply In_firstn in Hin.
    apply (Permutation_in _ (history_rows_perm _ _ _ _)) in Hin.
    apply filter_if_given_incl in Hin as [Hin Hw].
    apply filter_if_given_incl in Hin as [Hin Hp].
    exists log. auto.
Qed.

Lemma scan_history_complete_lemma scan_timestamp db limit :
  (List.length (scan_logs db) <= limit)%nat ->
  Permutation
    (get_scan_history scan_timestamp db limit None None)
    (map (history_entry scan_timestamp) (scan_logs db))
  /\ fst (scan_history_response scan_timestamp db limit None None)
     = List.length (scan_logs db).
Proof.
  intros Hlimit.
  assert (Hperm : Permutation
                    (get_scan_history scan_timestamp db limit None None)
                    (map (history_entry scan_timestamp) (scan_logs db))).
  { unfold get_scan_history. apply Permutation_map.
    rewrite firstn_all2.
    - apply (history_rows_perm scan_timestamp db None None).
    - now rewrite (Permutation_length
                     (history_rows_perm scan_timestamp db None None)). }
  split; [exact Hperm|].
  unfold scan_history_response. cbn [fst].
  now rewrite (Permutation_length Hperm), length_map.
Qed.

(** Without filters and with a limit that the scan log does not exceed,
    the history is complete: it has one entry for each row of the scan
    log, and nothing else. *)
Theorem scan_history_complete :
  forall scan_timestamp db limit,
    (List.length (scan_logs db) <= limit)%nat ->
    Permutation
      (get_scan_history scan_timestamp db limit None None)
      (map (history_entry scan_timestamp) (scan_logs db))
    /\ fst (scan_history_response scan_timestamp db limit None None)
       = List.length (scan_logs db).
Proof. intros. now apply scan_history_complete_lemma. Qed.

Lemma scan_history_complete_witness :
  Permutation
    (get_scan_history sample_clock
       (handle_all catalog_db
          [sample_scan Receipt "1" "STEEL-ROD-50" "WH-MAIN" 5;
           sample_scan Delivery "22" "STEEL-ROD-50" "WH-MAIN" 9])
       100 None None)
    (map (history_entry sample_clock)
       (scan_logs
          (handle_all catalog_db
             [sample_scan Receipt "1" "STEEL-ROD-50" "WH-MAIN" 5;
              sample_scan Delivery "22" "STEEL-ROD-50" "WH-MAIN" 9])))
  /\ map HistoryEntry.id
       (get_scan_history sample_clock
          (handle_all catalog_db
             [sample_scan Receipt "1" "STEEL-ROD-50" "WH-MAIN" 5;
              sample_scan Delivery "22" "STEEL-ROD-50" "WH-MAIN" 9])
          100 None None)
     = ["log-22"; "log-1"]%string.
Proof.
  split; [|vm_compute; reflexivity].
  apply scan_history_complete. vm_compute. lia.
Defined.

Lemma filter_if_given_app column value rows rows' :
  filter_if_given column value (rows ++ rows')
  = filter_if_given column value rows ++ filter_if_given column value rows'.
Proof.
  unfold filter_if_given.
  destruct value as [[|c v]|]; auto using filter_app.
Qed.

Lemma filter_if_given_null column c v rows :
  Forall (fun log => column log = None) rows ->
  filter_if_given column (Some (String c v)) rows = [].
Proof.
  unfold filter_if_given. induction 1 as [|log rows Hlog _ IH]; simpl.
  - reflexivity.
  - now rewrite Hlog.
Qed.

Lemma filter_if_given_Forall (P : ScanLog.t -> Prop) column value rows :
  Forall P rows -> Forall P (filter_if_given column value rows).
Proof.
  intros Hall. rewrite Forall_forall in *. intros log Hin.
  apply Hall. now apply (filter_if_given_incl _ _ _ _ Hin).
Qed.

(** A scan that was handled is in the history.  With no filter and a
    limit above the number of rows of the log before the request, the
    history read after the request has the entry of that request: its
    log id, its action, its product barcode, the success of its outcome
    and no error text. *)
Theorem handled_scan_is_in_history :
  forall scan_timestamp db s limit,
    (List.length (scan_logs db) < limit)%nat ->
    exists result entry,
      snd (handle db s) = Respond result
      /\ In entry
           (get_scan_history scan_timestamp (fst (handle db s)) limit
              None None)
      /\ HistoryEntry.id entry = uuid_log (Scan.uuids s)
      /\ HistoryEntry.action entry = action_name (Scan.action s)
      /\ HistoryEntry.barcode entry
         = ScanRequest.product_barcode (Scan.request s)
      /\ HistoryEntry.success entry = ScanOutcome.success result
      /\ HistoryEntry.error entry = None.
Proof.
  intros scan_timestamp db s limit Hlimit.
  destruct (handle_tables db s) as (_ & _ & result & Hresult & Hrow & _).
  exists result.
  exists (history_entry scan_timestamp
            (scan_log_row (action_name (Scan.action s)) (Scan.uuids s)
               (Scan.request s) result)).
  split; [exact Hresult|]. split.
  - assert (Hlen : (List.length (scan_logs (fst (handle db s))) <= limit)%nat)
      by (rewrite Hrow, length_app; simpl; lia).
    destruct (scan_history_complete_lemma scan_timestamp _ _ Hlen) as [Hperm _].
    apply (Permutation_in _ (Permutation_sym Hperm)).
    apply in_map. rewrite Hrow. apply in_or_app. right. now left.
  - repeat split. simpl. now destruct (ScanOutcome.success result).
Qed.

Lemma handled_scan_is_in_history_witness :
  exists result entry,
    snd (handle catalog_db
           (sample_scan Delivery "1" "STEEL-ROD-50" "WH-MAIN" 30))
    = Respond result
    /\ In entry
         (get_scan_history sample_clock
            (fst (handle catalog_db
                    (sample_scan Delivery "1" "STEEL-ROD-50" "WH-MAIN" 30)))
            100 None None)
    /\ HistoryEntry.id entry = "log-1"%string
    /\ HistoryEntry.action entry = "delivery"%string
    /\ HistoryEntry.barcode entry = "STEEL-ROD-50"%string
    /\ HistoryEntry.success entry = ScanOutcome.success result
    /\ HistoryEntry.error entry = None.
Proof.
  apply (handled_scan_is_in_history sample_clock catalog_db
           (sample_scan Delivery "1" "STEEL-ROD-50" "WH-MAIN" 30) 100).
  vm_compute. lia.
Defined.

(** A failed scan is out of every filtered history.  The row of a scan
    that failed has no product id and no warehouse id, so a history
    filtered by a product or by a warehouse is, after the failed request,
    what it was before it: the failure shows in the unfiltered history
    only. *)
Theorem failed_scan_is_hidden_by_filters :
  forall scan_timestamp db s limit result c v,
    snd (handle db s) = Respond result ->
    ScanOutcome.success result = false ->
    (forall warehouse_id,
        get_scan_history scan_timestamp (fst (handle db s)) limit
          (Some (String c v)) warehouse_id
        = get_scan_history scan_timestamp db limit
            (Some (String c v)) warehouse_id)
    /\ (forall product_id,
           get_scan_history scan_timestamp (fst (handle db s)) limit
             product_id (Some (String c v))
           = get_scan_history scan_timestamp db limit
               product_id (Some (String c v))).
Proof.
  intros scan_timestamp db s limit result c v Hresult Hfail.
  destruct (handle_tables db s) as (_ & _ & result' & Hresult' & Hrow & _).
  rewrite Hresult in Hresult'. injection Hresult' as <-.
  assert (Hnull : Forall (fun log => ScanLog.product_id log = None
                                     /\ ScanLog.warehouse_id log = None)
                    [scan_log_row (action_name (Scan.action s))
                       (Scan.uuids s) (Scan.request s) result]).
  { constructor; [|constructor]. simpl.
    destruct result; [discriminate | auto]. }
  split.
  - intros warehouse_id. unfold get_scan_history, history_rows.
    rewrite Hrow, filter_if_given_app.
    rewrite (filter_if_given_null ScanLog.product_id c v
               [scan_log_row _ _ _ _]).
    + now rewrite app_nil_r.
    + apply (Forall_impl _ (P := fun log => ScanLog.product_id log = None
                                            /\ ScanLog.warehouse_id log = None));
        [tauto | exact Hnull].
  - intros product_id. unfold get_scan_history, history_rows.
    rewrite Hrow, !filter_if_given_app.
    rewrite (filter_if_given_null ScanLog.warehouse_id c v
               (filter_if_given ScanLog.product_id product_id
                  [scan_log_row _ _ _ _])).
    + now rewrite app_nil_r.
    + apply filter_if_given_Forall.
      apply (Forall_impl _ (P := fun log => ScanLog.product_id log = None
                                            /\ ScanLog.warehouse_id log = None));
        [tauto | exact Hnull].
Qed.

Lemma failed_scan_is_hidden_by_filters_witness :
  get_scan_history sample_clock
    (fst (handle stocked_db
            (sample_scan Delivery "1" "STEEL-ROD-50" "WH-MAIN" 30)))
    100 (Some "prod-001"%string) None
  = get_scan_history sample_clock stocked_db 100
      (Some "prod-001"%string) None.
Proof.
  apply (proj1
           (failed_scan_is_hidden_by_filters sample_clock stocked_db
              (sample_scan Delivery "1" "STEEL-ROD-50" "WH-MAIN" 30) 100
              (ScanOutcome.Failed (Insufficient_stock 10))
              (Ascii.ascii_of_nat 112) "rod-001"%string
              ltac:(vm_compute; reflexivity) eq_refl)).
Defined.

(** * Properties of the scanners and of their registry *)

Section IntDictLemmas.
Context {V : Type}.
Implicit Types (d : IntDict.t V) (k : Z) (v : V).

Lemma get_none_keys d k :
  IntDict.get d k = None <-> ~ In k (IntDict.keys d).
Proof.
  induction d as [|[k' v'] d IH]; simpl; [tauto|].
  destruct (Z.eqb_spec k' k) as [->|Hneq].
  - split; [discriminate | intros H; exfalso; auto].
  - rewrite IH. tauto.
Qed.

Lemma setitem_absent d k v :
  IntDict.get d k = None -> IntDict.setitem d k v = d ++ [(k, v)].
Proof.
  induction d as [|[k' v'] d IH]; simpl; [reflexivity|].
  destruct (Z.eqb k' k); [discriminate|].
  intros Hget. now rewrite IH.
Qed.

Lemma get_app_absent d k v k0 :
  IntDict.get d k = None ->
  IntDict.get (d ++ [(k, v)]) k0
  = if Z.eqb k k0 then Some v else IntDict.get d k0.
Proof.
  induction d as [|[k' v'] d IH]; simpl; [reflexivity|].
  destruct (Z.eqb_spec k' k) as [->|Hneq]; [discriminate|].
  intros Hget. rewrite (IH Hget).
  destruct (Z.eqb_spec k' k0) as [->|Hneq0]; [|reflexivity].
  destruct (Z.eqb_spec k k0) as [->|_]; [contradiction | reflexivity].
Qed.

Lemma delitem_app_absent d k v :
  IntDict.get d k = None -> IntDict.delitem (d ++ [(k, v)]) k = d.
Proof.
  induction d as [|[k' v'] d IH]; simpl.
  - now rewrite Z.eqb_refl.
  - destruct (Z.eqb k' k); [discriminate|].
    intros Hget. now rewrite IH.
Qed.

Lemma get_delitem d k k0 :
  NoDup (IntDict.keys d) ->
  IntDict.get (IntDict.delitem d k) k0
  = if Z.eqb k k0 then None else IntDict.get d k0.
Proof.
  induction d as [|[k' v'] d IH]; simpl; intros Hnodup.
  - now destruct (Z.eqb k k0).
  - inversion Hnodup as [|? ? Hnotin Hnodup']; subst.
    destruct (Z.eqb_spec k' k) as [->|Hneq].
    + destruct (Z.eqb_spec k k0) as [->|_]; [|reflexivity].
      now apply get_none_keys.
    + simpl. rewrite (IH Hnodup').
      destruct (Z.eqb_spec k' k0) as [->|_]; [|reflexivity].
      destruct (Z.eqb_spec k k0) as [->|_]; [contradiction | reflexivity].
Qed.

Lemma delitem_incl d k entry :
  In entry (IntDict.delitem d k) -> In entry d.
Proof.
  induction d as [|[k' v'] d IH]; simpl; [easy|].
  destruct (Z.eqb k' k); simpl; [now right|].
  intros [<-|Hin]; [now left | right; now apply IH].
Qed.

Lemma delitem_keys_NoDup d k :
  NoDup (IntDict.keys d) -> NoDup (IntDict.keys (IntDict.delitem d k)).
Proof.
  induction d as [|[k' v'] d IH]; simpl; intros Hnodup; [constructor|].
  inversion Hnodup as [|? ? Hnotin Hnodup']; subst.
  destruct (Z.eqb k' k); simpl; [exact Hnodup'|].
  constructor; [|now apply IH].
  intros Hin. apply Hnotin. unfold IntDict.keys in *.
  apply in_map_iff in Hin as [entry [Hfst Hin]].
  apply in_map_iff. exists entry. split; [exact Hfst|].
  now apply (delitem_incl d k).
Qed.
End IntDictLemmas.

Lemma contains_get (active : Registry) k :
  IntDict.contains active k = false <-> IntDict.get active k = None.
Proof.
  unfold IntDict.contains. destruct (IntDict.get active k); split;
    congruence.
Qed.

(** What [start_scanner] does, by case. *)
Lemma start_scanner_cases camera_opens (active : Registry) config :
  let camera_id := ScannerConfig.camera_id config in
  let scanner :=
    {| BarcodeScanner.camera_id := camera_id;
       BarcodeScanner.resolution :=
         (ScannerConfig.resolution_width config,
          ScannerConfig.resolution_height config);
       BarcodeScanner.cap :=
         Some {| VideoCapture.device := camera_id;
                 VideoCapture.opened := true |};
       BarcodeScanner.is_running := true |} in
  (IntDict.contains active camera_id = true ->
   start_scanner camera_opens active config
   = (active,
      Respond {| ScannerStatus.success := false;
                 ScannerStatus.camera_id := None;
                 ScannerStatus.message :=
                   ("Scanner " ++ str_int camera_id
                    ++ " already running")%string |}))
  /\ (IntDict.contains active camera_id = false ->
      camera_opens camera_id = false ->
      start_scanner camera_opens active config
      = (active,
         Respond {| ScannerStatus.success := false;
                    ScannerStatus.camera_id := None;
                    ScannerStatus.message :=
                      ("Failed to start camera "
                       ++ str_int camera_id)%string |}))
  /\ (IntDict.contains active camera_id = false ->
      camera_opens camera_id = true ->
      start_scanner camera_opens active config
      = (active ++ [(camera_id, scanner)],
         Respond {| ScannerStatus.success := true;
                    ScannerStatus.camera_id := Some camera_id;
                    ScannerStatus.message :=
                      ("Scanner " ++ str_int camera_id
                       ++ " started successfully")%string |})).
Proof.
  intros camera_id scanner. unfold start_scanner. fold camera_id.
  split; [|split].
  - now intros ->.
  - intros -> Hopens. unfold BarcodeScanner.start_camera.
    cbn [BarcodeScanner.init BarcodeScanner.camera_id VideoCapture.opened].
    now rewrite Hopens.
  - intros Habsent Hopens. rewrite Habsent.
    unfold BarcodeScanner.start_camera.
    cbn [BarcodeScanner.init BarcodeScanner.camera_id VideoCapture.opened
         BarcodeScanner.resolution].
    rewrite Hopens. cbn [negb].
    rewrite setitem_absent by now apply contains_get.
    reflexivity.
Qed.

(** Starting a scanner.  A camera that has a scanner is not started
    again: the request is refused and the registry, with the scanner that
    runs, is left as it is.  Otherwise the scanner is registered exactly
    when its camera opens, with the resolution asked for and running, and
    a request for one camera never touches the scanner of another. *)
Theorem start_scanner_registers_once :
  forall camera_opens (active : Registry) config,
    let camera_id := ScannerConfig.camera_id config in
    let started := start_scanner camera_opens active config in
    (IntDict.contains active camera_id = true ->
     fst started = active
     /\ exists status,
         snd started = Respond status
         /\ ScannerStatus.success status = false)
    /\ (IntDict.contains active camera_id = false ->
        (camera_opens camera_id = false ->
         fst started = active
         /\ exists status,
             snd started = Respond status
             /\ ScannerStatus.success status = false)
        /\ (camera_opens camera_id = true ->
            (exists scanner,
                IntDict.get (fst started) camera_id = Some scanner
                /\ registered_running (camera_id, scanner)
                /\ BarcodeScanner.resolution scanner
                   = (ScannerConfig.resolution_width config,
                      ScannerConfig.resolution_height config))
            /\ IntDict.keys (fst started)
               = IntDict.keys active ++ [camera_id]
            /\ exists status,
                snd started = Respond status
                /\ ScannerStatus.success status = true
                /\ ScannerStatus.camera_id status = Some camera_id))
    /\ (forall other,
           other <> camera_id ->
           IntDict.get (fst started) other = IntDict.get active other).
Proof.
  intros camera_opens active config camera_id started.
  destruct (start_scanner_cases camera_opens active config)
    as (Hrunning & Hclosed & Hopen).
  fold camera_id in Hrunning, Hclosed, Hopen. cbv zeta in Hopen.
  fold started in Hrunning, Hclosed, Hopen.
  split; [|split].
  - intros Hin. rewrite (Hrunning Hin). split; [reflexivity|].
    eexists. split; reflexivity.
  - intros Habsent. split.
    + intros Hopens. rewrite (Hclosed Habsent Hopens).
      split; [reflexivity|]. eexists. split; reflexivity.
    + intros Hopens. rewrite (Hopen Habsent Hopens). cbn [fst snd].
      apply contains_get in Habsent. split; [|split].
      * eexists. rewrite (get_app_absent _ _ _ _ Habsent), Z.eqb_refl.
        split; [reflexivity|]. split; [|reflexivity].
        repeat split.
      * unfold IntDict.keys. now rewrite map_app.
      * eexists. repeat split.
  - intros other Hother.
    destruct (IntDict.contains active camera_id) eqn:Hin.
    + now rewrite (Hrunning eq_refl).
    + destruct (camera_opens camera_id) eqn:Hopens.
      * rewrite (Hopen eq_refl eq_refl). cbn [fst].
        apply contains_get in Hin.
        rewrite (get_app_absent _ _ _ _ Hin).
        destruct (Z.eqb_spec camera_id other); [congruence | reflexivity].
      * now rewrite (Hclosed eq_refl eq_refl).
Qed.

Lemma start_scanner_registers_once_witness :
  fst (start_scanner (fun _ => true)
         (fst (start_scanner (fun _ => true) [] (config_of 0)))
         (config_of 0))
  = fst (start_scanner (fun _ => true) [] (config_of 0))
  /\ IntDict.keys (fst (start_scanner (fun _ => true) [] (config_of 0)))
     = [0%Z].
Proof.
  pose proof (start_scanner_registers_once (fun _ => true)
                (fst (start_scanner (fun _ => true) [] (config_of 0)))
                (config_of 0)) as H.
  pose proof (start_scanner_registers_once (fun _ => true) []
                (config_of 0)) as H0.
  cbv zeta in H, H0.
  destruct H as [H _]. destruct H0 as (_ & H0 & _).
  split.
  - apply (H eq_refl).
  - apply (proj2 (H0 eq_refl) eq_refl).
Defined.

(** Stopping a scanner.  A camera without a scanner gives a 404 and
    leaves the registry as it is.  A camera with one is dropped from the
    registry, the scanners of the other cameras staying as they are; and
    stopping a scanner right after it was started gives back the
    registry of before the start. *)
Theorem stop_scanner_removes :
  forall (active : Registry) camera_id,
    (IntDict.contains active camera_id = false ->
     stop_scanner active camera_id
     = (active,
        HTTPException 404
          ("Scanner " ++ str_int camera_id ++ " not found")%string))
    /\ (IntDict.contains active camera_id = true ->
        NoDup (IntDict.keys active) ->
        IntDict.contains (fst (stop_scanner active camera_id)) camera_id
        = false
        /\ (forall other,
               other <> camera_id ->
               IntDict.get (fst (stop_scanner active camera_id)) other
               = IntDict.get active other)
        /\ exists status,
            snd (stop_scanner active camera_id) = Respond status
            /\ ScannerStatus.success status = true)
    /\ (forall camera_opens config,
           ScannerConfig.camera_id config = camera_id ->
           IntDict.contains active camera_id = false ->
           camera_opens camera_id = true ->
           fst (stop_scanner
                  (fst (start_scanner camera_opens active config))
                  camera_id)
           = active).
Proof.
  intros active camera_id. split; [|split].
  - unfold stop_scanner. now intros ->.
  - intros Hin Hnodup. unfold stop_scanner. rewrite Hin. cbn [negb fst snd].
    split; [|split].
    + apply contains_get. now rewrite get_delitem, Z.eqb_refl.
    + intros other Hother. rewrite get_delitem by exact Hnodup.
      destruct (Z.eqb_spec camera_id other); [congruence | reflexivity].
    + eexists. split; reflexivity.
  - intros camera_opens config <- Habsent Hopens.
    destruct (start_scanner_cases camera_opens active config)
      as (_ & _ & Hopen).
    cbv zeta in Hopen. rewrite (Hopen Habsent Hopens). cbn [fst].
    apply contains_get in Habsent. unfold stop_scanner.
    unfold IntDict.contains at 1.
    rewrite (get_app_absent _ _ _ _ Habsent), Z.eqb_refl. cbn [negb fst].
    now apply delitem_app_absent.
Qed.

Lemma stop_scanner_removes_witness :
  stop_scanner [] 3
  = ([], HTTPException 404 "Scanner 3 not found")
  /\ fst (stop_scanner
            (fst (start_scanner (fun _ => true) [] (config_of 3))) 3)
     = [].
Proof.
  destruct (stop_scanner_removes [] 3) as (Hmissing & _ & Hround).
  split.
  - apply Hmissing. reflexivity.
  - apply (Hround (fun _ => true) (config_of 3)); reflexivity.
Defined.

Lemma serve_keeps_registry (active : Registry) r :
  NoDup (IntDict.keys active) ->
  Forall registered_running active ->
  NoDup (IntDict.keys (fst (serve active r)))
  /\ Forall registered_running (fst (serve active r)).
Proof.
  intros Hnodup Hrunning. destruct r as [camera_opens config|camera_id];
    simpl serve.
  - destruct (start_scanner_cases camera_opens active config)
      as (Hin & Hclosed & Hopen).
    cbv zeta in Hopen.
    destruct (IntDict.contains active (ScannerConfig.camera_id config))
      eqn:Hcontains.
    + now rewrite (Hin eq_refl).
    + destruct (camera_opens (ScannerConfig.camera_id config)) eqn:Hopens.
      * rewrite (Hopen eq_refl eq_refl). cbn [fst]. split.
        -- unfold IntDict.keys. rewrite map_app. simpl.
           apply NoDup_app; [exact Hnodup | repeat constructor; easy |].
           intros k Hk [<-|[]].
           apply contains_get, get_none_keys in Hcontains. contradiction.
        -- apply Forall_app. split; [exact Hrunning|].
           repeat constructor.
      * now rewrite (Hclosed eq_refl eq_refl).
  - unfold stop_scanner.
    destruct (IntDict.contains active camera_id); cbn [negb fst];
      [|now split].
    split; [now apply delitem_keys_NoDup|].
    rewrite Forall_forall in *. intros entry Hentry.
    apply Hrunning. now apply (delitem_incl active camera_id).
Qed.

(** The registry has one scanner per camera, and every scanner in it
    runs.  Whatever start and stop requests are served, starting from no
    scanner at all, no camera id is registered twice, and every
    registered scanner was made for the camera id it is registered
    under, has an open capture on that device and is running: so
    [capture_and_scan] on a registered scanner scans what the camera
    reads, and gives no frame only when the camera gives none. *)
Theorem registry_scanners_are_running :
  forall decode_utf8 requests,
    NoDup (IntDict.keys (serve_all [] requests))
    /\ Forall registered_running (serve_all [] requests)
    /\ (forall camera_id scanner read,
           IntDict.get (serve_all [] requests) camera_id = Some scanner ->
           BarcodeScanner.camera_id scanner = camera_id
           /\ capture_and_scan decode_utf8 scanner read
              = match read with
                | None => Some (None, [])
                | Some frame =>
                    match scan_frame decode_utf8 (fst frame) (snd frame) with
                    | Some results => Some (Some frame, results)
                    | None => None
                    end
                end).
Proof.
  intros decode_utf8 requests.
  assert (Hinv : forall requests (active : Registry),
             NoDup (IntDict.keys active) ->
             Forall registered_running active ->
             NoDup (IntDict.keys (serve_all active requests))
             /\ Forall registered_running (serve_all active requests)).
  { induction requests0 as [|r requests0 IH]; simpl; intros active Hn Hr.
    - now split.
    - destruct (serve_keeps_registry active r Hn Hr) as [Hn' Hr'].
      now apply IH. }
  destruct (Hinv requests [] (NoDup_nil _) (Forall_nil _))
    as [Hnodup Hrunning].
  split; [exact Hnodup|]. split; [exact Hrunning|].
  intros camera_id scanner read Hget.
  assert (Hentry : In (camera_id, scanner) (serve_all [] requests)).
  { clear -Hget. induction (serve_all [] requests) as [|[k v] d IH];
      simpl in *; [discriminate|].
    destruct (Z.eqb_spec k camera_id) as [->|_].
    - injection Hget as ->. now left.
    - right. now apply IH. }
  rewrite Forall_forall in Hrunning.
  destruct (Hrunning _ Hentry) as (Hid & Hrun & Hcap). simpl in *.
  split; [exact Hid|].
  unfold capture_and_scan. now rewrite Hrun, Hcap.
Qed.

(** The life of a scanner.  A scanner that was never started, one whose
    camera did not open, and one that was stopped give no frame and no
    result, whatever the camera would read; stopping twice is stopping
    once, and stopping a scanner that was never started changes
    nothing.  A scanner whose camera opened scans the frame that is
    read. *)
Theorem scanner_lifecycle :
  forall decode_utf8 camera_opens camera_id resolution read,
    let scanner := BarcodeScanner.init camera_id resolution in
    let started := fst (BarcodeScanner.start_camera camera_opens scanner) in
    capture_and_scan decode_utf8 scanner read = Some (None, [])
    /\ capture_and_scan decode_utf8 (BarcodeScanner.stop_camera started) read
       = Some (None, [])
    /\ BarcodeScanner.stop_camera scanner = scanner
    /\ BarcodeScanner.stop_camera (BarcodeScanner.stop_camera started)
       = BarcodeScanner.stop_camera started
    /\ (camera_opens camera_id = false ->
        snd (BarcodeScanner.start_camera camera_opens scanner) = false
        /\ capture_and_scan decode_utf8 started read = Some (None, []))
    /\ (camera_opens camera_id = true ->
        snd (BarcodeScanner.start_camera camera_opens scanner) = true
        /\ forall frame,
            capture_and_scan decode_utf8 started (Some frame)
            = match scan_frame decode_utf8 (fst frame) (snd frame) with
              | Some results => Some (Some frame, results)
              | None => None
              end).
Proof.
  intros decode_utf8 camera_opens camera_id resolution read scanner started.
  subst started scanner.
  unfold BarcodeScanner.start_camera, BarcodeScanner.stop_camera,
    capture_and_scan, BarcodeScanner.init.
  cbn [BarcodeScanner.camera_id BarcodeScanner.cap
       BarcodeScanner.is_running BarcodeScanner.resolution
       VideoCapture.opened].
  destruct (camera_opens camera_id); cbn; repeat split; congruence.
Qed.

Lemma scanner_lifecycle_witness :
  capture_and_scan decode_ascii
    (fst (BarcodeScanner.start_camera (fun _ => true)
            (BarcodeScanner.init 0 (1280, 720)%Z)))
    (Some ([detection "A" "QRCODE" 10], [detection "A" "CODE128" 11]))
  = Some (Some ([detection "A" "QRCODE" 10], [detection "A" "CODE128" 11]),
          [{| ScanResult.data := "A";
              ScanResult.type := "CODE128";
              ScanResult.bbox := (11, 0, 40, 40)%Z;
              ScanResult.confidence := 1 |}]).
Proof.
  pose proof (scanner_lifecycle decode_ascii (fun _ => true) 0
                (1280, 720)%Z None) as H.
  cbv zeta in H. destruct H as (_ & _ & _ & _ & _ & H).
  destruct (H eq_refl) as [_ Hscan].
  rewrite Hscan. reflexivity.
Defined.

Lemma registry_scanners_are_running_witness :
  BarcodeScanner.camera_id
    {| BarcodeScanner.camera_id := 1;
       BarcodeScanner.resolution := (1280, 720)%Z;
       BarcodeScanner.cap :=
         Some {| VideoCapture.device := 1; VideoCapture.opened := true |};
       BarcodeScanner.is_running := true |}
  = 1%Z
  /\ IntDict.keys
       (serve_all []
          [Start (fun _ => true) (config_of 0);
           Start (fun _ => true) (config_of 1);
           Start (fun _ => true) (config_of 0);
           Stop 0])
     = [1%Z].
Proof.
  split; [|reflexivity].
  destruct (registry_scanners_are_running decode_ascii
              [Start (fun _ => true) (config_of 0);
               Start (fun _ => true) (config_of 1);
               Start (fun _ => true) (config_of 0);
               Stop 0]) as (_ & _ & H).
  apply (H 1%Z _ None). reflexivity.
Defined.

(** * Properties of the QR payloads *)

Section DictUpdate.
Context {V : Type}.
Implicit Types (d other : PyDict.t V) (k : string) (v : V).

Lemma dict_get_setitem d k v k0 :
  dict_get (PyDict.setitem d k v) k0
  = if String.eqb k k0 then Some v else dict_get d k0.
Proof.
  induction d as [|[k' v'] d IH]; simpl; [reflexivity|].
  destruct (String.eqb k' k) eqn:Hk; simpl.
  - apply String.eqb_eq in Hk. subst k'. now destruct (String.eqb k k0).
  - rewrite IH. destruct (String.eqb k' k0) eqn:Hk0; [|reflexivity].
    apply String.eqb_eq in Hk0. subst k'.
    now rewrite String.eqb_sym, Hk.
Qed.

Lemma dict_get_none d k :
  dict_get d k = None <-> ~ In k (PyDict.keys d).
Proof.
  induction d as [|[k' v'] d IH]; simpl; [tauto|].
  destruct (String.eqb_spec k' k) as [->|Hneq].
  - split; [discriminate | intros H; exfalso; auto].
  - rewrite IH. tauto.
Qed.

Lemma dict_get_update other :
  forall d k,
    NoDup (PyDict.keys other) ->
    dict_get (dict_update d other) k
    = match dict_get other k with
      | Some v => Some v
      | None => dict_get d k
      end.
Proof.
  unfold dict_update.
  induction other as [|[k1 v1] other IH]; simpl; intros d k Hnodup;
    [reflexivity|].
  inversion Hnodup as [|? ? Hnotin Hnodup']; subst.
  rewrite (IH _ _ Hnodup'), dict_get_setitem.
  destruct (String.eqb_spec k1 k) as [->|_]; [|reflexivity].
  apply dict_get_none in Hnotin. now rewrite Hnotin.
Qed.

Lemma keys_update other :
  forall d,
    NoDup (PyDict.keys other) ->
    PyDict.keys (dict_update d other)
    = PyDict.keys d
      ++ filter (fun k => negb (mem k (PyDict.keys d))) (PyDict.keys other).
Proof.
  unfold dict_update.
  induction other as [|[k1 v1] other IH]; simpl; intros d Hnodup.
  - now rewrite app_nil_r.
  - inversion Hnodup as [|? ? Hnotin Hnodup']; subst.
    rewrite (IH _ Hnodup'), keys_setitem.
    destruct (mem k1 (PyDict.keys d)) eqn:Hmem; simpl; [reflexivity|].
    rewrite <- app_assoc. simpl. do 2 f_equal.
    apply filter_ext_in. intros k Hk. rewrite mem_app.
    replace (mem k [k1]) with false; [now rewrite orb_false_r|].
    symmetry. unfold mem. simpl. rewrite orb_false_r.
    apply String.eqb_neq. intros ->. contradiction.
Qed.
End DictUpdate.

(** The keyword arguments win over the fixed fields of a QR payload.
    The payload of a product has the keys [type], [id], [sku], [name] in
    that order, then the keyword arguments that have other names, in
    their order; under each key it has the keyword argument of that
    name when there is one, and the fixed field otherwise.  So a keyword
    argument named [type] or [id] replaces the tag [product] or the id.
    The same holds for a warehouse, with [code] for [sku] and the tag
    [warehouse]. *)
Theorem qr_payload_kwargs_override :
  forall id key name kwargs,
    NoDup (PyDict.keys kwargs) ->
    let product := QRFile.qr_data (generate_product_qr id key name kwargs) in
    let warehouse :=
      QRFile.qr_data (generate_warehouse_qr id key name kwargs) in
    PyDict.keys product
    = ["type"; "id"; "sku"; "name"]%string
      ++ filter (fun k => negb (mem k ["type"; "id"; "sku"; "name"]%string))
           (PyDict.keys kwargs)
    /\ PyDict.keys warehouse
       = ["type"; "id"; "code"; "name"]%string
         ++ filter
              (fun k => negb (mem k ["type"; "id"; "code"; "name"]%string))
              (PyDict.keys kwargs)
    /\ (forall k,
           dict_get product k
           = match dict_get kwargs k with
             | Some v => Some v
             | None => dict_get (product_fields id key name) k
             end)
    /\ (forall k,
           dict_get warehouse k
           = match dict_get kwargs k with
             | Some v => Some v
             | None => dict_get (warehouse_fields id key name) k
             end)
    /\ dict_get (product_fields id key name) "type" = Some (PyStr "product")
    /\ dict_get (warehouse_fields id key name) "type"
       = Some (PyStr "warehouse").
Proof.
  intros id key name kwargs Hnodup product warehouse.
  subst product warehouse. unfold generate_product_qr, generate_warehouse_qr.
  cbn [QRFile.qr_data].
  split; [|split; [|split; [|split; [|split]]]].
  - now rewrite keys_update.
  - now rewrite keys_update.
  - intros k. now apply dict_get_update.
  - intros k. now apply dict_get_update.
  - reflexivity.
  - reflexivity.
Qed.

Lemma qr_payload_kwargs_override_witness :
  dict_get
    (QRFile.qr_data
       (generate_warehouse_qr (PyStr "wh-001") (PyStr "WH-MAIN")
          (PyStr "Main Warehouse") demo_warehouse_kwargs))
    "type"
  = Some (PyStr "main")
  /\ PyDict.keys
       (QRFile.qr_data
          (generate_warehouse_qr (PyStr "wh-001") (PyStr "WH-MAIN")
             (PyStr "Main Warehouse") demo_warehouse_kwargs))
     = ["type"; "id"; "code"; "name"; "location"]%string.
Proof.
  assert (Hnodup : NoDup (PyDict.keys demo_warehouse_kwargs))
    by (repeat constructor; simpl; intuition discriminate).
  pose proof (qr_payload_kwargs_override (PyStr "wh-001") (PyStr "WH-MAIN")
                (PyStr "Main Warehouse") demo_warehouse_kwargs Hnodup) as H.
  cbv zeta in H. destruct H as (_ & Hkeys & _ & Hget & _).
  split.
  - rewrite Hget. reflexivity.
  - rewrite Hkeys. reflexivity.
Defined.

Lemma string_length_append (a b : string) :
  String.length (a ++ b)%string = (String.length a + String.length b)%nat.
Proof. induction a as [|c a IH]; simpl; [reflexivity | now rewrite IH]. Qed.

Lemma string_append_cancel_r (a b x : string) :
  (a ++ x = b ++ x)%string -> a = b.
Proof.
  revert b. induction a as [|c a IH]; intros [|c' b] Heq; simpl in Heq.
  - reflexivity.
  - apply (f_equal String.length) in Heq. simpl in Heq.
    rewrite string_length_append in Heq. lia.
  - apply (f_equal String.length) in Heq. simpl in Heq.
    rewrite string_length_append in Heq. lia.
  - injection Heq as -> Heq. f_equal. now apply IH.
Qed.

Lemma string_append_cancel_l (x a b : string) :
  (x ++ a = x ++ b)%string -> a = b.
Proof.
  induction x as [|c x IH]; simpl; [easy|].
  intros [= Heq]. now apply IH.
Qed.

(** The file of a QR code is named after the text of the SKU, or of the
    warehouse code, and nothing else: two products get the same file
    exactly when their SKUs read the same (the integer 7 and the string
    [7] do), two warehouses exactly when their codes read the same, and
    a product never gets the file of a warehouse. *)
Theorem qr_file_names :
  forall id key name kwargs id' key' name' kwargs',
    (QRFile.filename (generate_product_qr id key name kwargs)
     = QRFile.filename (generate_product_qr id' key' name' kwargs')
     <-> py_str key = py_str key')
    /\ (QRFile.filename (generate_warehouse_qr id key name kwargs)
        = QRFile.filename (generate_warehouse_qr id' key' name' kwargs')
        <-> py_str key = py_str key')
    /\ QRFile.filename (generate_product_qr id key name kwargs)
       <> QRFile.filename (generate_warehouse_qr id' key' name' kwargs').
Proof.
  intros id key name kwargs id' key' name' kwargs'.
  unfold generate_product_qr, generate_warehouse_qr. cbn [QRFile.filename].
  split; [|split].
  - split; [|now intros ->].
    intros Heq. apply string_append_cancel_l in Heq.
    now apply string_append_cancel_r in Heq.
  - split; [|now intros ->].
    intros Heq. apply string_append_cancel_l in Heq.
    now apply string_append_cancel_r in Heq.
  - simpl. discriminate.
Qed.

Lemma qr_file_names_witness :
  QRFile.filename (generate_product_qr (PyStr "a") (PyInt 7) PyNone [])
  = QRFile.filename
      (generate_product_qr (PyStr "b") (PyStr "7") (PyStr "x") []).
Proof.
  apply (qr_file_names (PyStr "a") (PyInt 7) PyNone []
           (PyStr "b") (PyStr "7") (PyStr "x") []).
  reflexivity.
Defined.

Lemma call_with_dict_none {A : Type}
  (f : pyvalue -> pyvalue -> pyvalue -> PyDict.t pyvalue -> A)
  p1 p2 p3 d :
  call_with_dict f p1 p2 p3 d = None <->
  In "self"%string (PyDict.keys d)
  \/ ~ (In p1 (PyDict.keys d) /\ In p2 (PyDict.keys d)
        /\ In p3 (PyDict.keys d)).
Proof.
  unfold call_with_dict.
  destruct (mem "self" (PyDict.keys d)) eqn:Hself.
  - apply mem_In in Hself. tauto.
  - assert (~ In "self"%string (PyDict.keys d)) as Hnoself.
    { intros Hin. apply mem_In in Hin. congruence. }
    destruct (dict_get d p1) eqn:H1; [|rewrite dict_get_none in H1; tauto].
    destruct (dict_get d p2) eqn:H2; [|rewrite dict_get_none in H2; tauto].
    destruct (dict_get d p3) eqn:H3; [|rewrite dict_get_none in H3; tauto].
    split; [discriminate|]. intros [Hin|Hnot]; [contradiction|].
    exfalso. apply Hnot.
    repeat split;
      match goal with
      | |- In ?p _ =>
          destruct (in_dec string_dec p (PyDict.keys d)) as [Hin|Hout];
          [exact Hin | apply dict_get_none in Hout; congruence]
      end.
Qed.

(** A call of [generate_product_qr] on an unpacked product dictionary
    raises exactly when the dictionary cannot be passed (it lacks [product_id], [sku] or [name],
    or has an item named [self]) or the code cannot be made or saved. *)
Lemma generate_product_qr_call_none can_save product :
  generate_product_qr_call can_save product = None <->
  In "self"%string (PyDict.keys product)
  \/ ~ (In "product_id"%string (PyDict.keys product)
        /\ In "sku"%string (PyDict.keys product)
        /\ In "name"%string (PyDict.keys product))
  \/ (exists file,
         call_with_dict generate_product_qr "product_id" "sku" "name"
           product = Some file
         /\ can_save file = false).
Proof.
  unfold generate_product_qr_call.
  destruct (call_with_dict _ _ _ _ product) as [file|] eqn:Hcall.
  - assert (Hbound : ~ (In "self"%string (PyDict.keys product)
                        \/ ~ (In "product_id"%string (PyDict.keys product)
                              /\ In "sku"%string (PyDict.keys product)
                              /\ In "name"%string (PyDict.keys product)))).
    { intros Hbad.
      pose proof (proj2 (call_with_dict_none generate_product_qr
                           _ _ _ _) Hbad).
      congruence. }
    destruct (can_save file) eqn:Hsave.
    + split; [discriminate|].
      intros [Hself|[Hkeys|[file' [[= <-] Hno]]]];
        [tauto | tauto | congruence].
    + split; [|reflexivity]. intros _. right. right. now exists file.
  - apply call_with_dict_none in Hcall. split; [|reflexivity].
    intros _. tauto.
Qed.

(** A batch of products stops at the first product whose call raises.
    The batch returns its paths exactly when no call raises: every
    product dictionary has [product_id], [sku] and [name] and no item
    named [self], and every code can be made and saved; then one file is
    saved per product, in order, and the paths are the names of the
    files.  Otherwise the batch raises, and the files saved are those of
    the products before the first one whose call raises. *)
Theorem batch_stops_at_first_bad_product :
  forall can_save products,
    let call := generate_product_qr_call can_save in
    let saved := fst (generate_batch_products can_save products) in
    let filepaths := snd (generate_batch_products can_save products) in
    (filepaths = None <->
     exists product,
       In product products
       /\ (In "self"%string (PyDict.keys product)
           \/ ~ (In "product_id"%string (PyDict.keys product)
                 /\ In "sku"%string (PyDict.keys product)
                 /\ In "name"%string (PyDict.keys product))
           \/ (exists file,
                  call_with_dict generate_product_qr
                    "product_id" "sku" "name" product = Some file
                  /\ can_save file = false)))
    /\ (forall paths,
           filepaths = Some paths ->
           map Some saved = map call products
           /\ paths = map QRFile.filename saved
           /\ Forall (fun file => can_save file = true) saved)
    /\ (exists n,
           map Some saved = map call (firstn n products)
           /\ (filepaths = None -> (n < List.length products)%nat
               /\ call (nth n products []) = None)).
Proof.
  intros can_save products call. cbv zeta.
  induction products as [|product products IH].
  - simpl. split; [|split].
    + split; [discriminate | intros [p [[] _]]].
    + intros paths [= <-]. auto.
    + exists 0%nat. split; [reflexivity | discriminate].
  - destruct IH as (Hnone & Hsome & n & Hprefix & Hstop).
    simpl generate_batch_products. fold call.
    destruct (call product) as [file|] eqn:Hcall.
    + destruct (generate_batch_products can_save products)
        as [saved filepaths].
      cbn [fst snd] in *. split; [|split].
      * split.
        -- intros Hraise. destruct filepaths; [discriminate|].
           destruct (proj1 Hnone eq_refl) as [p [Hp Hbad]].
           exists p. split; [now right | exact Hbad].
        -- intros [p [[<-|Hp] Hbad]].
           ++ apply generate_product_qr_call_none with (can_save := can_save)
                in Hbad.
              unfold call in Hcall. congruence.
           ++ rewrite (proj2 Hnone); [reflexivity|]. exists p. auto.
      * intros paths Hpaths. destruct filepaths as [paths'|];
          [|discriminate].
        injection Hpaths as <-.
        destruct (Hsome paths' eq_refl) as (Hm & Hp & Hall).
        simpl. rewrite Hm, Hp, Hcall. repeat split. constructor; [|exact Hall].
        unfold call, generate_product_qr_call in Hcall.
        destruct (call_with_dict _ _ _ _ product) as [file'|];
          [|discriminate].
        destruct (can_save file') eqn:Hsave; [|discriminate].
        now injection Hcall as <-.
      * exists (S n). simpl. rewrite Hprefix, Hcall. split; [reflexivity|].
        intros Hraise. destruct filepaths; [discriminate|].
        destruct (Hstop eq_refl). split; [lia | assumption].
    + cbn [fst snd]. split; [|split].
      * split; [|reflexivity]. intros _. exists product.
        split; [now left|]. now apply generate_product_qr_call_none in Hcall.
      * discriminate.
      * exists 0%nat. split; [reflexivity|]. intros _. simpl.
        split; [lia | exact Hcall].
Qed.

Lemma batch_stops_at_first_bad_product_witness :
  snd (generate_batch_products flat_directory
         [demo_product; slash_product; demo_product])
  = None
  /\ map QRFile.filename
       (fst (generate_batch_products flat_directory
               [demo_product; slash_product; demo_product]))
     = ["product_STEEL-ROD-50.png"]%string
  /\ snd (generate_batch_products flat_directory
            [demo_product; demo_product])
     = Some ["product_STEEL-ROD-50.png"; "product_STEEL-ROD-50.png"]%string.
Proof.
  split; [|split; reflexivity].
  apply (proj1 (batch_stops_at_first_bad_product flat_directory
                  [demo_product; slash_product; demo_product])).
  exists slash_product.
  split; [simpl; auto|]. right. right. eexists. split; reflexivity.
Defined.

(** * Properties of the printable sheet *)

Lemma sheet_loop_nth qr_paths :
  forall page_num idx k qr_path,
    (0 <= idx <= 12)%Z ->
    nth_error qr_paths k = Some qr_path ->
    nth_error (sheet_loop qr_paths page_num idx) k
    = Some {| Placement.qr_path := qr_path;
              Placement.page_num :=
                (page_num + (idx + Z.of_nat k) / 12)%Z;
              Placement.row := (((idx + Z.of_nat k) mod 12) / 3)%Z;
              Placement.col := ((idx + Z.of_nat k) mod 3)%Z |}.
Proof.
  induction qr_paths as [|p rest IH]; intros page_num idx k qr_path Hidx Hnth.
  - destruct k; discriminate.
  - simpl sheet_loop. unfold sheet_cols, sheet_rows.
    change (3 * 4)%Z with 12%Z.
    destruct k as [|k].
    + injection Hnth as <-. simpl nth_error. rewrite Z.add_0_r.
      destruct (Z.geb_spec idx 12) as [Hge|Hlt].
      * assert (idx = 12%Z) as -> by lia. reflexivity.
      * rewrite (Z.div_small idx 12), (Z.mod_small idx 12) by lia.
        rewrite Z.add_0_r. reflexivity.
    + simpl nth_error in *.
      destruct (Z.geb_spec idx 12) as [Hge|Hlt].
      * assert (idx = 12%Z) as -> by lia.
        erewrite IH; [|lia|exact Hnth]. do 2 f_equal.
        -- rewrite Nat2Z.inj_succ.
           replace (12 + Z.succ (Z.of_nat k))%Z
             with (0 + 1 + Z.of_nat k + 1 * 12)%Z by lia.
           rewrite Z.div_add by lia. lia.
        -- rewrite Nat2Z.inj_succ.
           replace (12 + Z.succ (Z.of_nat k))%Z
             with (0 + 1 + Z.of_nat k + 1 * 12)%Z by lia.
           now rewrite Z.mod_add by lia.
        -- rewrite Nat2Z.inj_succ.
           replace (12 + Z.succ (Z.of_nat k))%Z
             with (0 + 1 + Z.of_nat k + 4 * 3)%Z by lia.
           now rewrite Z.mod_add by lia.
      * erewrite IH; [|lia|exact Hnth]. rewrite Nat2Z.inj_succ.
        replace (idx + 1 + Z.of_nat k)%Z
          with (idx + Z.succ (Z.of_nat k))%Z by lia.
        reflexivity.
Qed.

(** The grid of the printable sheet.  The code number [k] of the list
    (from 0) is drawn on page [1 + k / 12], in row [(k mod 12) / 3] and
    column [k mod 3]: twelve codes a page, in four rows of three, so the
    row is below 4 and the column below 3, and no two codes of the list
    get the same cell of the same page.  One code is drawn per path. *)
Theorem printable_sheet_grid :
  forall qr_paths,
    List.length (create_printable_sheet qr_paths) = List.length qr_paths
    /\ (forall k qr_path,
           nth_error qr_paths k = Some qr_path ->
           exists placement,
             nth_error (create_printable_sheet qr_paths) k = Some placement
             /\ Placement.qr_path placement = qr_path
             /\ Placement.page_num placement = (1 + Z.of_nat k / 12)%Z
             /\ Placement.row placement = ((Z.of_nat k mod 12) / 3)%Z
             /\ Placement.col placement = (Z.of_nat k mod 3)%Z
             /\ (0 <= Placement.row placement < sheet_rows)%Z
             /\ (0 <= Placement.col placement < sheet_cols)%Z)
    /\ (forall j k a b,
           nth_error (create_printable_sheet qr_paths) j = Some a ->
           nth_error (create_printable_sheet qr_paths) k = Some b ->
           Placement.page_num a = Placement.page_num b ->
           Placement.row a = Placement.row b ->
           Placement.col a = Placement.col b ->
           j = k).
Proof.
  intros qr_paths.
  assert (Hlen : forall paths page_num idx,
             List.length (sheet_loop paths page_num idx)
             = List.length paths).
  { induction paths as [|p rest IH]; intros; simpl; [reflexivity|].
    now rewrite IH. }
  assert (Hnth : forall k qr_path,
             nth_error qr_paths k = Some qr_path ->
             nth_error (create_printable_sheet qr_paths) k
             = Some {| Placement.qr_path := qr_path;
                       Placement.page_num := (1 + Z.of_nat k / 12)%Z;
                       Placement.row := ((Z.of_nat k mod 12) / 3)%Z;
                       Placement.col := (Z.of_nat k mod 3)%Z |}).
  { intros k qr_path Hk. unfold create_printable_sheet.
    now rewrite (sheet_loop_nth _ 1 0 k qr_path ltac:(lia) Hk). }
  split; [apply Hlen|]. split.
  - intros k qr_path Hk. eexists. split; [exact (Hnth _ _ Hk)|].
    cbn [Placement.qr_path Placement.page_num Placement.row Placement.col].
    unfold sheet_rows, sheet_cols.
    repeat split; try reflexivity.
    + apply Z.div_pos; [apply Z.mod_pos_bound|]; lia.
    + apply Z.div_lt_upper_bound; [lia|].
      pose proof (Z.mod_pos_bound (Z.of_nat k) 12). lia.
    + apply Z.mod_pos_bound. lia.
    + apply Z.mod_pos_bound. lia.
  - intros j k a b Hj Hk Hpage Hrow Hcol.
    assert (Hjlt : (j < List.length qr_paths)%nat).
    { rewrite <- (Hlen qr_paths 1%Z 0%Z). apply nth_error_Some.
      unfold create_printable_sheet in Hj. congruence. }
    assert (Hklt : (k < List.length qr_paths)%nat).
    { rewrite <- (Hlen qr_paths 1%Z 0%Z). apply nth_error_Some.
      unfold create_printable_sheet in Hk. congruence. }
    destruct (nth_error qr_paths j) as [pj|] eqn:Hpj;
      [|apply nth_error_None in Hpj; lia].
    destruct (nth_error qr_paths k) as [pk|] eqn:Hpk;
      [|apply nth_error_None in Hpk; lia].
    pose proof (Hnth _ _ Hpj) as Ha. pose proof (Hnth _ _ Hpk) as Hb.
    rewrite Hj in Ha. rewrite Hk in Hb.
    assert (Ea : a = {| Placement.qr_path := pj;
                        Placement.page_num := (1 + Z.of_nat j / 12)%Z;
                        Placement.row := ((Z.of_nat j mod 12) / 3)%Z;
                        Placement.col := (Z.of_nat j mod 3)%Z |})
      by congruence.
    assert (Eb : b = {| Placement.qr_path := pk;
                        Placement.page_num := (1 + Z.of_nat k / 12)%Z;
                        Placement.row := ((Z.of_nat k mod 12) / 3)%Z;
                        Placement.col := (Z.of_nat k mod 3)%Z |})
      by congruence.
    assert (Hpage' : (1 + Z.of_nat j / 12 = 1 + Z.of_nat k / 12)%Z)
      by (rewrite Ea, Eb in Hpage; exact Hpage).
    assert (Hrow' : ((Z.of_nat j mod 12) / 3
                     = (Z.of_nat k mod 12) / 3)%Z)
      by (rewrite Ea, Eb in Hrow; exact Hrow).
    assert (Hcol' : (Z.of_nat j mod 3 = Z.of_nat k mod 3)%Z)
      by (rewrite Ea, Eb in Hcol; exact Hcol).
    clear Hpage Hrow Hcol Ha Hb Hj Hk Hnth Hlen.
    apply Nat2Z.inj.
    Z.to_euclidean_division_equations. lia.
Qed.

Lemma printable_sheet_grid_witness :
  exists placement,
    nth_error
      (create_printable_sheet
         ["a"; "b"; "c"; "d"; "e"; "f"; "g"; "h"; "i"; "j"; "k"; "l";
          "m"; "n"]%string)
      13
    = Some placement
    /\ Placement.qr_path placement = "n"%string
    /\ Placement.page_num placement = 2%Z
    /\ Placement.row placement = 0%Z
    /\ Placement.col placement = 1%Z
    /\ (0 <= Placement.row placement < sheet_rows)%Z
    /\ (0 <= Placement.col placement < sheet_cols)%Z.
Proof.
  apply (proj1 (proj2 (printable_sheet_grid
                         ["a"; "b"; "c"; "d"; "e"; "f"; "g"; "h"; "i";
                          "j"; "k"; "l"; "m"; "n"]%string))
           13%nat "n"%string).
  reflexivity.
Defined.
